(** * PallyOps Tracker: operation timing and batch status engine

    A shallow embedding of the timing core of the tracker
    (app/utils/constants.py, app/utils/timezone.py, app/models/operation.py,
    app/schemas/operation.py, app/services/operation_service.py,
    app/services/batch_service.py and the endpoints of
    app/routers/operations.py and app/routers/batches.py) together with
    the properties of the design specification that concern it and
    further properties of the code.

    Conventions of the embedding.
    - The [operations_log] table is a list of rows; an ORM object is a
      reference to a row, represented by the row's position in the table.
      The surrogate key [id] (a [uuid4] default) is that position: rows are
      never deleted, so positions are stable.
    - The database checks the column types and the constraints of
      [__table_args__] at every flush, and a flush it refuses raises
      [DataError] or [IntegrityError], which the services catch as the
      source does.  Failures of the infrastructure (a lost connection) are
      not modelled.
    - A service call receives the committed table and returns its result
      together with the committed table it leaves behind.  A call that ends
      without [db.commit()] (an early [return] or a [db.rollback()]) leaves
      the table it received: the request's session is closed by [get_db].
      Requests are serialised; interleavings of concurrent requests are not
      modelled.
    - One reading of the server clock is taken per request and passed as
      [now]; it is an aware datetime in the operating timezone.
    - Python floats are the kernel's binary64 floats.
    - A [str] is represented by its UTF-8 encoding, a string of bytes;
      [Py.chars] gives its characters.  Strings holding the character
      U+0000, which the database driver refuses as a parameter, are not
      considered. *)

From Stdlib Require Import ZArith NArith String Ascii List Bool Lia Floats Uint63.
From stdpp Require Import base tactics option list.
Import ListNotations.

#[local] Open Scope string_scope.
#[local] Open Scope list_scope.
#[local] Open Scope Z_scope.

(* ===================================================================== *)
(** ** Python values used by the code *)
(* ===================================================================== *)

Module Py.

(** [x in xs] for a list (or set) of strings. *)
Definition str_in (x : string) (xs : list string) : bool :=
  existsb (String.eqb x) xs.

(** Truth value of an [Optional[int]]: [None] and [0] are false. *)
Definition truthy_int (o : option Z) : bool :=
  match o with
  | Some z => negb (z =? 0)
  | None => false
  end.

(** Truth value of an [Optional[str]]: [None] and the empty string are false. *)
Definition truthy_str (o : option string) : bool :=
  match o with
  | Some s => negb (String.eqb s "")
  | None => false
  end.

(** [list.index(x)]: position of the first occurrence, [None] standing for
    [ValueError]. *)
Fixpoint list_index (x : string) (xs : list string) : option nat :=
  match xs with
  | [] => None
  | y :: ys => if String.eqb y x then Some O
               else option_map S (list_index x ys)
  end.

(** [', '.join(xs)]. *)
Definition join_comma (xs : list string) : string := String.concat ", " xs.

(** *** Characters *)

(** The UTF-8 encoding of a code point. *)
Definition utf8 (cp : N) : string :=
  let byte (n : N) := String (ascii_of_N n) EmptyString in
  let cont (n : N) := byte (128 + n mod 64)%N in
  if (cp <? 0x80)%N then byte cp
  else if (cp <? 0x800)%N then
    String.append (byte (192 + cp / 64)%N) (cont cp)
  else if (cp <? 0x10000)%N then
    String.append (byte (224 + cp / 4096)%N)
      (String.append (cont (cp / 64)%N) (cont cp))
  else
    String.append (byte (240 + cp / 262144)%N)
      (String.append (cont (cp / 4096)%N)
         (String.append (cont (cp / 64)%N) (cont cp))).

(** The bytes 10xxxxxx, which continue a character. *)
Definition is_continuation (c : ascii) : bool :=
  let n := N_of_ascii c in (128 <=? n)%N && (n <? 192)%N.

(** The characters of a string, first to last: each leading byte with
    the continuation bytes that follow it. *)
Fixpoint chars (s : string) : list string :=
  match s with
  | EmptyString => []
  | String c s' =>
      match chars s' with
      | String c' g :: gs =>
          if is_continuation c' then String c (String c' g) :: gs
          else String c EmptyString :: String c' g :: gs
      | gs => String c EmptyString :: gs
      end
  end.

(** [len(s)]: the number of characters. *)
Definition len (s : string) : nat := length (chars s).

(** The characters for which [str.isspace()] holds, those [str.strip()]
    removes: bidirectional type WS, B or S, or category Zs. *)
Definition WHITESPACE : list N :=
  [0x09; 0x0A; 0x0B; 0x0C; 0x0D; 0x1C; 0x1D; 0x1E; 0x1F; 0x20; 0x85; 0xA0;
   0x1680; 0x2000; 0x2001; 0x2002; 0x2003; 0x2004; 0x2005; 0x2006; 0x2007;
   0x2008; 0x2009; 0x200A; 0x2028; 0x2029; 0x202F; 0x205F; 0x3000]%N.

Definition isspace (ch : string) : bool := str_in ch (map utf8 WHITESPACE).

(** *** Floats *)

(** [float(z)] for an integer below [2^63] in magnitude; exact below
    [2^53], which covers every [Integer] column and every row count. *)
Definition float_of_int (z : Z) : float :=
  let a := PrimFloat.of_uint63 (Uint63.of_Z (Z.abs z)) in
  if z <? 0 then PrimFloat.opp a else a.

(** [a / b] on integers (true division), [b] non-zero.  IEEE division of
    the two conversions is the correctly rounded quotient whenever both
    are exactly representable. *)
Definition int_truediv (a b : Z) : float :=
  PrimFloat.div (float_of_int a) (float_of_int b).

(** Nearest integer to [num / den] ([den > 0], [num >= 0]), ties to even. *)
Definition round_half_even (num den : Z) : Z :=
  let q := num / den in
  let r := num mod den in
  match Z.compare (2 * r) den with
  | Lt => q
  | Gt => q + 1
  | Eq => if Z.even q then q else q + 1
  end.

(** The double nearest to [n / 100]: the value of the literal with the
    decimal digits of [n] and two places. *)
Definition hundredths (n : Z) : float :=
  PrimFloat.div (float_of_int n) (float_of_int 100).

(** [round(x, 2)].  CPython rounds the exact binary value of [x] to two
    decimal places, ties to even, and returns the double nearest to that
    decimal.  Zeros, infinities and NaN are returned unchanged; so is an
    [x] whose hundredfold reaches [2^53], because such an [x] is at least
    [2^46] and the doubles around it are further apart than the decimal
    moved. *)
Definition round2 (x : float) : float :=
  match Prim2SF x with
  | S754_finite s m e =>
      if 0 <=? e then x
      else
        let h := round_half_even (Z.pos m * 100) (2 ^ (- e)) in
        if 2 ^ 53 <=? h then x
        else if s then PrimFloat.opp (hundredths h) else hundredths h
  | _ => x
  end.

End Py.

(* ===================================================================== *)
(** ** datetime.date and datetime.datetime *)
(* ===================================================================== *)

Module Datetime.

Record date := mkdate { d_year : Z; d_month : Z; d_day : Z }.

Definition is_leap (y : Z) : bool :=
  (y mod 4 =? 0) && (negb (y mod 100 =? 0) || (y mod 400 =? 0)).

Definition days_in_month (y m : Z) : Z :=
  if m =? 2 then (if is_leap y then 29 else 28)
  else if (m =? 4) || (m =? 6) || (m =? 9) || (m =? 11) then 30
  else 31.

(** Number of days before January 1st of year [y]. *)
Definition days_before_year (y : Z) : Z :=
  let p := y - 1 in p * 365 + p / 4 - p / 100 + p / 400.

(** Number of days in year [y] before the first day of month [m]. *)
Definition days_before_month (y m : Z) : Z :=
  fold_right Z.add 0
    (map (days_in_month y) (map Z.of_nat (seq 1 (Z.to_nat (m - 1))))).

(** The dates [date(y, m, d)] accepts. *)
Definition valid_date (d : date) : bool :=
  (1 <=? d_year d) && (d_year d <=? 9999) &&
  (1 <=? d_month d) && (d_month d <=? 12) &&
  (1 <=? d_day d) && (d_day d <=? days_in_month (d_year d) (d_month d)).

(** [date.toordinal()]: January 1st of year 1 is day 1. *)
Definition toordinal (d : date) : Z :=
  days_before_year (d_year d) + days_before_month (d_year d) (d_month d)
  + d_day d.

(** [date.isoweekday()]: 1 is Monday, 7 is Sunday. *)
Definition isoweekday (d : date) : Z :=
  let r := toordinal d mod 7 in
  if r =? 0 then 7 else r.

Definition date_eqb (a b : date) : bool :=
  (d_year a =? d_year b) && (d_month a =? d_month b)
  && (d_day a =? d_day b).

(** [a < b] on dates: comparison of (year, month, day). *)
Definition date_ltb (a b : date) : bool :=
  (d_year a <? d_year b)
  || ((d_year a =? d_year b)
      && ((d_month a <? d_month b)
          || ((d_month a =? d_month b) && (d_day a <? d_day b)))).

(** [strftime("%A")] and [strftime("%B")] in the C locale. *)
Definition strftime_A (d : date) : string :=
  nth (Z.to_nat (isoweekday d - 1))
      ["Monday"; "Tuesday"; "Wednesday"; "Thursday"; "Friday"; "Saturday";
       "Sunday"] "".

Definition strftime_B (d : date) : string :=
  nth (Z.to_nat (d_month d - 1))
      ["January"; "February"; "March"; "April"; "May"; "June"; "July";
       "August"; "September"; "October"; "November"; "December"] "".

(** An aware datetime in the operating timezone (Africa/Lagos, a fixed
    offset): the local date and the microseconds since local midnight. *)
Record datetime := mkdatetime { dt_date : date; dt_us : Z }.

(** Microseconds from the (proleptic) epoch of ordinals. *)
Definition dt_micros (t : datetime) : Z :=
  toordinal (dt_date t) * 86400000000 + dt_us t.

(** [a <= b] on datetimes of the one timezone. *)
Definition datetime_leb (a b : datetime) : bool :=
  dt_micros a <=? dt_micros b.

End Datetime.
Export Datetime.


(* ===================================================================== *)
(** ** app/utils/constants.py *)
(* ===================================================================== *)

Module Constants.

Definition ROLE_ORDER : list string :=
  [ "Procurement";
    "Inventory QC - IN";
    "QC - Preppers";
    "Pre-stagers";
    "Extra Service Preppers";
    "Pickers and Packers";
    "QC-out";
    "Stock handler 1";
    "Stock handler 2";
    "Manifester";
    "Driver" ].

Definition VALID_ROLES : list string := ROLE_ORDER.

Definition TOTAL_ROLES : Z := Z.of_nat (length ROLE_ORDER).

Definition DRIVER_ROLE : string := "Driver".

Definition ALL_BATCHES : list string := ["A"; "B"; "C"; "D"].

Definition RESTRICTED_BATCHES : list string := ["A"; "B"; "C"].

Definition VALID_BATCHES : list string := ALL_BATCHES.

(** isoweekday numbers of Monday and Thursday. *)
Definition RESTRICTED_DAYS : list Z := [1; 4].

Module OperationStatus.
Definition PENDING : string := "PENDING".
Definition IN_PROGRESS : string := "IN_PROGRESS".
Definition COMPLETED : string := "COMPLETED".
End OperationStatus.

Module BatchStatus.
Definition RED : string := "RED".
Definition YELLOW : string := "YELLOW".
Definition GREEN : string := "GREEN".
End BatchStatus.

Definition get_role_index (role : string) : Z :=
  match Py.list_index role ROLE_ORDER with
  | Some i => Z.of_nat i
  | None => -1
  end.

Definition get_previous_role (role : string) : option string :=
  let index := get_role_index role in
  if index <=? 0 then None
  else ROLE_ORDER !! Z.to_nat (index - 1).

(** [get_next_role] *)
Definition get_next_role (role : string) : option string :=
  let index := get_role_index role in
  if (index <? 0) || (Z.of_nat (length ROLE_ORDER) - 1 <=? index) then None
  else ROLE_ORDER !! Z.to_nat (index + 1).

Definition is_valid_role (role : string) : bool := Py.str_in role VALID_ROLES.

Definition is_valid_batch (batch : string) : bool :=
  Py.str_in batch VALID_BATCHES.

Definition is_driver_role (role : string) : bool :=
  String.eqb role DRIVER_ROLE.

Definition get_available_batches_for_date (operation_date : date)
  : list string :=
  let day_of_week := isoweekday operation_date in
  if existsb (Z.eqb day_of_week) RESTRICTED_DAYS then RESTRICTED_BATCHES
  else ALL_BATCHES.

Definition get_day_name (operation_date : date) : string :=
  strftime_A operation_date.

Definition get_month_name (operation_date : date) : string :=
  strftime_B operation_date.

Module Messages.
Definition OPERATION_STARTED : string := "Operation started successfully".
Definition OPERATION_COMPLETED : string :=
  "Operation completed successfully".
Definition OPERATION_ALREADY_STARTED : string :=
  "Operation already started".
Definition OPERATION_NOT_STARTED : string :=
  "Operation has not been started yet".
Definition OPERATION_ALREADY_COMPLETED : string :=
  "Operation already completed".
Definition BATCH_NOT_AVAILABLE : string :=
  "Batch not available for this date".
Definition READONLY_DATE : string :=
  "Cannot modify operations for past dates".
End Messages.

End Constants.
Export Constants.

(* ===================================================================== *)
(** ** app/utils/timezone.py *)
(* ===================================================================== *)

Module Timezone.

(** [get_current_time()] is the request's clock reading [now]. *)
Definition get_current_date (now : datetime) : date := dt_date now.

Definition is_past_date (now : datetime) (check_date : date) : bool :=
  date_ltb check_date (get_current_date now).

Definition is_today (now : datetime) (check_date : date) : bool :=
  date_eqb check_date (get_current_date now).

Definition is_future_date (now : datetime) (check_date : date) : bool :=
  date_ltb (get_current_date now) check_date.

(** [(date2 - date1).days] *)
Definition days_difference (date1 date2 : date) : Z :=
  toordinal date2 - toordinal date1.

End Timezone.
Export Timezone.

(* ===================================================================== *)
(** ** app/models/operation.py *)
(* ===================================================================== *)

Module Model.

Definition UUID := Z.

(** The part of a [User] the timing core reads. *)
Record User := mkUser { user_id : UUID; user_name : string }.

(** A row of [operations_log].  The key [id] is the row's position in the
    table and is not a field. *)
Record OperationsLog := mkOperationsLog {
  operation_date : date;
  day_of_week : string;
  month : string;
  year : Z;
  batch : string;
  operation_role : string;
  start_time : option datetime;
  end_time : option datetime;
  total_orders : option Z;
  on_time_deliveries : option Z;
  started_by_user_id : option UUID;
  completed_by_user_id : option UUID;
  created_at : datetime;
  updated_at : datetime
}.

(** [OperationsLog.status] *)
Definition status (self : OperationsLog) : string :=
  match end_time self with
  | Some _ => "COMPLETED"
  | None =>
      match start_time self with
      | Some _ => "IN_PROGRESS"
      | None => "PENDING"
      end
  end.

(** [int(x)] for a finite float: truncation toward zero. *)
Definition int_of_float (x : float) : Z :=
  match Prim2SF x with
  | S754_finite s m e =>
      let a := if 0 <=? e then Z.pos m * 2 ^ e
               else Z.pos m / 2 ^ (- e) in
      if s then - a else a
  | _ => 0
  end.

(** [OperationsLog.duration_minutes]: [timedelta.total_seconds()] divides
    the microseconds by [10**6]. *)
Definition duration_minutes (self : OperationsLog) : option Z :=
  match start_time self, end_time self with
  | Some s, Some e =>
      let total_seconds := Py.int_truediv (dt_micros e - dt_micros s) 1000000 in
      Some (int_of_float (PrimFloat.div total_seconds (Py.float_of_int 60)))
  | _, _ => None
  end.

(** [OperationsLog.on_time_percentage] *)
Definition on_time_percentage (self : OperationsLog) : option float :=
  match total_orders self, on_time_deliveries self with
  | Some total, Some on_time =>
      if Py.truthy_int (Some total) && (0 <? total) then
        Some (Py.round2 (PrimFloat.mul (Py.int_truediv on_time total)
                                       (Py.float_of_int 100)))
      else None
  | _, _ => None
  end.

End Model.
Export Model.

(* ===================================================================== *)
(** ** The operations_log table and its constraints

    The column types and [__table_args__] of [OperationsLog], as the
    database enforces them on every flushed INSERT and UPDATE.  A CHECK
    constraint refuses a row only when its condition is false: a condition
    that is NULL (unknown) lets the row through.  The length limits of the
    [String(n)] columns are not modelled. *)
(* ===================================================================== *)

Module Db.

Inductive DbError :=
| DataError (detail : string)
| IntegrityError (constraint : string).

(** [str(e)]: only the name of what was violated is kept. *)
Definition str (e : DbError) : string :=
  match e with
  | DataError d => d
  | IntegrityError c => c
  end.

(** The table, in insertion order. *)
Abbreviation Table := (list OperationsLog).

(** Range of an [Integer] column. *)
Definition int4 (z : Z) : bool :=
  (-2147483648 <=? z) && (z <=? 2147483647).

Definition opt_int4 (o : option Z) : bool :=
  match o with
  | Some z => int4 z
  | None => true
  end.

(** What a [String(n)] column stores: at most [n] characters, or more
    when the excess is blank.  PostgreSQL cuts such a value to the
    limit.  The services flush no such batch (the batch has passed the
    availability test), day or month (both derived from the date), and a
    role cut to 50 characters is no role of the sequence, as the uncut
    one is none; so the row is kept as given. *)
Definition varchar (n : nat) (s : string) : bool :=
  forallb (String.eqb " ") (drop n (Py.chars s)).

(** The typed columns a service assigns, in the order of the table, each
    with the error PostgreSQL raises for a value it cannot store. *)
Definition column_types : list (string * (OperationsLog -> bool)) :=
  [ ("value too long for type character varying(10)",
     fun r => varchar 10 (day_of_week r));
    ("value too long for type character varying(10)",
     fun r => varchar 10 (month r));
    ("integer out of range", fun r => int4 (year r));
    ("value too long for type character varying(1)",
     fun r => varchar 1 (batch r));
    ("value too long for type character varying(50)",
     fun r => varchar 50 (operation_role r));
    ("integer out of range", fun r => opt_int4 (total_orders r));
    ("integer out of range", fun r => opt_int4 (on_time_deliveries r)) ].

(** The error of the first column whose value cannot be stored. *)
Definition mistyped (r : OperationsLog) : option string :=
  option_map fst (find (fun c => negb (snd c r)) column_types).

Definition columns_ok (r : OperationsLog) : bool :=
  forallb (fun c => snd c r) column_types.

(** "batch IN ('A', 'B', 'C', 'D')" *)
Definition valid_batch (r : OperationsLog) : bool :=
  Py.str_in (batch r) VALID_BATCHES.

(** "operation_role IN (...)" over [VALID_ROLES] *)
Definition valid_role (r : OperationsLog) : bool :=
  Py.str_in (operation_role r) VALID_ROLES.

(** "end_time IS NULL OR end_time >= start_time" *)
Definition end_after_start (r : OperationsLog) : bool :=
  match end_time r, start_time r with
  | Some e, Some s => datetime_leb s e
  | _, _ => true
  end.

(** "year >= 2024 AND year <= 2100" *)
Definition valid_year (r : OperationsLog) : bool :=
  (2024 <=? year r) && (year r <=? 2100).

(** "(operation_role != 'Driver') OR (end_time IS NULL) OR
     (total_orders IS NOT NULL AND total_orders >= 0)" *)
Definition driver_orders_valid (r : OperationsLog) : bool :=
  negb (String.eqb (operation_role r) "Driver")
  || match end_time r with None => true | Some _ => false end
  || match total_orders r with Some t => 0 <=? t | None => false end.

(** "on_time_deliveries IS NULL OR total_orders IS NULL OR
     on_time_deliveries <= total_orders" *)
Definition on_time_not_exceed_total (r : OperationsLog) : bool :=
  match on_time_deliveries r, total_orders r with
  | Some o, Some t => o <=? t
  | _, _ => true
  end.

Definition check_constraints : list (string * (OperationsLog -> bool)) :=
  [ ("valid_batch", valid_batch);
    ("valid_role", valid_role);
    ("end_after_start", end_after_start);
    ("valid_year", valid_year);
    ("driver_orders_valid", driver_orders_valid);
    ("on_time_not_exceed_total", on_time_not_exceed_total) ].

(** Name of a CHECK constraint the row violates, if any. *)
Definition violated (r : OperationsLog) : option string :=
  option_map fst (find (fun c => negb (snd c r)) check_constraints).

(** The column types are checked before the constraints. *)
Definition check_row (r : OperationsLog) : option DbError :=
  match mistyped r with
  | Some e => Some (DataError e)
  | None => option_map IntegrityError (violated r)
  end.

(** The columns of "unique_operation". *)
Definition same_key (a b : OperationsLog) : bool :=
  date_eqb (operation_date a) (operation_date b)
  && String.eqb (batch a) (batch b)
  && String.eqb (operation_role a) (operation_role b).

(** Flush of a new row.  [created_at] and [updated_at] have been given
    their defaults by the caller. *)
Definition insert (t : Table) (r : OperationsLog) : DbError + Table :=
  match check_row r with
  | Some e => inl e
  | None =>
      if existsb (same_key r) t
      then inl (IntegrityError "unique_operation")
      else inr (t ++ [r])
  end.

(** Flush of several new rows, in the order they were added. *)
Fixpoint insert_all (t : Table) (rs : list OperationsLog)
  : DbError + Table :=
  match rs with
  | [] => inr t
  | r :: rs' =>
      match insert t r with
      | inl e => inl e
      | inr t' => insert_all t' rs'
      end
  end.

(** [onupdate=get_current_time] of [updated_at]. *)
Definition touch (now : datetime) (r : OperationsLog) : OperationsLog :=
  {| operation_date := operation_date r;
     day_of_week := day_of_week r;
     month := month r;
     year := year r;
     batch := batch r;
     operation_role := operation_role r;
     start_time := start_time r;
     end_time := end_time r;
     total_orders := total_orders r;
     on_time_deliveries := on_time_deliveries r;
     started_by_user_id := started_by_user_id r;
     completed_by_user_id := completed_by_user_id r;
     created_at := created_at r;
     updated_at := now |}.

(** Flush of the modified row at position [i].  The services never assign
    a key column, so "unique_operation" is not at stake here. *)
Definition update (now : datetime) (t : Table) (i : nat)
           (r : OperationsLog) : DbError + Table :=
  match check_row (touch now r) with
  | Some e => inl e
  | None => inr (<[i := touch now r]> t)
  end.

(** [db.refresh(obj)]: the committed row behind the reference. *)
Definition refresh (t : Table) (i : nat) (obj : OperationsLog)
  : OperationsLog :=
  default obj (t !! i).

End Db.
Export Db.

(* ===================================================================== *)
(** ** app/schemas/operation.py: the request models *)
(* ===================================================================== *)

Module Schemas.

Record OperationStart := mkOperationStart {
  start_operation_date : date;
  start_batch : string;
  start_role : string
}.

Record OperationEnd := mkOperationEnd {
  end_operation_date : date;
  end_batch : string;
  end_role : string
}.

Record DriverEnd := mkDriverEnd {
  driver_operation_date : date;
  driver_batch : string;
  driver_total_orders : Z;
  driver_on_time_deliveries : Z
}.

(** [str.upper()] on the ASCII letters.  A character outside ASCII is
    left as it is: its upper case is never one of the letters A to D,
    which is all the code asks of an upper-cased string. *)
Definition upper_ascii (c : ascii) : ascii :=
  let n := nat_of_ascii c in
  if (97 <=? n)%nat && (n <=? 122)%nat then ascii_of_nat (n - 32) else c.

Fixpoint upper (s : string) : string :=
  match s with
  | EmptyString => EmptyString
  | String c s' => String (upper_ascii c) (upper s')
  end.

(** [str.lstrip()] on the characters of a string. *)
Fixpoint lstrip_chars (l : list string) : list string :=
  match l with
  | ch :: l' => if Py.isspace ch then lstrip_chars l' else l
  | [] => []
  end.

(** [str.strip()]: the string without the whitespace characters at
    either end. *)
Definition strip (s : string) : string :=
  String.concat ""
    (rev (lstrip_chars (rev (lstrip_chars (Py.chars s))))).

(** The [batch] field: [min_length=1], [max_length=1] (counted in
    characters), then [validate_batch].  [None] is a validation error. *)
Definition validate_batch (v : string) : option string :=
  if negb (Nat.eqb (Py.len v) 1) then None
  else
    let v := strip (upper v) in
    if Py.str_in v VALID_BATCHES then Some v else None.

(** [OperationStart.validate_role] *)
Definition validate_role (v : string) : option string :=
  let v := strip v in
  if Py.str_in v VALID_ROLES then Some v else None.

(** [OperationEnd.validate_role] *)
Definition validate_role_end (v : string) : option string :=
  let v := strip v in
  if negb (Py.str_in v VALID_ROLES) then None
  else if String.eqb v DRIVER_ROLE then None
  else Some v.

(** A non-negative integer field ([ge=0]). *)
Definition validate_ge0 (v : Z) : option Z :=
  if 0 <=? v then Some v else None.

(** [DriverEnd.validate_order_counts] (a model validator, mode "after"). *)
Definition validate_order_counts (self : DriverEnd) : option DriverEnd :=
  if driver_total_orders self <? driver_on_time_deliveries self then None
  else Some self.

(** Construction of the request models from the parsed request body;
    [None] is pydantic's [ValidationError]. *)
Definition OperationStart_validate (d : date) (b r : string)
  : option OperationStart :=
  match validate_batch b, validate_role r with
  | Some b', Some r' => Some (mkOperationStart d b' r')
  | _, _ => None
  end.

Definition OperationEnd_validate (d : date) (b r : string)
  : option OperationEnd :=
  match validate_batch b, validate_role_end r with
  | Some b', Some r' => Some (mkOperationEnd d b' r')
  | _, _ => None
  end.

Definition DriverEnd_validate (d : date) (b : string) (total on_time : Z)
  : option DriverEnd :=
  match validate_batch b, validate_ge0 total, validate_ge0 on_time with
  | Some b', Some t, Some o => validate_order_counts (mkDriverEnd d b' t o)
  | _, _, _ => None
  end.

End Schemas.
Export Schemas.

(* ===================================================================== *)
(** ** app/services/operation_service.py *)
(* ===================================================================== *)

Module OperationService.

(** The dictionary [_to_response] builds.  Dates and datetimes stand for
    their [isoformat()] strings. *)
Record OperationDict := mkOperationDict {
  resp_id : nat;
  resp_operation_date : date;
  resp_day_of_week : string;
  resp_month : string;
  resp_year : Z;
  resp_batch : string;
  resp_operation_role : string;
  resp_status : string;
  resp_start_time : option datetime;
  resp_end_time : option datetime;
  resp_duration_minutes : option Z;
  resp_total_orders : option Z;
  resp_on_time_deliveries : option Z;
  resp_on_time_percentage : option float;
  resp_started_by : option string;
  resp_completed_by : option string
}.

(** The third component of a service result: the operation with its
    optional warning, or the description of a start conflict (the
    dictionary with the keys "error", "started_by" and "started_at"). *)
Inductive ResponseData :=
| OperationData (operation : OperationDict) (warning : option string)
| ErrorData (error : string) (started_by : string) (started_at : datetime).

(** [(success, message, response_data)] *)
Definition ServiceResult : Type := bool * string * option ResponseData.

Record PreviousRoleCheck := mkPreviousRoleCheck {
  current_role : string;
  previous_role : option string;
  is_previous_completed : bool;
  show_warning : bool;
  warning_message : option string
}.

Section WithUsers.

(** The users table, read through the two relationships of a row. *)
Variable users : list User.

Definition load_user (uid : option UUID) : option User :=
  match uid with
  | Some u => find (fun x => user_id x =? u) users
  | None => None
  end.

Definition started_by_user (r : OperationsLog) : option User :=
  load_user (started_by_user_id r).

Definition completed_by_user (r : OperationsLog) : option User :=
  load_user (completed_by_user_id r).

Definition _to_response (i : nat) (operation : OperationsLog)
  : OperationDict :=
  {| resp_id := i;
     resp_operation_date := operation_date operation;
     resp_day_of_week := day_of_week operation;
     resp_month := month operation;
     resp_year := year operation;
     resp_batch := batch operation;
     resp_operation_role := operation_role operation;
     resp_status := status operation;
     resp_start_time := start_time operation;
     resp_end_time := end_time operation;
     resp_duration_minutes := duration_minutes operation;
     resp_total_orders := total_orders operation;
     resp_on_time_deliveries := on_time_deliveries operation;
     resp_on_time_percentage := on_time_percentage operation;
     resp_started_by := option_map user_name (started_by_user operation);
     resp_completed_by :=
       option_map user_name (completed_by_user operation) |}.

(** The filter of [get_operation]. *)
Definition matches (d : date) (b role : string) (r : OperationsLog)
  : bool :=
  date_eqb (operation_date r) d && String.eqb (batch r) b
  && String.eqb (operation_role r) role.

(** [get_operation]: the first matching row and its reference. *)
Definition get_operation (db : Table) (d : date) (b role : string)
  : option (nat * OperationsLog) :=
  list_find (fun r => matches d b role r = true) db.

(** [OperationsLog(operation_date=..., ..., operation_role=role)] with
    the column defaults of [created_at] and [updated_at]. *)
Definition new_operation (now : datetime) (d : date) (b role : string)
  : OperationsLog :=
  {| operation_date := d;
     day_of_week := get_day_name d;
     month := get_month_name d;
     year := d_year d;
     batch := b;
     operation_role := role;
     start_time := None;
     end_time := None;
     total_orders := None;
     on_time_deliveries := None;
     started_by_user_id := None;
     completed_by_user_id := None;
     created_at := now;
     updated_at := now |}.

(** [_get_or_create_operation]: the working table, and the reference
    and value of the row; [db.flush()] may raise. *)
Definition _get_or_create_operation (now : datetime) (db : Table)
           (d : date) (b role : string)
  : DbError + (Table * nat * OperationsLog) :=
  match get_operation db d b role with
  | Some (i, operation) => inr (db, i, operation)
  | None =>
      let operation := new_operation now d b role in
      match Db.insert db operation with
      | inl e => inl e
      | inr db' => inr (db', length db, operation)
      end
  end.

(** [_get_incomplete_roles] *)
Definition _get_incomplete_roles (db : Table) (d : date) (b : string)
           (exclude_role : string) : list string :=
  filter
    (fun role =>
       (negb (String.eqb role exclude_role)
        && match get_operation db d b role with
           | None => true
           | Some (_, operation) =>
               match end_time operation with
               | None => true
               | Some _ => false
               end
           end) = true)
    ROLE_ORDER.

(** [operation.start_time = ...; operation.started_by_user_id = ...] *)
Definition set_started (r : OperationsLog) (t : datetime) (uid : UUID)
  : OperationsLog :=
  {| operation_date := operation_date r;
     day_of_week := day_of_week r;
     month := month r;
     year := year r;
     batch := batch r;
     operation_role := operation_role r;
     start_time := Some t;
     end_time := end_time r;
     total_orders := total_orders r;
     on_time_deliveries := on_time_deliveries r;
     started_by_user_id := Some uid;
     completed_by_user_id := completed_by_user_id r;
     created_at := created_at r;
     updated_at := updated_at r |}.

(** [operation.end_time = ...; operation.completed_by_user_id = ...] *)
Definition set_completed (r : OperationsLog) (t : datetime) (uid : UUID)
  : OperationsLog :=
  {| operation_date := operation_date r;
     day_of_week := day_of_week r;
     month := month r;
     year := year r;
     batch := batch r;
     operation_role := operation_role r;
     start_time := start_time r;
     end_time := Some t;
     total_orders := total_orders r;
     on_time_deliveries := on_time_deliveries r;
     started_by_user_id := started_by_user_id r;
     completed_by_user_id := Some uid;
     created_at := created_at r;
     updated_at := updated_at r |}.

(** [operation.total_orders = ...; operation.on_time_deliveries = ...] *)
Definition set_delivery (r : OperationsLog) (total on_time : Z)
  : OperationsLog :=
  {| operation_date := operation_date r;
     day_of_week := day_of_week r;
     month := month r;
     year := year r;
     batch := batch r;
     operation_role := operation_role r;
     start_time := start_time r;
     end_time := end_time r;
     total_orders := Some total;
     on_time_deliveries := Some on_time;
     started_by_user_id := started_by_user_id r;
     completed_by_user_id := completed_by_user_id r;
     created_at := created_at r;
     updated_at := updated_at r |}.

(** The two handlers of [start_operation]: [except IntegrityError] and
    [except Exception], both after [db.rollback()]. *)
Definition start_failure (e : DbError) : ServiceResult :=
  match e with
  | IntegrityError _ => (false, Messages.OPERATION_ALREADY_STARTED, None)
  | _ =>
      (false, String.append "Failed to start operation: " (Db.str e), None)
  end.

(** The warning computed by [start_operation] (lines 109-120). *)
Definition start_warning (db : Table) (d : date) (b role : string)
  : option string :=
  let previous_role := get_previous_role role in
  if Py.truthy_str previous_role then
    match previous_role with
    | Some previous =>
        match get_operation db d b previous with
        | Some (_, prev_operation) =>
            match end_time prev_operation with
            | None =>
                Some (String.append "Previous operation '"
                        (String.append previous "' not completed yet"))
            | Some _ => None
            end
        | None => None
        end
    | None => None
    end
  else None.

Definition start_operation (now : datetime) (db : Table)
           (data : OperationStart) (user : User)
  : ServiceResult * Table :=
  let available_batches :=
    get_available_batches_for_date (start_operation_date data) in
  if negb (Py.str_in (start_batch data) available_batches) then
    ((false, Messages.BATCH_NOT_AVAILABLE, None), db)
  else if is_past_date now (start_operation_date data) then
    ((false, Messages.READONLY_DATE, None), db)
  else
    match _get_or_create_operation now db (start_operation_date data)
            (start_batch data) (start_role data) with
    | inl e => (start_failure e, db)
    | inr (db1, i, operation) =>
        match start_time operation with
        | Some started_at =>
            let started_by_name :=
              match started_by_user operation with
              | Some u => user_name u
              | None => "Unknown"
              end in
            ((false, Messages.OPERATION_ALREADY_STARTED,
              Some (ErrorData "ALREADY_STARTED" started_by_name started_at)),
             db)
        | None =>
            let warning :=
              start_warning db1 (start_operation_date data)
                (start_batch data) (start_role data) in
            let operation := set_started operation now (user_id user) in
            match Db.update now db1 i operation with
            | inl e => (start_failure e, db)
            | inr db2 =>
                let operation := Db.refresh db2 i operation in
                ((true, Messages.OPERATION_STARTED,
                  Some (OperationData (_to_response i operation) warning)),
                 db2)
            end
        end
    end.

Definition end_operation (now : datetime) (db : Table)
           (data : OperationEnd) (user : User)
  : ServiceResult * Table :=
  if is_past_date now (end_operation_date data) then
    ((false, Messages.READONLY_DATE, None), db)
  else
    match get_operation db (end_operation_date data) (end_batch data)
            (end_role data) with
    | None => ((false, Messages.OPERATION_NOT_STARTED, None), db)
    | Some (i, operation) =>
        match end_time operation, start_time operation with
        | Some _, _ =>
            ((false, Messages.OPERATION_ALREADY_COMPLETED, None), db)
        | None, None =>
            ((false, Messages.OPERATION_NOT_STARTED, None), db)
        | None, Some _ =>
            let operation := set_completed operation now (user_id user) in
            match Db.update now db i operation with
            | inl e =>
                ((false,
                  String.append "Failed to complete operation: " (Db.str e),
                  None), db)
            | inr db' =>
                let operation := Db.refresh db' i operation in
                ((true, Messages.OPERATION_COMPLETED,
                  Some (OperationData (_to_response i operation) None)),
                 db')
            end
        end
    end.

Definition end_driver_operation (now : datetime) (db : Table)
           (data : DriverEnd) (user : User)
  : ServiceResult * Table :=
  if is_past_date now (driver_operation_date data) then
    ((false, Messages.READONLY_DATE, None), db)
  else
    match get_operation db (driver_operation_date data)
            (driver_batch data) DRIVER_ROLE with
    | None => ((false, Messages.OPERATION_NOT_STARTED, None), db)
    | Some (i, operation) =>
        match end_time operation, start_time operation with
        | Some _, _ =>
            ((false, Messages.OPERATION_ALREADY_COMPLETED, None), db)
        | None, None =>
            ((false, Messages.OPERATION_NOT_STARTED, None), db)
        | None, Some _ =>
            let incomplete_roles :=
              _get_incomplete_roles db (driver_operation_date data)
                (driver_batch data) DRIVER_ROLE in
            let warning :=
              match incomplete_roles with
              | [] => None
              | _ =>
                  Some (String.append "Roles not completed: "
                          (Py.join_comma incomplete_roles))
              end in
            let operation :=
              set_delivery
                (set_completed operation now (user_id user))
                (driver_total_orders data)
                (driver_on_time_deliveries data) in
            match Db.update now db i operation with
            | inl e =>
                ((false,
                  String.append "Failed to complete driver operation: "
                    (Db.str e),
                  None), db)
            | inr db' =>
                let operation := Db.refresh db' i operation in
                ((true, Messages.OPERATION_COMPLETED,
                  Some (OperationData (_to_response i operation) warning)),
                 db')
            end
        end
    end.

Definition check_previous_role (db : Table) (d : date) (b role : string)
  : PreviousRoleCheck :=
  match get_previous_role role with
  | None =>
      {| current_role := role;
         previous_role := None;
         is_previous_completed := true;
         show_warning := false;
         warning_message := None |}
  | Some previous =>
      let is_completed :=
        match get_operation db d b previous with
        | Some (_, prev_operation) =>
            match end_time prev_operation with
            | Some _ => true
            | None => false
            end
        | None => false
        end in
      let show := negb is_completed in
      {| current_role := role;
         previous_role := Some previous;
         is_previous_completed := is_completed;
         show_warning := show;
         warning_message :=
           if show then
             Some (String.append "Previous operation '"
                     (String.append previous
                        "' not completed yet. Continue anyway?"))
           else None |}
  end.

(** [get_batch_operations] *)
Definition get_batch_operations (db : Table) (d : date) (b : string)
  : list OperationsLog :=
  filter
    (fun r =>
       (date_eqb (operation_date r) d && String.eqb (batch r) b) = true)
    db.

(** [{op.operation_role: op for op in operations}.get(role)]: of several
    entries with one key a dictionary keeps the last. *)
Definition op_map_get (operations : list OperationsLog) (role : string)
  : option OperationsLog :=
  fold_left
    (fun found op =>
       if String.eqb (operation_role op) role then Some op else found)
    operations None.

Record RoleStatusResponse := mkRoleStatusResponse {
  rs_role : string;
  rs_order : Z;
  rs_status : string;
  rs_start_time : option datetime;
  rs_end_time : option datetime;
  rs_duration_minutes : option Z;
  rs_started_by : option string;
  rs_completed_by : option string;
  rs_total_orders : option Z;
  rs_on_time_deliveries : option Z;
  rs_on_time_percentage : option float
}.

(** One iteration of the loop of [get_all_roles_status]. *)
Definition role_status (operations : list OperationsLog) (index : nat)
           (role : string) : RoleStatusResponse :=
  match op_map_get operations role with
  | Some operation =>
      {| rs_role := role;
         rs_order := Z.of_nat index + 1;
         rs_status := status operation;
         rs_start_time := start_time operation;
         rs_end_time := end_time operation;
         rs_duration_minutes := duration_minutes operation;
         rs_started_by := option_map user_name (started_by_user operation);
         rs_completed_by :=
           option_map user_name (completed_by_user operation);
         rs_total_orders := total_orders operation;
         rs_on_time_deliveries := on_time_deliveries operation;
         rs_on_time_percentage := on_time_percentage operation |}
  | None =>
      {| rs_role := role;
         rs_order := Z.of_nat index + 1;
         rs_status := OperationStatus.PENDING;
         rs_start_time := None;
         rs_end_time := None;
         rs_duration_minutes := None;
         rs_started_by := None;
         rs_completed_by := None;
         rs_total_orders := None;
         rs_on_time_deliveries := None;
         rs_on_time_percentage := None |}
  end.

(** [get_all_roles_status] *)
Definition get_all_roles_status (db : Table) (d : date) (b : string)
  : list RoleStatusResponse :=
  let operations := get_batch_operations db d b in
  imap (role_status operations) ROLE_ORDER.

End WithUsers.

End OperationService.
Export OperationService.

(* ===================================================================== *)
(** ** app/services/batch_service.py *)
(* ===================================================================== *)

Module BatchService.

Record BatchStatusResponse := mkBatchStatusResponse {
  bs_batch : string;
  bs_status : string;
  started_count : Z;
  completed_count : Z;
  total_roles : Z;
  progress_percentage : float
}.

(** [SELECT count(id) ... WHERE operation_date = d AND batch = b AND
    start_time IS NOT NULL] *)
Definition count_started (db : Table) (d : date) (b : string) : Z :=
  Z.of_nat
    (length
       (filter
          (fun r =>
             (date_eqb (operation_date r) d && String.eqb (batch r) b
              && match start_time r with Some _ => true | None => false end)
             = true)
          db)).

Definition count_completed (db : Table) (d : date) (b : string) : Z :=
  Z.of_nat
    (length
       (filter
          (fun r =>
             (date_eqb (operation_date r) d && String.eqb (batch r) b
              && match end_time r with Some _ => true | None => false end)
             = true)
          db)).

Definition _calculate_batch_status (db : Table) (d : date) (b : string)
  : BatchStatusResponse :=
  let started := count_started db d b in
  let completed := count_completed db d b in
  let status :=
    if started =? 0 then BatchStatus.RED
    else if TOTAL_ROLES <=? completed then BatchStatus.GREEN
    else BatchStatus.YELLOW in
  let progress :=
    Py.round2 (PrimFloat.mul (Py.int_truediv completed TOTAL_ROLES)
                             (Py.float_of_int 100)) in
  {| bs_batch := b;
     bs_status := status;
     started_count := started;
     completed_count := completed;
     total_roles := TOTAL_ROLES;
     progress_percentage := progress |}.

Definition is_batch_available (d : date) (b : string) : bool :=
  Py.str_in b (get_available_batches_for_date d).

(** The loop of [initialize_batch]: the rows added to the session, in
    order.  The session does not autoflush, so every [get_operation]
    reads the table as it was. *)
Fixpoint add_missing (now : datetime) (db : Table) (d : date) (b : string)
         (roles : list string) (added : list OperationsLog)
  : list OperationsLog :=
  match roles with
  | [] => added
  | role :: rest =>
      match get_operation db d b role with
      | None =>
          add_missing now db d b rest (added ++ [new_operation now d b role])
      | Some _ => add_missing now db d b rest added
      end
  end.

Definition initialize_batch (now : datetime) (db : Table) (d : date)
           (b : string) : bool * Table :=
  if negb (is_batch_available d b) then (false, db)
  else
    match Db.insert_all db (add_missing now db d b ROLE_ORDER []) with
    | inl _ => (false, db)
    | inr db' => (true, db')
    end.

(** The four accumulators of the loop of [get_daily_summary]. *)
Record SummaryAcc := mkSummaryAcc {
  acc_completed_batches : Z;
  acc_total_completed_roles : Z;
  acc_total_orders : Z;
  acc_total_on_time : Z
}.

(** One iteration of the loop. *)
Definition summary_step (db : Table) (d : date) (acc : SummaryAcc)
           (b : string) : SummaryAcc :=
  let st := _calculate_batch_status db d b in
  let total_completed_roles :=
    acc_total_completed_roles acc + completed_count st in
  let completed_batches :=
    if String.eqb (bs_status st) BatchStatus.GREEN
    then acc_completed_batches acc + 1
    else acc_completed_batches acc in
  let driver_op := get_operation db d b "Driver" in
  match driver_op with
  | Some (_, op) =>
      if Py.truthy_int (total_orders op) then
        let total := acc_total_orders acc + default 0 (total_orders op) in
        let on_time :=
          if Py.truthy_int (on_time_deliveries op)
          then acc_total_on_time acc + default 0 (on_time_deliveries op)
          else acc_total_on_time acc in
        mkSummaryAcc completed_batches total_completed_roles total on_time
      else
        mkSummaryAcc completed_batches total_completed_roles
          (acc_total_orders acc) (acc_total_on_time acc)
  | None =>
      mkSummaryAcc completed_batches total_completed_roles
        (acc_total_orders acc) (acc_total_on_time acc)
  end.

Record DailySummary := mkDailySummary {
  sum_operation_date : date;
  sum_day_of_week : string;
  sum_total_batches : Z;
  sum_completed_batches : Z;
  sum_total_roles : Z;
  sum_completed_roles : Z;
  overall_progress : float;
  total_orders_delivered : option Z;
  total_on_time_deliveries : option Z;
  overall_on_time_percentage : option float
}.

Definition get_daily_summary (db : Table) (d : date) : DailySummary :=
  let available_batches := get_available_batches_for_date d in
  let total_batches := Z.of_nat (length available_batches) in
  let acc :=
    fold_left (summary_step db d) available_batches
      (mkSummaryAcc 0 0 0 0) in
  let total_role_slots := total_batches * TOTAL_ROLES in
  let progress :=
    if 0 <? total_role_slots then
      Py.round2
        (PrimFloat.mul
           (Py.int_truediv (acc_total_completed_roles acc) total_role_slots)
           (Py.float_of_int 100))
    else Py.float_of_int 0 in
  let on_time_pct :=
    if 0 <? acc_total_orders acc then
      Some (Py.round2
              (PrimFloat.mul
                 (Py.int_truediv (acc_total_on_time acc)
                    (acc_total_orders acc))
                 (Py.float_of_int 100)))
    else None in
  {| sum_operation_date := d;
     sum_day_of_week := get_day_name d;
     sum_total_batches := total_batches;
     sum_completed_batches := acc_completed_batches acc;
     sum_total_roles := total_role_slots;
     sum_completed_roles := acc_total_completed_roles acc;
     overall_progress := progress;
     total_orders_delivered :=
       if 0 <? acc_total_orders acc then Some (acc_total_orders acc)
       else None;
     total_on_time_deliveries :=
       if 0 <? acc_total_on_time acc then Some (acc_total_on_time acc)
       else None;
     overall_on_time_percentage := on_time_pct |}.

Record BatchListResponse := mkBatchListResponse {
  bl_operation_date : date;
  bl_day_of_week : string;
  is_restricted_day : bool;
  batches : list BatchStatusResponse
}.

(** [get_batches_for_date] *)
Definition get_batches_for_date (db : Table) (d : date)
  : BatchListResponse :=
  let available_batches := get_available_batches_for_date d in
  {| bl_operation_date := d;
     bl_day_of_week := get_day_name d;
     is_restricted_day := existsb (Z.eqb (isoweekday d)) RESTRICTED_DAYS;
     batches := map (_calculate_batch_status db d) available_batches |}.

Record BatchDetailResponse := mkBatchDetailResponse {
  bd_batch : string;
  bd_operation_date : date;
  bd_day_of_week : string;
  bd_status : string;
  bd_is_readonly : bool;
  bd_started_count : Z;
  bd_completed_count : Z;
  bd_total_roles : Z;
  bd_progress_percentage : float
}.

(** [get_batch_detail]; [None] when the batch is not offered that day. *)
Definition get_batch_detail (now : datetime) (db : Table) (d : date)
           (b : string) : option BatchDetailResponse :=
  if negb (Py.str_in b (get_available_batches_for_date d)) then None
  else
    let status_info := _calculate_batch_status db d b in
    Some {| bd_batch := b;
            bd_operation_date := d;
            bd_day_of_week := get_day_name d;
            bd_status := bs_status status_info;
            bd_is_readonly := is_past_date now d;
            bd_started_count := started_count status_info;
            bd_completed_count := completed_count status_info;
            bd_total_roles := total_roles status_info;
            bd_progress_percentage := progress_percentage status_info |}.

Record BatchRolesResponse := mkBatchRolesResponse {
  br_batch : string;
  br_operation_date : date;
  br_day_of_week : string;
  br_month : string;
  br_year : Z;
  br_status : string;
  br_is_readonly : bool;
  br_started_count : Z;
  br_completed_count : Z;
  br_total_roles : Z;
  br_progress_percentage : float;
  br_roles : list RoleStatusResponse
}.

(** [get_batch_with_roles]; [None] when the batch is not offered that
    day. *)
Definition get_batch_with_roles (users : list User) (now : datetime)
           (db : Table) (d : date) (b : string)
  : option BatchRolesResponse :=
  if negb (Py.str_in b (get_available_batches_for_date d)) then None
  else
    let roles := get_all_roles_status users db d b in
    let status_info := _calculate_batch_status db d b in
    Some {| br_batch := b;
            br_operation_date := d;
            br_day_of_week := get_day_name d;
            br_month := get_month_name d;
            br_year := d_year d;
            br_status := bs_status status_info;
            br_is_readonly := is_past_date now d;
            br_started_count := started_count status_info;
            br_completed_count := completed_count status_info;
            br_total_roles := total_roles status_info;
            br_progress_percentage := progress_percentage status_info;
            br_roles := roles |}.

End BatchService.
Export BatchService.

(* ===================================================================== *)
(** ** app/routers/operations.py: the three mutating endpoints *)
(* ===================================================================== *)

Module Routers.

(** The [detail] of an [HTTPException]: a message, or the description of
    a start conflict. *)
Inductive Detail :=
| DetailMessage (message : string)
| DetailConflict (error message started_by : string)
                 (started_at : option datetime).

(** What a request comes to: FastAPI's 422 for a body the request model
    refuses (the handler does not run), an [HTTPException], or the
    response model. *)
Inductive HttpResponse :=
| RequestValidationError
| HTTPException (status_code : Z) (detail : Detail)
| Success (message : string) (data : OperationDict)
          (warning : option string).

(** The handlers' treatment of a service result: the response model on
    success; on failure 400 with the message, except that the start
    handler ([conflict_aware]) answers a start conflict with 409 and its
    description.  A successful result always carries the operation, so
    the last line is reached by failures only. *)
Definition respond (conflict_aware : bool) (r : ServiceResult)
  : HttpResponse :=
  match r with
  | (true, message, Some (OperationData operation warning)) =>
      Success message operation warning
  | (false, message, Some (ErrorData error started_by started_at)) =>
      if conflict_aware && String.eqb error "ALREADY_STARTED" then
        HTTPException 409
          (DetailConflict "ALREADY_STARTED" message started_by
             (Some started_at))
      else HTTPException 400 (DetailMessage message)
  | (_, message, _) => HTTPException 400 (DetailMessage message)
  end.

Section WithUsers.

Variable users : list User.

(** POST /operations/start *)
Definition start_operation (now : datetime) (db : Table) (d : date)
           (b role : string) (current_user : User)
  : HttpResponse * Table :=
  match OperationStart_validate d b role with
  | None => (RequestValidationError, db)
  | Some data =>
      let '(r, db') :=
        OperationService.start_operation users now db data current_user in
      (respond true r, db')
  end.

(** POST /operations/end *)
Definition end_operation (now : datetime) (db : Table) (d : date)
           (b role : string) (current_user : User)
  : HttpResponse * Table :=
  match OperationEnd_validate d b role with
  | None => (RequestValidationError, db)
  | Some data =>
      let '(r, db') :=
        OperationService.end_operation users now db data current_user in
      (respond false r, db')
  end.

(** POST /operations/end-driver *)
Definition end_driver_operation (now : datetime) (db : Table) (d : date)
           (b : string) (total_orders on_time_deliveries : Z)
           (current_user : User)
  : HttpResponse * Table :=
  match DriverEnd_validate d b total_orders on_time_deliveries with
  | None => (RequestValidationError, db)
  | Some data =>
      let '(r, db') :=
        OperationService.end_driver_operation users now db data
          current_user in
      (respond false r, db')
  end.

End WithUsers.

(** *** The reading endpoints, and app/routers/batches.py

    What a reading endpoint comes to: its body, or the status code of the
    [HTTPException] it raises (the text of the detail is not kept). *)
Inductive Http (A : Type) :=
| Ok (body : A)
| HttpError (status_code : Z).
Arguments Ok {A} body.
Arguments HttpError {A} status_code.

(** [batch = batch.upper().strip()] of a path or query parameter of
    length one, then the membership test: 422 on failure. *)
Definition normalize_batch (b : string) : option string := validate_batch b.

Section Reading.

Variable users : list User.

(** GET /operations/check-previous *)
Definition check_previous_role (db : Table) (d : date) (b role : string)
  : Http PreviousRoleCheck :=
  match normalize_batch b with
  | None => HttpError 422
  | Some b =>
      if negb (Py.str_in role VALID_ROLES) then HttpError 422
      else Ok (OperationService.check_previous_role db d b role)
  end.

(** GET /operations/{operation_date}/{batch}/{role} *)
Definition get_operation (db : Table) (d : date) (b role : string)
  : Http OperationDict :=
  match normalize_batch b with
  | None => HttpError 422
  | Some b =>
      if negb (Py.str_in role VALID_ROLES) then HttpError 422
      else
        match OperationService.get_operation db d b role with
        | None => HttpError 404
        | Some (i, operation) => Ok (_to_response users i operation)
        end
  end.

(** GET /batches *)
Definition get_batches (db : Table) (d : date) : Http BatchListResponse :=
  Ok (get_batches_for_date db d).

(** GET /batches/{batch} *)
Definition get_batch_detail (now : datetime) (db : Table) (b : string)
           (d : date) : Http BatchDetailResponse :=
  match normalize_batch b with
  | None => HttpError 422
  | Some b =>
      match BatchService.get_batch_detail now db d b with
      | None => HttpError 404
      | Some result => Ok result
      end
  end.

(** GET /batches/{batch}/roles *)
Definition get_batch_roles (now : datetime) (db : Table) (b : string)
           (d : date) : Http BatchRolesResponse :=
  match normalize_batch b with
  | None => HttpError 422
  | Some b =>
      match BatchService.get_batch_with_roles users now db d b with
      | None => HttpError 404
      | Some result => Ok result
      end
  end.

(** POST /batches/{batch}/initialize.  The handler returns what
    [get_batch_with_roles] returns, which is not [None] once the batch
    is known to be offered. *)
Definition initialize_batch (now : datetime) (db : Table) (b : string)
           (d : date) : Http (option BatchRolesResponse) * Table :=
  match normalize_batch b with
  | None => (HttpError 422, db)
  | Some b =>
      if negb (is_batch_available d b) then (HttpError 400, db)
      else
        let '(success, db') := BatchService.initialize_batch now db d b in
        if negb success then (HttpError 500, db')
        else (Ok (BatchService.get_batch_with_roles users now db' d b), db')
  end.

End Reading.

End Routers.

(* ===================================================================== *)
(** ** Vocabulary of the properties *)
(* ===================================================================== *)

(** The columns of the uniqueness constraint. *)
Definition key (r : OperationsLog) : date * string * string :=
  (operation_date r, batch r, operation_role r).

(** At most one record per (operation_date, batch, role): two references
    to rows with the same triple are the same reference. *)
Definition one_record_per_triple (db : Table) : Prop :=
  forall i j r1 r2,
    db !! i = Some r1 -> db !! j = Some r2 ->
    operation_date r1 = operation_date r2 ->
    batch r1 = batch r2 ->
    operation_role r1 = operation_role r2 ->
    i = j.

(** What the services keep true of every row besides the constraints of
    the table: a completed row has been started, and delivery counts are
    only found on completed rows. *)
Record row_ok (r : OperationsLog) : Prop := mk_row_ok {
  row_checked : check_row r = None;
  row_started : is_Some (end_time r) -> is_Some (start_time r);
  row_delivery : is_Some (total_orders r) -> is_Some (end_time r)
}.

Definition table_inv (db : Table) : Prop :=
  NoDup (key <$> db) /\ Forall row_ok db.

(** The tables the application can produce: from the empty table, by any
    sequence of calls of the four mutating services, whatever their
    arguments, clock readings and outcomes. *)
Inductive reachable : Table -> Prop :=
| reach_empty : reachable []
| reach_start users now db data user :
    reachable db ->
    reachable (snd (OperationService.start_operation users now db data user))
| reach_end users now db data user :
    reachable db ->
    reachable (snd (OperationService.end_operation users now db data user))
| reach_end_driver users now db data user :
    reachable db ->
    reachable
      (snd (OperationService.end_driver_operation users now db data user))
| reach_initialize now db d b :
    reachable db ->
    reachable (snd (BatchService.initialize_batch now db d b)).

(** The reading of [round(100 * num / den, 2)] on exact rationals: the
    double nearest to the quotient rounded to two decimal places. *)
Definition round_percentage_exact (num den : Z) : float :=
  Py.hundredths (Py.round_half_even (100 * 100 * num) den).

(** The warning attached to a service result, if any. *)
Definition attached_warning (r : ServiceResult) : option string :=
  match r with
  | (_, _, Some (OperationData _ warning)) => warning
  | _ => None
  end.

(** [r'] carries every stamp [r] carries. *)
Definition keeps_stamps (r r' : OperationsLog) : Prop :=
  key r' = key r
  /\ (forall t, start_time r = Some t -> start_time r' = Some t)
  /\ (forall t, end_time r = Some t -> end_time r' = Some t)
  /\ (forall u, start_time r = Some u ->
                started_by_user_id r' = started_by_user_id r)
  /\ (forall u, end_time r = Some u ->
                completed_by_user_id r' = completed_by_user_id r).

(** The row a Driver completion writes. *)
Definition driver_written (now : datetime) (op : OperationsLog)
           (data : DriverEnd) (user : User) : OperationsLog :=
  touch now
    (set_delivery (set_completed op now (user_id user))
       (driver_total_orders data) (driver_on_time_deliveries data)).

(** [evolves db db']: the services lead from the table [db] to the table
    [db'], by any sequence of calls of the four mutating services. *)
Inductive evolves (db : Table) : Table -> Prop :=
| evolves_refl : evolves db db
| evolves_start users now db' data user :
    evolves db db' ->
    evolves db
      (snd (OperationService.start_operation users now db' data user))
| evolves_end users now db' data user :
    evolves db db' ->
    evolves db (snd (OperationService.end_operation users now db' data user))
| evolves_end_driver users now db' data user :
    evolves db db' ->
    evolves db
      (snd (OperationService.end_driver_operation users now db' data user))
| evolves_initialize now db' d b :
    evolves db db' ->
    evolves db (snd (BatchService.initialize_batch now db' d b)).

(** Every record of [db] is at its place in [db'], with its stamps. *)
Definition extends (db db' : Table) : Prop :=
  forall i r, db !! i = Some r ->
    exists r', db' !! i = Some r' /\ keeps_stamps r r'.

(** What the services keep true of the columns of a record: the batch is
    offered on the date, the calendar columns repeat the date, and each
    actor column is filled together with its stamp. *)
Record columns_consistent (r : OperationsLog) : Prop := mk_columns_consistent {
  col_offered :
    Py.str_in (batch r) (get_available_batches_for_date (operation_date r))
    = true;
  col_day : day_of_week r = get_day_name (operation_date r);
  col_month : month r = get_month_name (operation_date r);
  col_year : year r = d_year (operation_date r);
  col_started_by :
    is_Some (started_by_user_id r) <-> is_Some (start_time r);
  col_completed_by :
    is_Some (completed_by_user_id r) <-> is_Some (end_time r)
}.

(** The tables the HTTP API can produce: from the empty table, by any
    sequence of requests to the four mutating endpoints, whatever their
    parameters, clock readings and answers. *)
Inductive api_reachable : Table -> Prop :=
| api_empty : api_reachable []
| api_start users now db d b role user :
    api_reachable db ->
    api_reachable (snd (Routers.start_operation users now db d b role user))
| api_end users now db d b role user :
    api_reachable db ->
    api_reachable (snd (Routers.end_operation users now db d b role user))
| api_end_driver users now db d b total on_time user :
    api_reachable db ->
    api_reachable
      (snd (Routers.end_driver_operation users now db d b total on_time user))
| api_initialize users now db b d :
    api_reachable db ->
    api_reachable (snd (Routers.initialize_batch users now db b d)).

(** Delivery counts come in pairs, on Driver records only, with
    0 <= on_time_deliveries <= total_orders. *)
Definition delivery_counts_ok (r : OperationsLog) : Prop :=
  (is_Some (total_orders r) -> operation_role r = DRIVER_ROLE)
  /\ (is_Some (on_time_deliveries r) -> is_Some (total_orders r))
  /\ (forall t, total_orders r = Some t ->
        exists o, on_time_deliveries r = Some o /\ 0 <= o <= t).

(* ===================================================================== *)
(** ** Concrete requests used in the examples *)
(* ===================================================================== *)

Module Examples.

(** Monday 15, Tuesday 16 and Wednesday 17 January 2024. *)
Definition monday : date := mkdate 2024 1 15.
Definition tuesday : date := mkdate 2024 1 16.
Definition wednesday : date := mkdate 2024 1 17.

(** Clock readings on the Tuesday and on the Wednesday. *)
Definition at_9 : datetime := mkdatetime tuesday 32400000000.
Definition at_10 : datetime := mkdatetime tuesday 36000000000.
Definition at_11 : datetime := mkdatetime tuesday 39600000000.
Definition next_day : datetime := mkdatetime wednesday 32400000000.

Definition ada : User := mkUser 1 "Ada".
Definition bola : User := mkUser 2 "Bola".
Definition users : list User := [ada; bola].

Definition start_of (role : string) : OperationStart :=
  mkOperationStart tuesday "A" role.

(** Procurement of batch A started at nine. *)
Definition procurement_started : Table :=
  (OperationService.start_operation users at_9 [] (start_of "Procurement")
     ada).2.

(** Then the next role started at ten, Procurement still in progress. *)
Definition two_started : Table :=
  (OperationService.start_operation users at_10 procurement_started
     (start_of "Inventory QC - IN") bola).2.

(** Procurement of batch A started at nine and completed at ten. *)
Definition procurement_completed : Table :=
  (OperationService.end_operation users at_10 procurement_started
     (mkOperationEnd tuesday "A" "Procurement") ada).2.

(** The Driver of batch A started at nine, nothing else recorded. *)
Definition driver_started : Table :=
  (OperationService.start_operation users at_9 [] (start_of "Driver")
     ada).2.

(** A Driver record carrying the given delivery counts. *)
Definition delivered (total on_time : Z) : OperationsLog :=
  set_delivery
    (set_completed
       (set_started (new_operation at_9 tuesday "A" "Driver") at_9 1)
       at_10 1)
    total on_time.

End Examples.

(* ===================================================================== *)
(** ** Basic facts *)
(* ===================================================================== *)

Lemma date_eqb_eq a b : date_eqb a b = true <-> a = b.
Proof.
  unfold date_eqb. destruct a as [y1 m1 d1], b as [y2 m2 d2]; simpl.
  rewrite !andb_true_iff, !Z.eqb_eq. split.
  - intros [[-> ->] ->]. reflexivity.
  - intros [= -> -> ->]. auto.
Qed.

Lemma str_in_elem_of x xs : Py.str_in x xs = true <-> x ∈ xs.
Proof.
  unfold Py.str_in. rewrite existsb_exists, list_elem_of_In. split.
  - intros (y & Hy & He). apply String.eqb_eq in He. subst. exact Hy.
  - intros H. exists x. split; [exact H | apply String.eqb_refl].
Qed.

Lemma matches_key d b role r :
  matches d b role r = true <-> key r = (d, b, role).
Proof.
  unfold matches, key.
  rewrite !andb_true_iff, date_eqb_eq, !String.eqb_eq. split.
  - intros [[-> ->] ->]. reflexivity.
  - intros [= -> -> ->]. auto.
Qed.

Lemma same_key_key a b : same_key a b = true <-> key a = key b.
Proof.
  unfold same_key, key.
  rewrite !andb_true_iff, date_eqb_eq, !String.eqb_eq. split.
  - intros [[-> ->] ->]. reflexivity.
  - intros [= -> -> ->]. auto.
Qed.

Lemma key_touch now r : key (touch now r) = key r.
Proof. reflexivity. Qed.

Lemma one_record_per_triple_NoDup db :
  one_record_per_triple db <-> NoDup (key <$> db).
Proof.
  rewrite NoDup_alt. unfold one_record_per_triple. split.
  - intros H i j k Hi Hj.
    apply list_lookup_fmap_Some in Hi as (r1 & Hk1 & Hi).
    apply list_lookup_fmap_Some in Hj as (r2 & Hk2 & Hj).
    assert (key r1 = key r2) as Hk by congruence.
    unfold key in Hk. inversion Hk.
    eapply H; eauto.
  - intros H i j r1 r2 Hi Hj H1 H2 H3.
    apply (H i j (key r1)); apply list_lookup_fmap_Some.
    + exists r1. auto.
    + exists r2. split; [|exact Hj].
      unfold key. rewrite H1, H2, H3. reflexivity.
Qed.

Lemma get_operation_Some db d b role i r :
  get_operation db d b role = Some (i, r) ->
  db !! i = Some r /\ key r = (d, b, role).
Proof.
  unfold get_operation. intros H. apply list_find_Some in H.
  destruct H as (Hi & Hm & _). split; [exact Hi | by apply matches_key].
Qed.

Lemma get_operation_None db d b role :
  get_operation db d b role = None ->
  forall r, r ∈ db -> key r <> (d, b, role).
Proof.
  unfold get_operation. intros H r Hr Hk.
  rewrite list_find_None in H. rewrite Forall_forall in H.
  apply (H r Hr). by apply matches_key.
Qed.

Lemma get_operation_lookup db d b role i r :
  NoDup (key <$> db) ->
  db !! i = Some r -> key r = (d, b, role) ->
  get_operation db d b role = Some (i, r).
Proof.
  intros Hnd Hi Hk. unfold get_operation. apply list_find_Some.
  split; [exact Hi|]. split; [by apply matches_key|].
  intros j y Hj Hlt Hm. apply matches_key in Hm.
  rewrite NoDup_alt in Hnd.
  assert (i = j); [|lia].
  apply (Hnd i j (d, b, role)); apply list_lookup_fmap_Some.
  - exists r. auto.
  - exists y. auto.
Qed.

(* ===================================================================== *)
(** ** Flushes keep the invariants *)
(* ===================================================================== *)

Lemma insert_inr (db : Table) r db' :
  Db.insert db r = inr db' ->
  db' = db ++ [r] /\ check_row r = None /\ key r ∉ (key <$> db).
Proof.
  unfold Db.insert. destruct (check_row r) eqn:Hc; [discriminate|].
  destruct (existsb (same_key r) db) eqn:He; [discriminate|].
  intros [= <-]. split; [reflexivity|]. split; [reflexivity|].
  intros Hin. apply list_elem_of_fmap in Hin as (r' & Hk & Hr').
  assert (existsb (same_key r) db = true) as Ht; [|congruence].
  apply existsb_exists. exists r'. split.
  - by apply list_elem_of_In.
  - by apply same_key_key.
Qed.

Lemma insert_NoDup (db : Table) r db' :
  NoDup (key <$> db) -> Db.insert db r = inr db' -> NoDup (key <$> db').
Proof.
  intros Hnd Hi. apply insert_inr in Hi as (-> & _ & Hnew).
  rewrite fmap_app. apply NoDup_app. split; [exact Hnd|]. split.
  - intros k Hk Hk'. apply list_elem_of_singleton in Hk'. by subst.
  - apply NoDup_singleton.
Qed.

Lemma update_inr now (db : Table) (i : nat) r db' :
  Db.update now db i r = inr db' ->
  db' = <[i := touch now r]> db /\ check_row (touch now r) = None.
Proof.
  unfold Db.update. destruct (check_row (touch now r)); [discriminate|].
  by intros [= <-].
Qed.

Lemma update_keys now (db : Table) (i : nat) r old :
  db !! i = Some old -> key r = key old ->
  key <$> <[i := touch now r]> db = key <$> db.
Proof.
  intros Hi Hk. rewrite list_fmap_insert, key_touch, Hk.
  apply list_insert_id. by rewrite list_lookup_fmap, Hi.
Qed.

Lemma new_operation_ok now d b role :
  check_row (new_operation now d b role) = None ->
  row_ok (new_operation now d b role).
Proof.
  intros Hc. split; [exact Hc | |]; simpl; intros [x Hx]; discriminate.
Qed.

Lemma row_ok_touch now r :
  check_row (touch now r) = None ->
  (is_Some (end_time r) -> is_Some (start_time r)) ->
  (is_Some (total_orders r) -> is_Some (end_time r)) ->
  row_ok (touch now r).
Proof. intros Hc H1 H2. by split. Qed.

Lemma insert_all_inv db rs db' :
  table_inv db ->
  Forall (fun r => start_time r = None /\ end_time r = None
                   /\ total_orders r = None) rs ->
  Db.insert_all db rs = inr db' ->
  table_inv db' /\ db' = db ++ rs.
Proof.
  revert db. induction rs as [|r rs IH]; intros db Hinv Hrs; simpl.
  - intros [= <-]. by rewrite app_nil_r.
  - destruct (Db.insert db r) as [e|db1] eqn:Hi; [discriminate|].
    intros Hall. inversion Hrs as [|? ? (Hs & He & Ht) Hrs']; subst.
    destruct Hinv as [Hnd Hok].
    pose proof (insert_NoDup _ _ _ Hnd Hi) as Hnd1.
    apply insert_inr in Hi as (-> & Hc & _).
    destruct (IH (db ++ [r])) as [Hinv' ->]; auto.
    + split; [exact Hnd1|]. apply Forall_app. split; [exact Hok|].
      apply Forall_singleton. split; [exact Hc| |]; intros [x Hx]; congruence.
    + split; [exact Hinv'|]. by rewrite <- app_assoc.
Qed.

Lemma insert_all_NoDup (db : Table) rs db' :
  NoDup (key <$> db) -> Db.insert_all db rs = inr db' ->
  NoDup (key <$> db').
Proof.
  revert db. induction rs as [|r rs IH]; intros db Hnd; simpl.
  - by intros [= <-].
  - destruct (Db.insert db r) as [e|db1] eqn:Hi; [discriminate|].
    intros Hall. eapply IH; [|exact Hall]. by eapply insert_NoDup.
Qed.

(* ===================================================================== *)
(** ** [_get_or_create_operation] *)
(* ===================================================================== *)

Lemma get_or_create_inr now db d b role db1 i op :
  _get_or_create_operation now db d b role = inr (db1, i, op) ->
  (get_operation db d b role = Some (i, op) /\ db1 = db)
  \/ (get_operation db d b role = None
      /\ op = new_operation now d b role
      /\ i = length db
      /\ Db.insert db op = inr db1).
Proof.
  unfold _get_or_create_operation.
  destruct (get_operation db d b role) as [[j r]|] eqn:Hg.
  - intros [= <- <- <-]. by left.
  - destruct (Db.insert db (new_operation now d b role)) eqn:Hi;
      [discriminate|].
    intros [= <- <- <-]. right. auto.
Qed.

Lemma get_or_create_lookup now db d b role db1 i op :
  _get_or_create_operation now db d b role = inr (db1, i, op) ->
  db1 !! i = Some op /\ key op = (d, b, role).
Proof.
  intros H. apply get_or_create_inr in H as [[Hg ->]|(_ & -> & -> & Hi)].
  - by apply get_operation_Some in Hg.
  - apply insert_inr in Hi as (-> & _ & _). split; [|reflexivity].
    rewrite lookup_app_r by lia. by rewrite Nat.sub_diag.
Qed.

Lemma get_or_create_NoDup now db d b role db1 i op :
  NoDup (key <$> db) ->
  _get_or_create_operation now db d b role = inr (db1, i, op) ->
  NoDup (key <$> db1).
Proof.
  intros Hnd H. apply get_or_create_inr in H as [[_ ->]|(_ & _ & _ & Hi)].
  - exact Hnd.
  - by eapply insert_NoDup.
Qed.

Lemma get_or_create_rows now db d b role db1 i op :
  Forall row_ok db ->
  _get_or_create_operation now db d b role = inr (db1, i, op) ->
  Forall row_ok db1.
Proof.
  intros Hok H.
  apply get_or_create_inr in H as [[_ ->]|(_ & -> & _ & Hi)]; [exact Hok|].
  apply insert_inr in Hi as (-> & Hc & _).
  apply Forall_app. split; [exact Hok|].
  apply Forall_singleton. by apply new_operation_ok.
Qed.

(* ===================================================================== *)
(** ** What each service leaves in the table *)
(* ===================================================================== *)

(** A call of [start_operation] either leaves the table it received, or it
    succeeds: it then leaves the working table of
    [_get_or_create_operation] with the start written on the row. *)
Lemma start_operation_table users now db data user :
  let res := OperationService.start_operation users now db data user in
  (res.1.1.1 = false /\ res.2 = db)
  \/ exists db1 i op,
      _get_or_create_operation now db (start_operation_date data)
        (start_batch data) (start_role data) = inr (db1, i, op)
      /\ start_time op = None
      /\ check_row (touch now (set_started op now (user_id user))) = None
      /\ res.2 = <[i := touch now (set_started op now (user_id user))]> db1
      /\ res.1.1.1 = true.
Proof.
  unfold OperationService.start_operation.
  destruct (negb _); [by left|].
  destruct (is_past_date _ _); [by left|].
  destruct (_get_or_create_operation _ _ _ _ _) as [e|[[db1 i] op]] eqn:Hg;
    [by left; destruct e|].
  destruct (start_time op) eqn:Hs; [by left|].
  destruct (Db.update _ _ _ _) as [e|db2] eqn:Hu; [by left; destruct e|].
  apply update_inr in Hu as [-> Hc].
  right. exists db1, i, op. by repeat split.
Qed.

Lemma end_operation_table users now db data user :
  let res := OperationService.end_operation users now db data user in
  (res.1.1.1 = false /\ res.2 = db)
  \/ exists i op t,
      get_operation db (end_operation_date data) (end_batch data)
        (end_role data) = Some (i, op)
      /\ start_time op = Some t /\ end_time op = None
      /\ check_row (touch now (set_completed op now (user_id user))) = None
      /\ res.2 = <[i := touch now (set_completed op now (user_id user))]> db
      /\ res.1.1.1 = true.
Proof.
  unfold OperationService.end_operation.
  destruct (is_past_date _ _); [by left|].
  destruct (get_operation _ _ _ _) as [[i op]|] eqn:Hg; [|by left].
  destruct (end_time op) eqn:He; [by left|].
  destruct (start_time op) as [t|] eqn:Hs; [|by left].
  destruct (Db.update _ _ _ _) as [e|db2] eqn:Hu; [by left|].
  apply update_inr in Hu as [-> Hc].
  right. exists i, op, t. by repeat split.
Qed.

Lemma end_driver_operation_table users now db data user :
  let res := OperationService.end_driver_operation users now db data user in
  let written op :=
    touch now
      (set_delivery (set_completed op now (user_id user))
         (driver_total_orders data) (driver_on_time_deliveries data)) in
  (res.1.1.1 = false /\ res.2 = db)
  \/ exists i op t,
      get_operation db (driver_operation_date data) (driver_batch data)
        DRIVER_ROLE = Some (i, op)
      /\ start_time op = Some t /\ end_time op = None
      /\ check_row (written op) = None
      /\ res.2 = <[i := written op]> db
      /\ res.1.1.1 = true.
Proof.
  unfold OperationService.end_driver_operation.
  destruct (is_past_date _ _); [by left|].
  destruct (get_operation _ _ _ _) as [[i op]|] eqn:Hg; [|by left].
  destruct (end_time op) eqn:He; [by left|].
  destruct (start_time op) as [t|] eqn:Hs; [|by left].
  destruct (Db.update _ _ _ _) as [e|db2] eqn:Hu; [by left|].
  apply update_inr in Hu as [-> Hc].
  right. exists i, op, t. by repeat split.
Qed.

Lemma add_missing_fresh now db d b roles added :
  Forall (fun r => start_time r = None /\ end_time r = None
                   /\ total_orders r = None) added ->
  Forall (fun r => start_time r = None /\ end_time r = None
                   /\ total_orders r = None)
         (add_missing now db d b roles added).
Proof.
  revert added. induction roles as [|role roles IH]; intros added H; simpl.
  - exact H.
  - destruct (get_operation db d b role); apply IH; [exact H|].
    apply Forall_app. split; [exact H|]. by apply Forall_singleton.
Qed.

Lemma initialize_batch_table now db d b :
  let res := BatchService.initialize_batch now db d b in
  (res.1 = false /\ res.2 = db)
  \/ (res.1 = true
      /\ is_batch_available d b = true
      /\ Db.insert_all db (add_missing now db d b ROLE_ORDER []) = inr res.2).
Proof.
  unfold BatchService.initialize_batch.
  destruct (is_batch_available d b); [|by left]. simpl.
  destruct (Db.insert_all _ _) as [e|db'] eqn:Hi; [by left|].
  right. auto.
Qed.

(* ===================================================================== *)
(** ** The services keep the invariants *)
(* ===================================================================== *)

Lemma start_operation_NoDup users now db data user :
  NoDup (key <$> db) ->
  NoDup (key <$> (OperationService.start_operation users now db data user).2).
Proof.
  intros Hnd.
  destruct (start_operation_table users now db data user)
    as [[_ ->]|(db1 & i & op & Hg & _ & _ & -> & _)]; [exact Hnd|].
  pose proof (get_or_create_lookup _ _ _ _ _ _ _ _ Hg) as [Hi _].
  rewrite (update_keys now db1 i _ op Hi) by reflexivity.
  by eapply get_or_create_NoDup.
Qed.

Lemma end_operation_NoDup users now db data user :
  NoDup (key <$> db) ->
  NoDup (key <$> (OperationService.end_operation users now db data user).2).
Proof.
  intros Hnd.
  destruct (end_operation_table users now db data user)
    as [[_ ->]|(i & op & t & Hg & _ & _ & _ & -> & _)]; [exact Hnd|].
  apply get_operation_Some in Hg as [Hi _].
  by rewrite (update_keys now db i _ op Hi).
Qed.

Lemma end_driver_operation_NoDup users now db data user :
  NoDup (key <$> db) ->
  NoDup
    (key <$> (OperationService.end_driver_operation users now db data user).2).
Proof.
  intros Hnd.
  destruct (end_driver_operation_table users now db data user)
    as [[_ ->]|(i & op & t & Hg & _ & _ & _ & -> & _)]; [exact Hnd|].
  apply get_operation_Some in Hg as [Hi _].
  by rewrite (update_keys now db i _ op Hi).
Qed.

Lemma initialize_batch_NoDup now db d b :
  NoDup (key <$> db) ->
  NoDup (key <$> (BatchService.initialize_batch now db d b).2).
Proof.
  intros Hnd.
  destruct (initialize_batch_table now db d b) as [[_ ->]|(_ & _ & Hi)];
    [exact Hnd|].
  by eapply insert_all_NoDup.
Qed.

Lemma start_operation_inv users now db data user :
  table_inv db ->
  table_inv (OperationService.start_operation users now db data user).2.
Proof.
  intros [Hnd Hok]. split; [by apply start_operation_NoDup|].
  destruct (start_operation_table users now db data user)
    as [[_ ->]|(db1 & i & op & Hg & Hs & Hc & -> & _)]; [exact Hok|].
  pose proof (get_or_create_lookup _ _ _ _ _ _ _ _ Hg) as [Hi _].
  pose proof (get_or_create_rows _ _ _ _ _ _ _ _ Hok Hg) as Hok1.
  apply Forall_insert; [exact Hok1|].
  assert (row_ok op) as Hop
      by (eapply Forall_forall; [exact Hok1 | by eapply list_elem_of_lookup_2]).
  apply row_ok_touch; [exact Hc | by simpl |].
  simpl. apply (row_delivery _ Hop).
Qed.

Lemma end_operation_inv users now db data user :
  table_inv db ->
  table_inv (OperationService.end_operation users now db data user).2.
Proof.
  intros [Hnd Hok]. split; [by apply end_operation_NoDup|].
  destruct (end_operation_table users now db data user)
    as [[_ ->]|(i & op & t & Hg & Hs & He & Hc & -> & _)]; [exact Hok|].
  apply Forall_insert; [exact Hok|].
  apply row_ok_touch; [exact Hc | |]; simpl; intros _; by rewrite ?Hs.
Qed.

Lemma end_driver_operation_inv users now db data user :
  table_inv db ->
  table_inv (OperationService.end_driver_operation users now db data user).2.
Proof.
  intros [Hnd Hok]. split; [by apply end_driver_operation_NoDup|].
  destruct (end_driver_operation_table users now db data user)
    as [[_ ->]|(i & op & t & Hg & Hs & He & Hc & -> & _)]; [exact Hok|].
  apply Forall_insert; [exact Hok|].
  apply row_ok_touch; [exact Hc | |]; simpl; intros _; by rewrite ?Hs.
Qed.

Lemma initialize_batch_inv now db d b :
  table_inv db -> table_inv (BatchService.initialize_batch now db d b).2.
Proof.
  intros Hinv.
  destruct (initialize_batch_table now db d b) as [[_ ->]|(_ & _ & Hi)];
    [exact Hinv|].
  eapply insert_all_inv in Hi as [Hinv' _]; [exact Hinv' | exact Hinv |].
  apply add_missing_fresh. constructor.
Qed.

Lemma reachable_inv db : reachable db -> table_inv db.
Proof.
  induction 1.
  - split; constructor.
  - by apply start_operation_inv.
  - by apply end_operation_inv.
  - by apply end_driver_operation_inv.
  - by apply initialize_batch_inv.
Qed.

Lemma reachable_row_ok db r : reachable db -> r ∈ db -> row_ok r.
Proof.
  intros Hr Hin. apply reachable_inv in Hr as [_ Hok].
  eapply Forall_forall; eauto.
Qed.

(* ===================================================================== *)
(** ** One record per (operation_date, batch, role) *)
(* ===================================================================== *)

(** X4. At any time: every table the application can produce has at most
    one record per (operation_date, batch, role). *)
Theorem reachable_one_record_per_triple db :
  reachable db -> one_record_per_triple db.
Proof.
  intros H. apply one_record_per_triple_NoDup. by apply reachable_inv in H as [].
Qed.

(** The constraint of the table is the arbiter: a flush of a row whose
    triple is already present is refused, whatever the caller had read. *)
Lemma insert_refuses_duplicate (db : Table) r r' :
  r' ∈ db -> key r = key r' -> check_row r = None ->
  Db.insert db r = inl (IntegrityError "unique_operation").
Proof.
  intros Hin Hk Hc. unfold Db.insert. rewrite Hc.
  assert (existsb (same_key r) db = true) as ->; [|reflexivity].
  apply existsb_exists. exists r'. split.
  - by apply list_elem_of_In.
  - by apply same_key_key.
Qed.

(** [start_operation] reports a refused flush as "already started". *)
Lemma start_failure_integrity c :
  start_failure (IntegrityError c)
  = (false, Messages.OPERATION_ALREADY_STARTED, None).
Proof. reflexivity. Qed.

(** A start on a triple whose record is already started: the conflict. *)
Lemma start_operation_conflict users now db data user i r started_at :
  Py.str_in (start_batch data)
    (get_available_batches_for_date (start_operation_date data)) = true ->
  is_past_date now (start_operation_date data) = false ->
  get_operation db (start_operation_date data) (start_batch data)
    (start_role data) = Some (i, r) ->
  start_time r = Some started_at ->
  OperationService.start_operation users now db data user
  = ((false, Messages.OPERATION_ALREADY_STARTED,
      Some (ErrorData "ALREADY_STARTED"
              match started_by_user users r with
              | Some u => user_name u
              | None => "Unknown"
              end started_at)),
     db).
Proof.
  intros Ha Hp Hg Hs. unfold OperationService.start_operation.
  rewrite Ha, Hp. simpl. unfold _get_or_create_operation.
  rewrite Hg, Hs. reflexivity.
Qed.

(** A start on a triple whose record is already started is refused and
    leaves the table, whatever the date and the batch: the first guard
    that applies gives the answer. *)
Lemma start_operation_duplicate users now db data user i r started_at :
  get_operation db (start_operation_date data) (start_batch data)
    (start_role data) = Some (i, r) ->
  start_time r = Some started_at ->
  OperationService.start_operation users now db data user
  = ((if negb (Py.str_in (start_batch data)
                 (get_available_batches_for_date (start_operation_date data)))
      then (false, Messages.BATCH_NOT_AVAILABLE, None)
      else if is_past_date now (start_operation_date data)
      then (false, Messages.READONLY_DATE, None)
      else (false, Messages.OPERATION_ALREADY_STARTED,
            Some (ErrorData "ALREADY_STARTED"
                    match started_by_user users r with
                    | Some u => user_name u
                    | None => "Unknown"
                    end started_at))),
     db).
Proof.
  intros Hg Hs. unfold OperationService.start_operation.
  destruct (negb _); [reflexivity|].
  destruct (is_past_date _ _); [reflexivity|].
  unfold _get_or_create_operation. rewrite Hg, Hs. reflexivity.
Qed.

(** The claim C1 as stated fails: a duplicate start is not always the
    ALREADY_STARTED conflict.  Procurement of batch A of Tuesday was
    started on the Tuesday; the same start sent on the Wednesday is
    refused as a modification of a past date. *)
Lemma duplicate_start_on_past_date :
  (exists r,
      r ∈ Examples.procurement_started
      /\ key r = (Examples.tuesday, "A", "Procurement")
      /\ start_time r = Some Examples.at_9)
  /\ OperationService.start_operation Examples.users Examples.next_day
       Examples.procurement_started (Examples.start_of "Procurement")
       Examples.bola
     = ((false, Messages.READONLY_DATE, None), Examples.procurement_started)
  /\ Messages.READONLY_DATE <> Messages.OPERATION_ALREADY_STARTED.
Proof.
  split; [|split; [vm_compute; reflexivity | discriminate]].
  eexists. split; [vm_compute; apply list_elem_of_here|]. by split.
Qed.

(** C1. At most one record exists per (operation_date, batch, role):
    each of the four mutating services, called on a table with at most
    one record per triple, leaves such a table.  A start of a triple
    whose record is already started never creates or overwrites a
    record, and is always refused: as a batch not available if the batch
    is not offered that day, else as a modification of a past date if
    the date is past, else with the ALREADY_STARTED conflict naming who
    started it and when.  Calls are serialised. *)
Theorem one_record_per_triple_preserved users now db :
  one_record_per_triple db ->
  (forall data user,
      one_record_per_triple
        (OperationService.start_operation users now db data user).2)
  /\ (forall data user,
      one_record_per_triple
        (OperationService.end_operation users now db data user).2)
  /\ (forall data user,
      one_record_per_triple
        (OperationService.end_driver_operation users now db data user).2)
  /\ (forall d b,
      one_record_per_triple (BatchService.initialize_batch now db d b).2)
  /\ (forall data user r started_at,
      r ∈ db ->
      key r = (start_operation_date data, start_batch data, start_role data) ->
      start_time r = Some started_at ->
      OperationService.start_operation users now db data user
      = ((if negb (Py.str_in (start_batch data)
                     (get_available_batches_for_date
                        (start_operation_date data)))
          then (false, Messages.BATCH_NOT_AVAILABLE, None)
          else if is_past_date now (start_operation_date data)
          then (false, Messages.READONLY_DATE, None)
          else (false, Messages.OPERATION_ALREADY_STARTED,
                Some (ErrorData "ALREADY_STARTED"
                        match started_by_user users r with
                        | Some u => user_name u
                        | None => "Unknown"
                        end started_at))),
         db)).
Proof.
  intros H. apply one_record_per_triple_NoDup in H.
  repeat split.
  - intros. apply one_record_per_triple_NoDup. by apply start_operation_NoDup.
  - intros. apply one_record_per_triple_NoDup. by apply end_operation_NoDup.
  - intros. apply one_record_per_triple_NoDup.
    by apply end_driver_operation_NoDup.
  - intros. apply one_record_per_triple_NoDup. by apply initialize_batch_NoDup.
  - intros data user r started_at Hin Hk Hs.
    apply list_elem_of_lookup in Hin as [i Hi].
    apply (start_operation_duplicate users now db data user i r started_at);
      [|exact Hs].
    by apply get_operation_lookup.
Qed.

(** A successful start writes the clock reading and the actor on the
    record of the triple. *)
Lemma start_operation_success users now db data user msg rd db' :
  OperationService.start_operation users now db data user
  = ((true, msg, rd), db') ->
  exists i r,
    db' !! i = Some r
    /\ key r = (start_operation_date data, start_batch data, start_role data)
    /\ start_time r = Some now
    /\ started_by_user_id r = Some (user_id user)
    /\ Py.str_in (start_batch data)
         (get_available_batches_for_date (start_operation_date data)) = true.
Proof.
  intros Heq.
  assert (Py.str_in (start_batch data)
            (get_available_batches_for_date (start_operation_date data))
          = true) as Ha.
  { revert Heq. unfold OperationService.start_operation.
    destruct (Py.str_in _ _); [done|]. simpl. by intros [=]. }
  destruct (start_operation_table users now db data user)
    as [[Hf _]|(db1 & i & op & Hg & _ & _ & Ht & _)].
  - rewrite Heq in Hf. discriminate.
  - rewrite Heq in Ht. simpl in Ht. subst db'.
    apply get_or_create_lookup in Hg as [Hi Hk].
    exists i, (touch now (set_started op now (user_id user))).
    split; [|by repeat split].
    apply list_lookup_insert_eq. by eapply lookup_lt_Some.
Qed.

(** Two starts of one triple: the second is the conflict, names the first
    clock reading, and leaves the table of the first. *)
Lemma start_twice users now db data user msg rd db' now' user' :
  one_record_per_triple db ->
  OperationService.start_operation users now db data user
  = ((true, msg, rd), db') ->
  is_past_date now' (start_operation_date data) = false ->
  exists started_by,
    OperationService.start_operation users now' db' data user'
    = ((false, Messages.OPERATION_ALREADY_STARTED,
        Some (ErrorData "ALREADY_STARTED" started_by now)), db').
Proof.
  intros Hone Heq Hp.
  pose proof (start_operation_success _ _ _ _ _ _ _ _ Heq)
    as (i & r & Hi & Hk & Hs & _ & Ha).
  eexists. eapply start_operation_conflict; eauto.
  apply get_operation_lookup; [|done..].
  replace db' with (OperationService.start_operation users now db data user).2
    by (by rewrite Heq).
  apply start_operation_NoDup. by apply one_record_per_triple_NoDup.
Qed.

(* ===================================================================== *)
(** ** Counting the records of a batch *)
(* ===================================================================== *)

Lemma columns_ok_spec r :
  columns_ok r = true
  <-> varchar 10 (day_of_week r) = true /\ varchar 10 (month r) = true
      /\ int4 (year r) = true /\ varchar 1 (batch r) = true
      /\ varchar 50 (operation_role r) = true
      /\ opt_int4 (total_orders r) = true
      /\ opt_int4 (on_time_deliveries r) = true.
Proof.
  unfold columns_ok, column_types. cbn [forallb snd].
  rewrite !andb_true_iff. tauto.
Qed.

Lemma mistyped_None r : mistyped r = None <-> columns_ok r = true.
Proof.
  unfold mistyped, columns_ok, column_types.
  cbn [find forallb snd fst option_map].
  destruct (varchar 10 (day_of_week r)), (varchar 10 (month r)),
    (int4 (year r)), (varchar 1 (batch r)), (varchar 50 (operation_role r)),
    (opt_int4 (total_orders r)), (opt_int4 (on_time_deliveries r));
    simpl; split; done.
Qed.

Lemma check_row_None r :
  check_row r = None ->
  columns_ok r = true /\ valid_batch r = true /\ valid_role r = true
  /\ end_after_start r = true /\ valid_year r = true
  /\ driver_orders_valid r = true /\ on_time_not_exceed_total r = true.
Proof.
  unfold check_row.
  destruct (mistyped r) eqn:Em; [discriminate|].
  apply mistyped_None in Em. rewrite Em.
  unfold violated, check_constraints. simpl.
  destruct (valid_batch r); [|discriminate]. simpl.
  destruct (valid_role r); [|discriminate]. simpl.
  destruct (end_after_start r); [|discriminate]. simpl.
  destruct (valid_year r); [|discriminate]. simpl.
  destruct (driver_orders_valid r); [|discriminate]. simpl.
  destruct (on_time_not_exceed_total r); [|discriminate]. simpl.
  by repeat split.
Qed.

Lemma check_row_intro r :
  columns_ok r = true -> valid_batch r = true -> valid_role r = true ->
  end_after_start r = true -> valid_year r = true ->
  driver_orders_valid r = true -> on_time_not_exceed_total r = true ->
  check_row r = None.
Proof.
  intros Hc. apply mistyped_None in Hc.
  unfold check_row, violated, check_constraints. rewrite Hc. simpl.
  by intros -> -> -> -> -> ->.
Qed.

Lemma NoDup_fmap_inj_on {A B} (f : A -> B) (l : list A) x y :
  NoDup (f <$> l) -> x ∈ l -> y ∈ l -> f x = f y -> x = y.
Proof.
  intros Hnd Hx Hy Hf.
  apply list_elem_of_lookup in Hx as [i Hi].
  apply list_elem_of_lookup in Hy as [j Hj].
  rewrite NoDup_alt in Hnd.
  assert (i = j) as ->; [|congruence].
  apply (Hnd i j (f x)); apply list_lookup_fmap_Some; eauto.
Qed.

(** The records of one date and batch: at most one per role. *)
Lemma batch_rows_bound (db : Table) d b (P : OperationsLog -> bool) :
  table_inv db ->
  (length
     (filter
        (fun r =>
           (date_eqb (operation_date r) d && String.eqb (batch r) b && P r)
           = true) db)
   <= length ROLE_ORDER)%nat.
Proof.
  intros [Hnd Hok].
  set (l := filter _ db).
  assert (forall r, r ∈ l ->
            r ∈ db /\ operation_date r = d /\ batch r = b) as Hl.
  { intros r Hr. subst l. apply list_elem_of_filter in Hr as [Hp Hr].
    apply andb_true_iff in Hp as [Hp _].
    apply andb_true_iff in Hp as [Hd Hb].
    apply date_eqb_eq in Hd. apply String.eqb_eq in Hb. auto. }
  rewrite <- (length_fmap operation_role l).
  apply submseteq_length, NoDup_submseteq.
  - apply NoDup_fmap_2_strong.
    + intros x y Hx Hy Hrole.
      destruct (Hl x Hx) as (Hxd & Hx1 & Hx2).
      destruct (Hl y Hy) as (Hyd & Hy1 & Hy2).
      apply (NoDup_fmap_inj_on key db); auto.
      unfold key. congruence.
    + subst l. apply NoDup_filter. by eapply NoDup_fmap_1.
  - intros role Hrole. apply list_elem_of_fmap in Hrole as (r & -> & Hr).
    destruct (Hl r Hr) as (Hrd & _).
    rewrite Forall_forall in Hok. specialize (Hok r Hrd).
    destruct (check_row_None r (row_checked r Hok)) as (_ & _ & Hv & _).
    by apply str_in_elem_of in Hv.
Qed.

Lemma filter_length_le {A} (P Q : A -> Prop)
      `{!forall x, Decision (P x)} `{!forall x, Decision (Q x)} (l : list A) :
  Forall (fun x => P x -> Q x) l ->
  (length (filter P l) <= length (filter Q l))%nat.
Proof.
  induction 1 as [|x l Hx Hl IH]; [done|].
  rewrite !filter_cons.
  destruct (decide (P x)), (decide (Q x)); simpl; try lia. tauto.
Qed.

Lemma counts_bounds db d b :
  table_inv db ->
  0 <= count_completed db d b <= count_started db d b
  /\ count_started db d b <= TOTAL_ROLES.
Proof.
  intros Hinv. unfold count_completed, count_started, TOTAL_ROLES.
  split; [split|].
  - lia.
  - apply inj_le, filter_length_le.
    destruct Hinv as [_ Hok]. eapply Forall_impl; [exact Hok|].
    intros r Hr. simpl. rewrite !andb_true_iff. intros [Hk He]. split; [done|].
    destruct (end_time r) eqn:E; [|discriminate].
    by destruct (row_started r Hr) as [t ->].
  - apply inj_le.
    apply (batch_rows_bound db d b
             (fun r => match start_time r with Some _ => true | None => false end)
             Hinv).
Qed.

(** The twelve values of the progress of a batch. *)
Lemma progress_values c :
  0 <= c <= 11 ->
  Py.round2 (PrimFloat.mul (Py.int_truediv c TOTAL_ROLES) (Py.float_of_int 100))
  = round_percentage_exact c 11.
Proof.
  intros H.
  assert (c = 0 \/ c = 1 \/ c = 2 \/ c = 3 \/ c = 4 \/ c = 5 \/ c = 6 \/ c = 7
          \/ c = 8 \/ c = 9 \/ c = 10 \/ c = 11) as Hc by lia.
  repeat (destruct Hc as [-> | Hc]; [vm_compute; reflexivity|]).
  subst. vm_compute. reflexivity.
Qed.

(** C2. The status of a batch, on every table the application can
    produce: RED exactly when no role is started; GREEN when some role is
    started and the completed count is the role count, 11; YELLOW in the
    remaining case; and the progress is [round(100 * completed / 11, 2)],
    which is 0.0 when no role is started. *)
Theorem batch_status_spec db d b :
  reachable db ->
  let st := _calculate_batch_status db d b in
  started_count st = count_started db d b
  /\ completed_count st = count_completed db d b
  /\ total_roles st = 11
  /\ (bs_status st = BatchStatus.RED <-> started_count st = 0)
  /\ (started_count st <> 0 -> completed_count st = 11 ->
      bs_status st = BatchStatus.GREEN)
  /\ (started_count st <> 0 -> completed_count st <> 11 ->
      bs_status st = BatchStatus.YELLOW)
  /\ progress_percentage st = round_percentage_exact (completed_count st) 11
  /\ (started_count st = 0 -> progress_percentage st = 0%float).
Proof.
  intros Hr. apply reachable_inv in Hr.
  destruct (counts_bounds db d b Hr) as [[H0 Hcs] Hs].
  change TOTAL_ROLES with 11 in Hs.
  unfold _calculate_batch_status. cbn zeta. simpl.
  set (s := count_started db d b) in *.
  set (c := count_completed db d b) in *.
  change TOTAL_ROLES with 11.
  repeat split.
  - destruct (s =? 0) eqn:E; [intros _; by apply Z.eqb_eq|].
    destruct (11 <=? c); discriminate.
  - intros ->. reflexivity.
  - intros Hs0 ->. apply Z.eqb_neq in Hs0. rewrite Hs0. reflexivity.
  - intros Hs0 Hc. apply Z.eqb_neq in Hs0. rewrite Hs0.
    destruct (11 <=? c) eqn:E; [|reflexivity]. apply Z.leb_le in E. lia.
  - apply progress_values. lia.
  - intros Hs0. assert (c = 0) as -> by lia. vm_compute. reflexivity.
Qed.

(* ===================================================================== *)
(** ** The derived status *)
(* ===================================================================== *)

Lemma status_of_timestamps r :
  status r
  = match end_time r, start_time r with
    | Some _, _ => OperationStatus.COMPLETED
    | None, Some _ => OperationStatus.IN_PROGRESS
    | None, None => OperationStatus.PENDING
    end.
Proof. unfold status. by destruct (end_time r), (start_time r). Qed.

(** C3. The derived status of a record of any table the application can
    produce: PENDING if start_time is null, IN_PROGRESS if start_time is
    set and end_time is null, COMPLETED if end_time is set.  It is a
    function of the two timestamps alone: records (of any table or none)
    with the same two timestamps have the same status. *)
Theorem status_derived db r :
  reachable db -> r ∈ db ->
  (start_time r = None -> status r = OperationStatus.PENDING)
  /\ (is_Some (start_time r) -> end_time r = None ->
      status r = OperationStatus.IN_PROGRESS)
  /\ (is_Some (end_time r) -> status r = OperationStatus.COMPLETED)
  /\ (forall r' : OperationsLog,
         start_time r' = start_time r -> end_time r' = end_time r ->
         status r' = status r).
Proof.
  intros Hr Hin. pose proof (reachable_row_ok db r Hr Hin) as Hok.
  repeat split.
  - intros Hs. rewrite status_of_timestamps, Hs.
    destruct (end_time r) eqn:He; [|reflexivity].
    destruct (row_started r Hok) as [t Ht]; [by eexists|]. congruence.
  - intros [t Hs] He. by rewrite status_of_timestamps, Hs, He.
  - intros [t He]. by rewrite status_of_timestamps, He.
  - intros r' Hs He. by rewrite !status_of_timestamps, Hs, He.
Qed.

(* ===================================================================== *)
(** ** The role sequence *)
(* ===================================================================== *)

Lemma list_index_Some x xs i :
  Py.list_index x xs = Some i -> xs !! i = Some x.
Proof.
  revert i. induction xs as [|y ys IH]; intros i; simpl; [discriminate|].
  destruct (String.eqb y x) eqn:E.
  - intros [= <-]. apply String.eqb_eq in E. by subst.
  - destruct (Py.list_index x ys) as [j|]; simpl; [|discriminate].
    intros [= <-]. simpl. by apply IH.
Qed.

Lemma get_previous_role_Some role previous :
  get_previous_role role = Some previous ->
  role ∈ ROLE_ORDER /\ previous ∈ ROLE_ORDER /\ previous <> role
  /\ previous <> "".
Proof.
  intros H.
  assert (role ∈ ROLE_ORDER) as Hin.
  { revert H. unfold get_previous_role, get_role_index.
    destruct (Py.list_index role ROLE_ORDER) as [i|] eqn:Hi; [|discriminate].
    intros _. apply list_index_Some in Hi. by eapply list_elem_of_lookup_2. }
  split; [exact Hin|].
  unfold ROLE_ORDER in Hin.
  repeat (apply elem_of_cons in Hin as [-> | Hin];
          [vm_compute in H;
           first [discriminate
                 | injection H as <-;
                   split; [by apply str_in_elem_of | split; discriminate]]
          |]).
  by apply elem_of_nil in Hin.
Qed.

Lemma get_previous_role_None role :
  get_previous_role role = None ->
  role = "Procurement" \/ role ∉ ROLE_ORDER.
Proof.
  intros H. destruct (Py.str_in role ROLE_ORDER) eqn:E.
  2: { right. intros Hin. apply str_in_elem_of in Hin. congruence. }
  apply str_in_elem_of in E as Hin.
  left. unfold ROLE_ORDER in Hin.
  apply elem_of_cons in Hin as [-> | Hin]; [reflexivity|].
  repeat (apply elem_of_cons in Hin as [-> | Hin];
          [vm_compute in H; discriminate|]).
  by apply elem_of_nil in Hin.
Qed.

(** A flush of a new row does not change what [get_operation] finds for
    another triple. *)
Lemma get_operation_insert (db db' : Table) r d b role :
  Db.insert db r = inr db' -> key r <> (d, b, role) ->
  get_operation db' d b role = get_operation db d b role.
Proof.
  intros Hi Hk. apply insert_inr in Hi as (-> & _ & _).
  unfold get_operation.
  destruct (list_find _ db) as [[i x]|] eqn:Hf.
  - apply list_find_app_Some. by left.
  - apply list_find_None. apply Forall_app. split.
    + by apply (proj1 (list_find_None _ _)).
    + apply Forall_singleton. intros Hm. by apply matches_key in Hm.
Qed.

Lemma get_or_create_other now db d b role db1 i op role' :
  _get_or_create_operation now db d b role = inr (db1, i, op) ->
  role' <> role ->
  get_operation db1 d b role' = get_operation db d b role'.
Proof.
  intros H Hne.
  apply get_or_create_inr in H as [[_ ->]|(_ & -> & _ & Hi)]; [done|].
  eapply get_operation_insert; [exact Hi|].
  unfold key. simpl. congruence.
Qed.

(** What a successful start attaches: the warning computed on the table
    the request received. *)
Lemma start_operation_warning users now db data user msg rd db' :
  OperationService.start_operation users now db data user
  = ((true, msg, rd), db') ->
  attached_warning (true, msg, rd)
  = start_warning db (start_operation_date data) (start_batch data)
      (start_role data).
Proof.
  unfold OperationService.start_operation.
  destruct (negb _); [discriminate|].
  destruct (is_past_date _ _); [discriminate|].
  destruct (_get_or_create_operation _ _ _ _ _) as [e|[[db1 i] op]] eqn:Hg;
    [by destruct e|].
  destruct (start_time op); [discriminate|].
  destruct (Db.update _ _ _ _) as [e|db2]; [by destruct e|].
  intros [= <- <- <-]. simpl.
  unfold start_warning.
  destruct (get_previous_role (start_role data)) as [previous|] eqn:Hp;
    [|reflexivity].
  apply get_previous_role_Some in Hp as (_ & _ & Hne & _).
  by rewrite (get_or_create_other _ _ _ _ _ _ _ _ previous Hg Hne).
Qed.

Lemma available_valid d b :
  Py.str_in b (get_available_batches_for_date d) = true ->
  Py.str_in b VALID_BATCHES = true.
Proof.
  rewrite !str_in_elem_of.
  unfold get_available_batches_for_date, VALID_BATCHES, RESTRICTED_BATCHES,
    ALL_BATCHES.
  destruct (existsb _ _); intros Hb; repeat apply elem_of_cons in Hb as [->|Hb];
    try (by apply elem_of_nil in Hb); apply list_elem_of_In; simpl; auto 10.
Qed.

(** The names of the days and of the months, the batch letters and the
    roles fit their columns. *)
Lemma varchar_names d :
  varchar 10 (get_day_name d) = true /\ varchar 10 (get_month_name d) = true.
Proof.
  unfold get_day_name, get_month_name, strftime_A, strftime_B. split.
  - generalize (Z.to_nat (isoweekday d - 1)). intros n.
    do 8 (destruct n as [|n]; [vm_compute; reflexivity|]).
    by destruct n.
  - generalize (Z.to_nat (d_month d - 1)). intros n.
    do 13 (destruct n as [|n]; [vm_compute; reflexivity|]).
    by destruct n.
Qed.

Lemma varchar_batch b :
  Py.str_in b VALID_BATCHES = true -> varchar 1 b = true.
Proof.
  intros H. apply str_in_elem_of in H.
  unfold VALID_BATCHES, ALL_BATCHES in H.
  repeat (apply elem_of_cons in H as [-> | H]; [vm_compute; reflexivity|]).
  by apply elem_of_nil in H.
Qed.

Lemma varchar_role role : role ∈ ROLE_ORDER -> varchar 50 role = true.
Proof.
  intros H. unfold ROLE_ORDER in H.
  repeat (apply elem_of_cons in H as [-> | H]; [vm_compute; reflexivity|]).
  by apply elem_of_nil in H.
Qed.

(** The table accepts the row of an offered batch, a role of the sequence
    and a year between 2024 and 2100. *)
Lemma new_operation_checked now d b role :
  Py.str_in b (get_available_batches_for_date d) = true ->
  role ∈ ROLE_ORDER ->
  2024 <= d_year d <= 2100 ->
  check_row (new_operation now d b role) = None.
Proof.
  intros Ha Hrole Hy. apply check_row_intro.
  - apply columns_ok_spec.
    cbn [new_operation day_of_week month year batch operation_role
         total_orders on_time_deliveries opt_int4].
    destruct (varchar_names d) as [Hd Hm].
    split; [exact Hd|]. split; [exact Hm|]. split.
    { unfold int4. apply andb_true_iff. split; apply Z.leb_le; lia. }
    split; [by apply varchar_batch, (available_valid d)|].
    split; [by apply varchar_role|]. by split.
  - unfold valid_batch, new_operation; cbn [batch].
    by apply available_valid in Ha.
  - unfold valid_role, new_operation; cbn [operation_role].
    by apply str_in_elem_of.
  - reflexivity.
  - unfold valid_year, new_operation; cbn [year].
    apply andb_true_iff. split; apply Z.leb_le; lia.
  - unfold driver_orders_valid, new_operation; cbn [end_time operation_role].
    by rewrite orb_true_r.
  - reflexivity.
Qed.

Lemma check_row_set_started now op uid :
  check_row op = None -> end_time op = None ->
  check_row (touch now (set_started op now uid)) = None.
Proof.
  intros Hc He.
  destruct (check_row_None op Hc) as (H1 & H2 & H3 & H4 & H5 & H6 & H7).
  apply check_row_intro; try assumption.
  unfold end_after_start. simpl. by rewrite He.
Qed.

(** The role order never gates a start: on an open date and an offered
    batch, a start of a record that is absent or not started succeeds
    whenever the table accepts the row (a valid role, a year the table
    allows). *)
Lemma start_operation_succeeds users now db data user :
  table_inv db ->
  Py.str_in (start_batch data)
    (get_available_batches_for_date (start_operation_date data)) = true ->
  is_past_date now (start_operation_date data) = false ->
  start_role data ∈ ROLE_ORDER ->
  2024 <= d_year (start_operation_date data) <= 2100 ->
  (forall r, r ∈ db ->
             key r = (start_operation_date data, start_batch data,
                      start_role data) ->
             start_time r = None) ->
  exists op db',
    OperationService.start_operation users now db data user
    = ((true, Messages.OPERATION_STARTED,
        Some (OperationData op
                (start_warning db (start_operation_date data)
                   (start_batch data) (start_role data)))), db').
Proof.
  intros [Hnd Hok] Ha Hp Hrole Hy Hfree.
  assert (exists db1 i op,
             _get_or_create_operation now db (start_operation_date data)
               (start_batch data) (start_role data) = inr (db1, i, op)
             /\ start_time op = None
             /\ check_row (touch now (set_started op now (user_id user)))
                = None) as (db1 & i & op & Hg & Hs & Hc).
  { unfold _get_or_create_operation.
    destruct (get_operation db _ _ _) as [[i op]|] eqn:Hget.
    - exists db, i, op. apply get_operation_Some in Hget as [Hi Hk].
      assert (op ∈ db) as Hin by (by eapply list_elem_of_lookup_2).
      pose proof (Hfree op Hin Hk) as Hs.
      split; [reflexivity|]. split; [exact Hs|].
      rewrite Forall_forall in Hok. specialize (Hok op Hin).
      apply check_row_set_started; [apply (row_checked op Hok)|].
      destruct (end_time op) eqn:He; [|done].
      destruct (row_started op Hok) as [t Ht]; [by eexists|]. congruence.
    - set (new := new_operation now _ _ _).
      assert (check_row new = None) as Hcn
          by (by apply new_operation_checked).
      assert (Db.insert db new = inr (db ++ [new])) as Hins.
      { unfold Db.insert. rewrite Hcn.
        destruct (existsb (same_key new) db) eqn:He; [|reflexivity].
        apply existsb_exists in He as (r & Hr & Hk).
        apply same_key_key in Hk. apply list_elem_of_In in Hr.
        exfalso. eapply get_operation_None; eauto. }
      rewrite Hins. exists (db ++ [new]), (length db), new.
      split; [reflexivity|]. split; [reflexivity|].
      by apply check_row_set_started. }
  unfold OperationService.start_operation.
  rewrite Ha, Hp. simpl. rewrite Hg, Hs.
  unfold Db.update. rewrite Hc.
  eexists _, _. f_equal. f_equal. f_equal. f_equal.
  unfold start_warning.
  destruct (get_previous_role (start_role data)) as [previous|] eqn:Hprev;
    [|reflexivity].
  apply get_previous_role_Some in Hprev as (_ & _ & Hne & _).
  by rewrite (get_or_create_other _ _ _ _ _ _ _ _ previous Hg Hne).
Qed.

(* ===================================================================== *)
(** ** The previous-role warning of start_operation *)
(* ===================================================================== *)

Lemma start_warning_first db d b role :
  get_previous_role role = None -> start_warning db d b role = None.
Proof. unfold start_warning. by intros ->. Qed.

Lemma start_warning_completed db d b role previous i r t :
  get_previous_role role = Some previous ->
  get_operation db d b previous = Some (i, r) -> end_time r = Some t ->
  start_warning db d b role = None.
Proof.
  unfold start_warning. intros Hp Hg He. rewrite Hp. cbv beta iota.
  rewrite Hg, He. by destruct (Py.truthy_str _).
Qed.

Lemma start_warning_incomplete db d b role previous i r :
  get_previous_role role = Some previous ->
  get_operation db d b previous = Some (i, r) -> end_time r = None ->
  start_warning db d b role
  = Some (String.append "Previous operation '"
            (String.append previous "' not completed yet")).
Proof.
  unfold start_warning. intros Hp Hg He. rewrite Hp. cbv beta iota.
  rewrite Hg, He.
  apply get_previous_role_Some in Hp as (_ & _ & _ & Hne).
  unfold Py.truthy_str. apply String.eqb_neq in Hne. by rewrite Hne.
Qed.

(** No record of the previous role: [start_operation] computes no
    warning. *)
Lemma start_warning_absent db d b role previous :
  get_previous_role role = Some previous ->
  get_operation db d b previous = None ->
  start_warning db d b role = None.
Proof.
  unfold start_warning. intros Hp Hg. rewrite Hp. cbv beta iota.
  rewrite Hg. by destruct (Py.truthy_str _).
Qed.

(** C4, on the code.  Starting the second role of the sequence on an
    empty table (so that the previous role, Procurement, has no record)
    succeeds and attaches no warning, although [check_previous_role] on
    the same table asks for one. *)
Theorem start_without_predecessor_record :
  get_previous_role "Inventory QC - IN" = Some "Procurement"
  /\ get_operation [] Examples.tuesday "A" "Procurement" = None
  /\ (exists operation db',
         OperationService.start_operation Examples.users Examples.at_9 []
           (Examples.start_of "Inventory QC - IN") Examples.ada
         = ((true, Messages.OPERATION_STARTED,
             Some (OperationData operation None)), db'))
  /\ show_warning
       (check_previous_role [] Examples.tuesday "A" "Inventory QC - IN")
     = true.
Proof.
  split; [reflexivity|]. split; [reflexivity|]. split; [|reflexivity].
  eexists _, _. vm_compute. reflexivity.
Qed.

(* ===================================================================== *)
(** ** check_previous_role against start_operation *)
(* ===================================================================== *)

(** C5 as stated fails: with both Procurement and the next role started,
    [check_previous_role] asks for a warning for the next role, while a
    start of that role is refused as already started and attaches none. *)
Lemma check_previous_role_on_started_role :
  show_warning
    (check_previous_role Examples.two_started Examples.tuesday "A"
       "Inventory QC - IN") = true
  /\ (exists started_by started_at,
         (OperationService.start_operation Examples.users Examples.at_11
            Examples.two_started (Examples.start_of "Inventory QC - IN")
            Examples.ada).1
         = (false, Messages.OPERATION_ALREADY_STARTED,
            Some (ErrorData "ALREADY_STARTED" started_by started_at)))
  /\ attached_warning
       (OperationService.start_operation Examples.users Examples.at_11
          Examples.two_started (Examples.start_of "Inventory QC - IN")
          Examples.ada).1 = None.
Proof.
  split; [vm_compute; reflexivity|]. split; [|vm_compute; reflexivity].
  eexists _, _. vm_compute. reflexivity.
Qed.

Lemma check_previous_role_first db d b role :
  get_previous_role role = None ->
  check_previous_role db d b role
  = {| current_role := role;
       previous_role := None;
       is_previous_completed := true;
       show_warning := false;
       warning_message := None |}.
Proof. unfold check_previous_role. by intros ->. Qed.

(** C5, amended.  Whenever a start succeeds and the previous role has a
    record in the table, [check_previous_role] on that table shows a
    warning exactly when the start attaches one; and for a role without
    a previous role (Procurement, the first of the sequence)
    [check_previous_role] returns is_previous_completed = true,
    show_warning = false and no message, and a start attaches nothing. *)
Theorem check_previous_role_agrees users now db data user msg operation
        warning db' :
  OperationService.start_operation users now db data user
  = ((true, msg, Some (OperationData operation warning)), db') ->
  let check :=
    check_previous_role db (start_operation_date data) (start_batch data)
      (start_role data) in
  (forall previous,
      get_previous_role (start_role data) = Some previous ->
      is_Some (get_operation db (start_operation_date data)
                 (start_batch data) previous) ->
      (show_warning check = true <-> is_Some warning))
  /\ (get_previous_role (start_role data) = None ->
      show_warning check = false /\ warning = None)
  /\ get_previous_role "Procurement" = None
  /\ (forall db0 d0 b0 role0,
         get_previous_role role0 = None ->
         previous_role (check_previous_role db0 d0 b0 role0) = None
         /\ is_previous_completed (check_previous_role db0 d0 b0 role0) = true
         /\ show_warning (check_previous_role db0 d0 b0 role0) = false
         /\ warning_message (check_previous_role db0 d0 b0 role0) = None).
Proof.
  intros Heq check.
  pose proof (start_operation_warning _ _ _ _ _ _ _ _ Heq) as Hw.
  simpl in Hw. subst check. split; [|split; [|split]].
  - intros previous Hp [[i r] Hg].
    unfold check_previous_role. rewrite Hp, Hg. simpl.
    destruct (end_time r) as [t|] eqn:He.
    + rewrite (start_warning_completed _ _ _ _ _ _ _ _ Hp Hg He) in Hw.
      subst warning. simpl. split; [discriminate | by intros [x Hx]].
    + rewrite (start_warning_incomplete _ _ _ _ _ _ _ Hp Hg He) in Hw.
      subst warning. simpl. split; [by eexists | reflexivity].
  - intros Hp. rewrite (check_previous_role_first _ _ _ _ Hp).
    by rewrite (start_warning_first _ _ _ _ Hp) in Hw.
  - reflexivity.
  - intros db0 d0 b0 role0 Hp.
    by rewrite (check_previous_role_first _ _ _ _ Hp).
Qed.

Lemma check_previous_role_agrees_witness :
  show_warning
    (check_previous_role Examples.procurement_started Examples.tuesday "A"
       "Inventory QC - IN") = true
  <-> is_Some
        (Some "Previous operation 'Procurement' not completed yet").
Proof.
  refine (proj1 (check_previous_role_agrees Examples.users Examples.at_10
                   Examples.procurement_started
                   (Examples.start_of "Inventory QC - IN") Examples.bola
                   _ _ _ _ _) "Procurement" _ _).
  - vm_compute. reflexivity.
  - reflexivity.
  - vm_compute. by eexists.
Defined.

(* ===================================================================== *)
(** ** Failures of end_operation *)
(* ===================================================================== *)

Lemma get_operation_missing db d b role :
  (forall r, r ∈ db -> key r <> (d, b, role)) ->
  get_operation db d b role = None.
Proof.
  intros H. unfold get_operation. apply list_find_None, Forall_forall.
  intros r Hr Hm. apply matches_key in Hm. by apply (H r).
Qed.

(** An end on a record that is already completed. *)
Lemma end_operation_completed users now db data user i r t :
  is_past_date now (end_operation_date data) = false ->
  get_operation db (end_operation_date data) (end_batch data)
    (end_role data) = Some (i, r) ->
  end_time r = Some t ->
  OperationService.end_operation users now db data user
  = ((false, Messages.OPERATION_ALREADY_COMPLETED, None), db).
Proof.
  intros Hp Hg He. unfold OperationService.end_operation.
  by rewrite Hp, Hg, He.
Qed.

(** C6. An end on a date that is not read-only, on any table the
    application can produce: with no record of the triple, or with a
    record whose start_time is null, it fails as "not started"; with a
    record whose end_time is set it fails as "already completed", a
    different message; a failing end leaves the table as it was; and
    after a successful end, which writes the clock reading and the actor,
    a second end fails as "already completed" and leaves the table, and
    so the end_time and completed_by of the first, as they were. *)
Theorem end_operation_failures users now db data user :
  reachable db ->
  is_past_date now (end_operation_date data) = false ->
  let k := (end_operation_date data, end_batch data, end_role data) in
  let res := OperationService.end_operation users now db data user in
  ((forall r, r ∈ db -> key r <> k) ->
   res = ((false, Messages.OPERATION_NOT_STARTED, None), db))
  /\ (forall r, r ∈ db -> key r = k -> start_time r = None ->
      res = ((false, Messages.OPERATION_NOT_STARTED, None), db))
  /\ (forall r, r ∈ db -> key r = k -> is_Some (end_time r) ->
      res = ((false, Messages.OPERATION_ALREADY_COMPLETED, None), db))
  /\ Messages.OPERATION_NOT_STARTED <> Messages.OPERATION_ALREADY_COMPLETED
  /\ (res.1.1.1 = false -> res.2 = db)
  /\ (res.1.1.1 = true ->
      exists i r,
        res.2 !! i = Some r /\ key r = k
        /\ end_time r = Some now
        /\ completed_by_user_id r = Some (user_id user)
        /\ forall now' user',
            is_past_date now' (end_operation_date data) = false ->
            OperationService.end_operation users now' res.2 data user'
            = ((false, Messages.OPERATION_ALREADY_COMPLETED, None), res.2)).
Proof.
  intros Hr Hp k res.
  pose proof (reachable_inv db Hr) as [Hnd Hok].
  split; [|split; [|split; [|split; [|split]]]].
  - intros Hmiss. subst res. unfold OperationService.end_operation.
    rewrite Hp. by rewrite (get_operation_missing _ _ _ _ Hmiss).
  - intros r Hin Hk Hs. subst res.
    apply list_elem_of_lookup in Hin as Hi. destruct Hi as [i Hi].
    unfold OperationService.end_operation.
    rewrite Hp, (get_operation_lookup db _ _ _ i r Hnd Hi Hk), Hs.
    destruct (end_time r) eqn:He; [|reflexivity].
    rewrite Forall_forall in Hok.
    destruct (row_started r (Hok r Hin)) as [t Ht]; [by eexists|]. congruence.
  - intros r Hin Hk [t He]. subst res.
    apply list_elem_of_lookup in Hin as [i Hi].
    eapply end_operation_completed; eauto.
    by apply get_operation_lookup.
  - discriminate.
  - intros Hf.
    destruct (end_operation_table users now db data user)
      as [[_ H]|(i & op & t & _ & _ & _ & _ & _ & Ht)]; [exact H|].
    fold res in Ht. congruence.
  - intros Ht.
    destruct (end_operation_table users now db data user)
      as [[Hf _]|(i & op & t & Hg & Hs & He & Hc & Hres & _)];
      [fold res in Hf; congruence|].
    fold res in Hres.
    apply get_operation_Some in Hg as [Hi Hk].
    set (r' := touch now (set_completed op now (user_id user))) in *.
    assert (res.2 !! i = Some r') as Hi'.
    { rewrite Hres. apply list_lookup_insert_eq. by eapply lookup_lt_Some. }
    exists i, r'. split; [exact Hi'|]. split; [exact Hk|].
    split; [reflexivity|]. split; [reflexivity|].
    intros now' user' Hp'.
    apply (end_operation_completed _ _ _ _ _ i r' now); [exact Hp'| |reflexivity].
    apply get_operation_lookup; [|exact Hi'|exact Hk].
    subst res. by apply end_operation_NoDup.
Qed.

Lemma end_operation_failures_witness :
  (OperationService.end_operation Examples.users Examples.at_11
     Examples.procurement_completed
     (mkOperationEnd Examples.tuesday "A" "Procurement") Examples.bola).2
  = Examples.procurement_completed.
Proof.
  refine (proj1 (proj2 (proj2 (proj2 (proj2
            (end_operation_failures Examples.users Examples.at_11
               Examples.procurement_completed
               (mkOperationEnd Examples.tuesday "A" "Procurement")
               Examples.bola _ _))))) _).
  - unfold Examples.procurement_completed, Examples.procurement_started.
    apply reach_end, reach_start, reach_empty.
  - reflexivity.
  - vm_compute. reflexivity.
Defined.

(* ===================================================================== *)
(** ** Past dates are read-only *)
(* ===================================================================== *)

(** C7 as stated fails: on the Wednesday, a start for batch D of the
    Monday before (a day on which D is not offered) is refused as "batch
    not available", not as read-only. *)
Lemma start_on_past_restricted_day :
  is_past_date Examples.next_day Examples.monday = true
  /\ OperationService.start_operation Examples.users Examples.next_day []
       (mkOperationStart Examples.monday "D" "Procurement") Examples.ada
     = ((false, Messages.BATCH_NOT_AVAILABLE, None), [])
  /\ Messages.BATCH_NOT_AVAILABLE <> Messages.READONLY_DATE.
Proof.
  split; [reflexivity|]. split; [vm_compute; reflexivity | discriminate].
Qed.

(** C7, amended.  On a date before the current server date: a start for
    a batch offered on that date, and every end and every Driver end,
    return the read-only error and leave the table as it was; a start for
    a batch not offered on that date returns "batch not available", and
    also leaves the table as it was. *)
Theorem past_date_read_only users now db d :
  is_past_date now d = true ->
  (forall b role user,
      Py.str_in b (get_available_batches_for_date d) = true ->
      OperationService.start_operation users now db
        (mkOperationStart d b role) user
      = ((false, Messages.READONLY_DATE, None), db))
  /\ (forall b role user,
      Py.str_in b (get_available_batches_for_date d) = false ->
      OperationService.start_operation users now db
        (mkOperationStart d b role) user
      = ((false, Messages.BATCH_NOT_AVAILABLE, None), db))
  /\ (forall b role user,
      OperationService.end_operation users now db (mkOperationEnd d b role)
        user
      = ((false, Messages.READONLY_DATE, None), db))
  /\ (forall b total on_time user,
      OperationService.end_driver_operation users now db
        (mkDriverEnd d b total on_time) user
      = ((false, Messages.READONLY_DATE, None), db)).
Proof.
  intros Hp. repeat split.
  - intros b role user Ha. unfold OperationService.start_operation. simpl.
    by rewrite Ha, Hp.
  - intros b role user Ha. unfold OperationService.start_operation. simpl.
    by rewrite Ha.
  - intros b role user. unfold OperationService.end_operation. simpl.
    by rewrite Hp.
  - intros b total on_time user.
    unfold OperationService.end_driver_operation. simpl. by rewrite Hp.
Qed.

Lemma past_date_read_only_witness :
  OperationService.start_operation Examples.users Examples.next_day
    Examples.procurement_started
    (mkOperationStart Examples.tuesday "A" "Inventory QC - IN") Examples.ada
  = ((false, Messages.READONLY_DATE, None), Examples.procurement_started).
Proof.
  refine (proj1 (past_date_read_only Examples.users Examples.next_day
                   Examples.procurement_started Examples.tuesday _)
            "A" "Inventory QC - IN" Examples.ada _); reflexivity.
Defined.

(* ===================================================================== *)
(** ** Driver completion and the on-time percentage *)
(* ===================================================================== *)

Lemma refresh_insert (db : Table) i r obj :
  (i < length db)%nat -> Db.refresh (<[i := r]> db) i obj = r.
Proof.
  intros Hi. unfold Db.refresh. by rewrite list_lookup_insert_eq.
Qed.

Lemma end_driver_operation_success users now db data user msg operation
      warning db' :
  OperationService.end_driver_operation users now db data user
  = ((true, msg, Some (OperationData operation warning)), db') ->
  exists i op,
    get_operation db (driver_operation_date data) (driver_batch data)
      DRIVER_ROLE = Some (i, op)
    /\ check_row (driver_written now op data user) = None
    /\ operation = _to_response users i (driver_written now op data user)
    /\ db' = <[i := driver_written now op data user]> db.
Proof.
  unfold OperationService.end_driver_operation.
  destruct (is_past_date _ _); [discriminate|].
  destruct (get_operation _ _ _ _) as [[i op]|] eqn:Hg; [|discriminate].
  destruct (end_time op); [discriminate|].
  destruct (start_time op); [|discriminate].
  destruct (Db.update _ _ _ _) as [e|db2] eqn:Hu; [discriminate|].
  apply update_inr in Hu as [-> Hc].
  intros [= <- <- <- <-]. exists i, op.
  split; [reflexivity|]. split; [exact Hc|]. split; [|reflexivity].
  apply get_operation_Some in Hg as [Hi _].
  unfold driver_written. rewrite refresh_insert; [reflexivity|].
  by eapply lookup_lt_Some.
Qed.

(** The table refuses a row whose on-time count exceeds its total. *)
Lemma check_row_on_time_exceeds r total on_time :
  total_orders r = Some total -> on_time_deliveries r = Some on_time ->
  total < on_time -> check_row r <> None.
Proof.
  intros Ht Ho Hlt Hc.
  destruct (check_row_None r Hc) as (_ & _ & _ & _ & _ & _ & H).
  unfold on_time_not_exceed_total in H. rewrite Ht, Ho in H.
  apply Z.leb_le in H. lia.
Qed.

Lemma float_neq (a b : float) : Prim2SF a <> Prim2SF b -> a <> b.
Proof. intros H ->. by apply H. Qed.

(** C8 as stated fails.  The percentage of 23 on-time deliveries out of
    160 orders is 14.37, where [round(100 * 23 / 160, 2)] is 14.38: the
    code multiplies the quotient, which is not exact, by 100.  And the
    service does not check the bound on the delivery counts: called on a
    started Driver record with 151 on-time deliveries out of 150 it gets
    as far as the flush, which the table refuses, and the failure is
    reported as a generic failure of the completion; called with -1
    on-time deliveries out of 5 it succeeds and writes them. *)
Lemma driver_bound_not_rechecked :
  (on_time_percentage (Examples.delivered 160 23) = Some (Py.hundredths 1437)
   /\ round_percentage_exact 23 160 = Py.hundredths 1438
   /\ Py.hundredths 1437 <> Py.hundredths 1438)
  /\ OperationService.end_driver_operation Examples.users Examples.at_10
       Examples.driver_started (mkDriverEnd Examples.tuesday "A" 150 151)
       Examples.ada
     = ((false,
         String.append "Failed to complete driver operation: "
           (Db.str (IntegrityError "on_time_not_exceed_total")),
         None), Examples.driver_started)
  /\ (exists operation warning db',
         OperationService.end_driver_operation Examples.users Examples.at_10
           Examples.driver_started (mkDriverEnd Examples.tuesday "A" 5 (-1))
           Examples.ada
         = ((true, Messages.OPERATION_COMPLETED,
             Some (OperationData operation warning)), db')
         /\ resp_on_time_deliveries operation = Some (-1)
         /\ exists i r, db' !! i = Some r
                        /\ on_time_deliveries r = Some (-1)).
Proof.
  split; [split; [|split]|split].
  - vm_compute. reflexivity.
  - vm_compute. reflexivity.
  - apply float_neq. vm_compute. discriminate.
  - vm_compute. reflexivity.
  - eexists _, _, _. split; [vm_compute; reflexivity|].
    split; [reflexivity|]. exists 0%nat. eexists. split; reflexivity.
Qed.

(** C8, amended.  A successful completion of the Driver role stamps the
    two counts; its on-time percentage is
    [round((on_time / total) * 100, 2)] in double precision when
    total_orders > 0 and absent when it is 0, and with 142 on-time
    deliveries out of 150 it is 94.67.  A completion request whose counts
    break 0 <= on_time_deliveries <= total_orders (151 out of 150) is
    refused by the request model, before the service runs and so before
    any write.  The service itself does not check the bound; beneath it
    the table refuses a row with more on-time deliveries than orders, so
    such a call of the service fails and leaves the table as it was. *)
Theorem driver_completion_percentage users now db :
  (forall data user msg operation warning db',
      OperationService.end_driver_operation users now db data user
      = ((true, msg, Some (OperationData operation warning)), db') ->
      resp_total_orders operation = Some (driver_total_orders data)
      /\ resp_on_time_deliveries operation
         = Some (driver_on_time_deliveries data)
      /\ (0 < driver_total_orders data ->
          resp_on_time_percentage operation
          = Some (Py.round2
                    (PrimFloat.mul
                       (Py.int_truediv (driver_on_time_deliveries data)
                          (driver_total_orders data))
                       (Py.float_of_int 100))))
      /\ (driver_total_orders data = 0 ->
          resp_on_time_percentage operation = None)
      /\ (driver_total_orders data = 150 ->
          driver_on_time_deliveries data = 142 ->
          resp_on_time_percentage operation = Some (Py.hundredths 9467)))
  /\ (forall d b total on_time user,
      total < on_time \/ on_time < 0 \/ total < 0 ->
      Routers.end_driver_operation users now db d b total on_time user
      = (Routers.RequestValidationError, db))
  /\ (forall d b user,
      Routers.end_driver_operation users now db d b 150 151 user
      = (Routers.RequestValidationError, db))
  /\ (forall data user,
      driver_total_orders data < driver_on_time_deliveries data ->
      (OperationService.end_driver_operation users now db data user).1.1.1
      = false
      /\ (OperationService.end_driver_operation users now db data user).2
         = db).
Proof.
  assert (forall d b total on_time user,
             total < on_time \/ on_time < 0 \/ total < 0 ->
             Routers.end_driver_operation users now db d b total on_time user
             = (Routers.RequestValidationError, db)) as Hschema.
  { intros d b total on_time user Hbad.
    unfold Routers.end_driver_operation, DriverEnd_validate.
    destruct (validate_batch b); [|reflexivity].
    unfold validate_ge0.
    destruct (0 <=? total) eqn:Et; [|reflexivity].
    destruct (0 <=? on_time) eqn:Eo; [|reflexivity].
    apply Z.leb_le in Et, Eo.
    unfold validate_order_counts. simpl.
    assert ((total <? on_time) = true) as -> by (apply Z.ltb_lt; lia).
    reflexivity. }
  split; [|split; [exact Hschema|split]].
  - intros data user msg operation warning db' Heq.
    apply end_driver_operation_success in Heq
      as (i & op & Hg & Hc & -> & ->).
    split; [reflexivity|]. split; [reflexivity|].
    unfold _to_response, driver_written, on_time_percentage.
    cbn [resp_on_time_percentage touch set_delivery total_orders
         on_time_deliveries].
    split; [|split].
    + intros Hpos. unfold Py.truthy_int.
      assert ((driver_total_orders data =? 0) = false) as ->
          by (apply Z.eqb_neq; lia).
      assert ((0 <? driver_total_orders data) = true) as ->
          by (by apply Z.ltb_lt).
      reflexivity.
    + intros ->. reflexivity.
    + intros -> ->. vm_compute. reflexivity.
  - intros d b user. apply Hschema. lia.
  - intros data user Hlt.
    destruct (end_driver_operation_table users now db data user)
      as [[Hf Hdb]|(i & op & t & _ & _ & _ & Hc & _ & _)]; [by split|].
    exfalso. revert Hc.
    by apply (check_row_on_time_exceeds _ (driver_total_orders data)
                (driver_on_time_deliveries data)).
Qed.

Lemma driver_completion_percentage_witness :
  exists operation warning db',
    OperationService.end_driver_operation Examples.users Examples.at_10
      Examples.driver_started (mkDriverEnd Examples.tuesday "A" 150 142)
      Examples.ada
    = ((true, Messages.OPERATION_COMPLETED,
        Some (OperationData operation warning)), db')
    /\ resp_on_time_percentage operation = Some (Py.hundredths 9467).
Proof.
  eexists _, _, _. split; [vm_compute; reflexivity|].
  refine (proj2 (proj2 (proj2 (proj2
            (proj1 (driver_completion_percentage Examples.users
                      Examples.at_10 Examples.driver_started)
               (mkDriverEnd Examples.tuesday "A" 150 142) Examples.ada
               _ _ _ _ _)))) _ _).
  - vm_compute. reflexivity.
  - reflexivity.
  - reflexivity.
Defined.

(* ===================================================================== *)
(** ** initialize_batch *)
(* ===================================================================== *)

Lemma add_missing_app now db d b roles added :
  add_missing now db d b roles added
  = added ++ add_missing now db d b roles [].
Proof.
  revert added. induction roles as [|role roles IH]; intros added; simpl.
  - by rewrite app_nil_r.
  - destruct (get_operation db d b role).
    + apply IH.
    + rewrite IH, (IH [_]). by rewrite <- app_assoc.
Qed.

Lemma add_missing_elem now db d b roles r :
  r ∈ add_missing now db d b roles [] <->
  exists role, role ∈ roles /\ get_operation db d b role = None
               /\ r = new_operation now d b role.
Proof.
  induction roles as [|role roles IH]; simpl.
  - split; [by intros ?%elem_of_nil | by intros (? & ?%elem_of_nil & _)].
  - destruct (get_operation db d b role) as [p|] eqn:Hg.
    + rewrite IH. split.
      * intros (role' & Hin & Hn & ->). exists role'.
        split; [by apply elem_of_cons; right | done].
      * intros (role' & Hin & Hn & ->). exists role'.
        apply elem_of_cons in Hin as [-> | Hin]; [congruence | done].
    + rewrite add_missing_app. simpl. rewrite elem_of_cons, IH. split.
      * intros [-> | (role' & Hin & Hn & ->)].
        -- exists role. split; [by apply elem_of_cons; left | done].
        -- exists role'. split; [by apply elem_of_cons; right | done].
      * intros (role' & Hin & Hn & ->).
        apply elem_of_cons in Hin as [-> | Hin]; [by left|].
        right. by exists role'.
Qed.

Lemma add_missing_none now db d b roles :
  (forall role, role ∈ roles -> is_Some (get_operation db d b role)) ->
  add_missing now db d b roles [] = [].
Proof.
  induction roles as [|role roles IH]; intros H; simpl; [reflexivity|].
  destruct (H role) as [p ->]; [by apply elem_of_cons; left|].
  apply IH. intros role' Hin. apply H. by apply elem_of_cons; right.
Qed.

Lemma ROLE_ORDER_NoDup : NoDup ROLE_ORDER.
Proof.
  unfold ROLE_ORDER.
  repeat (apply NoDup_cons; split;
          [intros Hin;
           repeat (apply elem_of_cons in Hin as [Hin | Hin];
                   [discriminate|]);
           by apply elem_of_nil in Hin|]).
  apply NoDup_nil_2.
Qed.

(** The flush of [initialize_batch] goes through on a table the
    application can produce, for an offered batch and a year the table
    allows. *)
Lemma insert_all_add_missing now db d b roles (t : Table) :
  NoDup roles ->
  (forall role, role ∈ roles -> role ∈ ROLE_ORDER) ->
  Py.str_in b (get_available_batches_for_date d) = true ->
  2024 <= d_year d <= 2100 ->
  (forall r, r ∈ t ->
             r ∈ db \/ exists role, key r = (d, b, role) /\ role ∉ roles) ->
  exists t', Db.insert_all t (add_missing now db d b roles []) = inr t'.
Proof.
  intros Hnd Hroles Ha Hy. revert t.
  induction roles as [|role roles IH]; intros t Ht; simpl; [by eexists|].
  apply NoDup_cons in Hnd as [Hfresh Hnd].
  assert (forall role', role' ∈ roles -> role' ∈ ROLE_ORDER) as Hroles'
      by (intros role' Hin; apply Hroles; by apply elem_of_cons; right).
  destruct (get_operation db d b role) as [p|] eqn:Hg.
  - apply IH; [done..|].
    intros r Hr. destruct (Ht r Hr) as [Hin | (role' & Hk & Hn)]; [by left|].
    right. exists role'. split; [done|].
    intros Hin. apply Hn. by apply elem_of_cons; right.
  - rewrite add_missing_app. simpl.
    set (new := new_operation now d b role).
    assert (Db.insert t new = inr (t ++ [new])) as ->.
    { unfold Db.insert. subst new.
      rewrite new_operation_checked;
        [|done|apply Hroles; by apply elem_of_cons; left|done].
      set (new := new_operation now d b role).
      destruct (existsb (same_key new) t) eqn:He; [|reflexivity].
      exfalso. apply existsb_exists in He as (r & Hr & Hk).
      apply same_key_key in Hk. apply list_elem_of_In in Hr.
      destruct (Ht r Hr) as [Hin | (role' & Hk' & Hn)].
      - by apply (get_operation_None db d b role Hg r Hin).
      - rewrite Hk' in Hk. apply Hn. apply elem_of_cons. left.
        unfold key in Hk. simpl in Hk. congruence. }
    apply IH; [done..|].
    intros r Hr. apply elem_of_app in Hr as [Hr | Hr].
    + destruct (Ht r Hr) as [Hin | (role' & Hk & Hn)]; [by left|].
      right. exists role'. split; [done|].
      intros Hin. apply Hn. by apply elem_of_cons; right.
    + apply list_elem_of_singleton in Hr as ->. right. by exists role.
Qed.

Lemma initialize_batch_succeeds now db d b :
  is_batch_available d b = true ->
  2024 <= d_year d <= 2100 ->
  exists db1, BatchService.initialize_batch now db d b = (true, db1).
Proof.
  intros Ha Hy. unfold BatchService.initialize_batch. rewrite Ha.
  cbn [negb].
  destruct (insert_all_add_missing now db d b ROLE_ORDER db) as [t' ->];
    [apply ROLE_ORDER_NoDup | done | exact Ha | exact Hy | by left |].
  by eexists.
Qed.

(* ===================================================================== *)
(** ** The delivery totals of the daily summary *)
(* ===================================================================== *)

(** A batch whose Driver record is absent, or has no total_orders, or has
    total_orders = 0, adds nothing to the two delivery totals. *)
Lemma summary_step_excluded db d acc b :
  (forall i r, get_operation db d b "Driver" = Some (i, r) ->
               total_orders r = None \/ total_orders r = Some 0) ->
  acc_total_orders (summary_step db d acc b) = acc_total_orders acc
  /\ acc_total_on_time (summary_step db d acc b) = acc_total_on_time acc.
Proof.
  intros H. unfold summary_step.
  destruct (get_operation db d b "Driver") as [[i r]|] eqn:Hg; [|done].
  by destruct (H i r eq_refl) as [-> | ->].
Qed.

(** A Driver record with a total_orders that is neither null nor zero
    adds it to the total. *)
Lemma summary_step_counted db d acc b i r t :
  get_operation db d b "Driver" = Some (i, r) ->
  total_orders r = Some t -> t <> 0 ->
  acc_total_orders (summary_step db d acc b) = acc_total_orders acc + t.
Proof.
  intros Hg Ht Hne. unfold summary_step. rewrite Hg, Ht. simpl.
  apply Z.eqb_neq in Hne. by rewrite Hne.
Qed.

Lemma fold_summary_excluded db d batches acc :
  (forall b, b ∈ batches ->
     forall i r, get_operation db d b "Driver" = Some (i, r) ->
                 total_orders r = None \/ total_orders r = Some 0) ->
  acc_total_orders (fold_left (summary_step db d) batches acc)
  = acc_total_orders acc
  /\ acc_total_on_time (fold_left (summary_step db d) batches acc)
     = acc_total_on_time acc.
Proof.
  revert acc. induction batches as [|b batches IH]; intros acc H; [done|].
  cbn [fold_left].
  destruct (IH (summary_step db d acc b)) as [H1 H2].
  { intros b' Hb'. apply H. by apply elem_of_cons; right. }
  destruct (summary_step_excluded db d acc b) as [H3 H4].
  { apply H. by apply elem_of_cons; left. }
  split; congruence.
Qed.

(** On a table the application can produce, the total_orders of a Driver
    record is never negative. *)
Lemma driver_total_orders_nonneg db r t :
  reachable db -> r ∈ db -> operation_role r = "Driver" ->
  total_orders r = Some t -> 0 <= t.
Proof.
  intros Hr Hin Hrole Ht.
  pose proof (reachable_row_ok db r Hr Hin) as Hok.
  destruct (check_row_None r (row_checked r Hok))
    as (_ & _ & _ & _ & _ & Hd & _).
  destruct (row_delivery r Hok) as [e He]; [by eexists|].
  unfold driver_orders_valid in Hd. rewrite Hrole, He, Ht in Hd.
  simpl in Hd. by apply Z.leb_le.
Qed.

(** C10. In the daily summary of a table the application can produce:
    when no Driver record of the date has a positive total_orders, both
    delivery totals are absent; neither total is ever reported as 0; a
    batch whose Driver record is absent or has a null or zero
    total_orders adds nothing to either total, whatever its on-time
    count; and a Driver record with a non-null, non-zero total_orders
    adds it. *)
Theorem daily_summary_delivery_totals db d :
  reachable db ->
  ((forall r, r ∈ db -> operation_date r = d ->
              operation_role r = "Driver" ->
              forall t, total_orders r = Some t -> t <= 0) ->
   total_orders_delivered (get_daily_summary db d) = None
   /\ total_on_time_deliveries (get_daily_summary db d) = None)
  /\ total_orders_delivered (get_daily_summary db d) <> Some 0
  /\ total_on_time_deliveries (get_daily_summary db d) <> Some 0
  /\ (forall acc b,
         (forall i r, get_operation db d b "Driver" = Some (i, r) ->
                      total_orders r = None \/ total_orders r = Some 0) ->
         acc_total_orders (summary_step db d acc b) = acc_total_orders acc
         /\ acc_total_on_time (summary_step db d acc b)
            = acc_total_on_time acc)
  /\ (forall acc b i r t,
         get_operation db d b "Driver" = Some (i, r) ->
         total_orders r = Some t -> t <> 0 ->
         acc_total_orders (summary_step db d acc b)
         = acc_total_orders acc + t).
Proof.
  intros Hr. split; [|split; [|split; [|split]]].
  - intros Hnone. unfold get_daily_summary.
    cbn [total_orders_delivered total_on_time_deliveries].
    destruct (fold_summary_excluded db d (get_available_batches_for_date d)
                (mkSummaryAcc 0 0 0 0)) as [-> ->]; [|done].
    intros b _ i r Hg. apply get_operation_Some in Hg as [Hi Hk].
    assert (r ∈ db) as Hin by (by eapply list_elem_of_lookup_2).
    unfold key in Hk. injection Hk as Hd Hb Hrole.
    destruct (total_orders r) as [t|] eqn:Ht; [|by left]. right.
    pose proof (Hnone r Hin Hd Hrole t Ht).
    pose proof (driver_total_orders_nonneg db r t Hr Hin Hrole Ht).
    f_equal. lia.
  - unfold get_daily_summary. cbn [total_orders_delivered].
    destruct (0 <? _) eqn:E; [|discriminate].
    apply Z.ltb_lt in E. intros [= H]. lia.
  - unfold get_daily_summary. cbn [total_on_time_deliveries].
    destruct (0 <? _) eqn:E; [|discriminate].
    apply Z.ltb_lt in E. intros [= H]. lia.
  - intros acc b. apply summary_step_excluded.
  - intros acc b i r t. apply summary_step_counted.
Qed.

Lemma daily_summary_delivery_totals_witness :
  total_orders_delivered
    (get_daily_summary Examples.driver_started Examples.tuesday) = None
  /\ total_on_time_deliveries
       (get_daily_summary Examples.driver_started Examples.tuesday) = None.
Proof.
  refine (proj1 (daily_summary_delivery_totals Examples.driver_started
                   Examples.tuesday _) _).
  - unfold Examples.driver_started. apply reach_start, reach_empty.
  - intros r Hr _ _ t Ht. exfalso. revert Hr Ht.
    vm_compute. intros Hr.
    apply elem_of_cons in Hr as [-> | Hr]; [discriminate|].
    by apply elem_of_nil in Hr.
Defined.

(* ===================================================================== *)
(** ** Instances on concrete tables *)
(* ===================================================================== *)

Lemma one_record_per_triple_preserved_witness :
  OperationService.start_operation Examples.users Examples.at_10
    Examples.procurement_started (Examples.start_of "Procurement")
    Examples.bola
  = ((false, Messages.OPERATION_ALREADY_STARTED,
      Some (ErrorData "ALREADY_STARTED" "Ada" Examples.at_9)),
     Examples.procurement_started).
Proof.
  refine (proj2 (proj2 (proj2 (proj2
            (one_record_per_triple_preserved Examples.users Examples.at_10
               Examples.procurement_started _))))
            (Examples.start_of "Procurement") Examples.bola
            (set_started
               (new_operation Examples.at_9 Examples.tuesday "A" "Procurement")
               Examples.at_9 1)
            Examples.at_9 _ _ _).
  - apply one_record_per_triple_NoDup. vm_compute. apply NoDup_singleton.
  - vm_compute. apply elem_of_cons. by left.
  - reflexivity.
  - reflexivity.
Defined.

Lemma batch_status_spec_witness :
  bs_status
    (_calculate_batch_status Examples.procurement_completed Examples.tuesday
       "A") = BatchStatus.YELLOW.
Proof.
  refine (proj1 (proj2 (proj2 (proj2 (proj2 (proj2
            (batch_status_spec Examples.procurement_completed
               Examples.tuesday "A" _)))))) _ _).
  - unfold Examples.procurement_completed, Examples.procurement_started.
    apply reach_end, reach_start, reach_empty.
  - vm_compute. discriminate.
  - vm_compute. discriminate.
Defined.

Lemma status_derived_witness :
  status
    (set_started
       (new_operation Examples.at_9 Examples.tuesday "A" "Procurement")
       Examples.at_9 1) = OperationStatus.IN_PROGRESS.
Proof.
  refine (proj1 (proj2
            (status_derived Examples.procurement_started _ _ _)) _ _).
  - unfold Examples.procurement_started. apply reach_start, reach_empty.
  - vm_compute. apply elem_of_cons. by left.
  - by eexists.
  - reflexivity.
Defined.

(* ===================================================================== *)
(** ** The calendar *)
(* ===================================================================== *)

(** X1. Batch D is not offered on Mondays and Thursdays: the batches of a date
    depend on its ISO weekday alone; 15 January 2024, a Monday, has A, B
    and C, and 17 January 2024, a Wednesday, has all four. *)
Theorem available_batches_by_weekday :
  (forall d,
      get_available_batches_for_date d
      = if (isoweekday d =? 1) || (isoweekday d =? 4)
        then ["A"; "B"; "C"] else ["A"; "B"; "C"; "D"])
  /\ isoweekday (mkdate 2024 1 15) = 1
  /\ get_available_batches_for_date (mkdate 2024 1 15) = ["A"; "B"; "C"]
  /\ isoweekday (mkdate 2024 1 17) = 3
  /\ get_available_batches_for_date (mkdate 2024 1 17)
     = ["A"; "B"; "C"; "D"].
Proof.
  split; [|by repeat split].
  intros d. unfold get_available_batches_for_date, RESTRICTED_DAYS.
  cbn [existsb]. by rewrite orb_false_r.
Qed.

(* ===================================================================== *)
(** ** Timestamps are written once *)
(* ===================================================================== *)

Lemma keeps_stamps_refl r : keeps_stamps r r.
Proof. by repeat split. Qed.

Lemma insert_keeps_stamps (db : Table) j op new i r :
  db !! j = Some op -> db !! i = Some r ->
  keeps_stamps op new ->
  exists r', <[j := new]> db !! i = Some r' /\ keeps_stamps r r'.
Proof.
  intros Hj Hi Hk. destruct (decide (i = j)) as [-> | Hne].
  - exists new. rewrite list_lookup_insert_eq by (by eapply lookup_lt_Some).
    split; [reflexivity|]. congruence.
  - exists r. rewrite list_lookup_insert_ne by done.
    split; [exact Hi | apply keeps_stamps_refl].
Qed.

(** X2. Once set, start_time and end_time (and the actor stamped with each)
    are never changed, and no record is ever removed: after any call of
    any of the four mutating services, every record is still at its
    place, with its triple and with the stamps it had. *)
Theorem timestamps_immutable users now db i r :
  db !! i = Some r ->
  (forall data user,
      exists r',
        (OperationService.start_operation users now db data user).2 !! i
        = Some r' /\ keeps_stamps r r')
  /\ (forall data user,
      exists r',
        (OperationService.end_operation users now db data user).2 !! i
        = Some r' /\ keeps_stamps r r')
  /\ (forall data user,
      exists r',
        (OperationService.end_driver_operation users now db data user).2 !! i
        = Some r' /\ keeps_stamps r r')
  /\ (forall d b,
      exists r',
        (BatchService.initialize_batch now db d b).2 !! i = Some r'
        /\ keeps_stamps r r').
Proof.
  intros Hi. repeat split.
  - intros data user.
    destruct (start_operation_table users now db data user)
      as [[_ ->]|(db1 & j & op & Hg & Hs & _ & -> & _)];
      [exists r; split; [done | apply keeps_stamps_refl]|].
    pose proof (get_or_create_lookup _ _ _ _ _ _ _ _ Hg) as [Hj _].
    assert (db1 !! i = Some r) as Hi1.
    { apply get_or_create_inr in Hg as [[_ ->]|(_ & _ & _ & Hins)]; [done|].
      apply insert_inr in Hins as (-> & _ & _). by apply lookup_app_l_Some. }
    eapply insert_keeps_stamps; eauto.
    repeat split; simpl; intros x Hx; congruence.
  - intros data user.
    destruct (end_operation_table users now db data user)
      as [[_ ->]|(j & op & t & Hg & Hs & He & _ & -> & _)];
      [exists r; split; [done | apply keeps_stamps_refl]|].
    apply get_operation_Some in Hg as [Hj _].
    eapply insert_keeps_stamps; eauto.
    repeat split; simpl; intros x Hx; congruence.
  - intros data user.
    destruct (end_driver_operation_table users now db data user)
      as [[_ ->]|(j & op & t & Hg & Hs & He & _ & -> & _)];
      [exists r; split; [done | apply keeps_stamps_refl]|].
    apply get_operation_Some in Hg as [Hj _].
    eapply insert_keeps_stamps; eauto.
    repeat split; simpl; intros x Hx; congruence.
  - intros d b.
    destruct (initialize_batch_table now db d b) as [[_ ->]|(_ & _ & Hins)];
      [exists r; split; [done | apply keeps_stamps_refl]|].
    exists r. split; [|apply keeps_stamps_refl].
    revert Hins. generalize (add_missing now db d b ROLE_ORDER []).
    generalize (BatchService.initialize_batch now db d b).2.
    intros t rs. revert db Hi.
    induction rs as [|x rs IH]; intros db Hi; simpl.
    + by intros [= <-].
    + destruct (Db.insert db x) as [e|db1] eqn:Hx; [discriminate|].
      apply insert_inr in Hx as (-> & _ & _).
      apply IH. by apply lookup_app_l_Some.
Qed.

Lemma timestamps_immutable_witness :
  exists r',
    (OperationService.end_operation Examples.users Examples.at_11
       Examples.procurement_completed
       (mkOperationEnd Examples.tuesday "A" "Procurement") Examples.bola).2
    !! 0%nat = Some r'
    /\ end_time r' = Some Examples.at_10
    /\ completed_by_user_id r' = Some 1.
Proof.
  destruct (proj1 (proj2
              (timestamps_immutable Examples.users Examples.at_11
                 Examples.procurement_completed 0%nat
                 (touch Examples.at_10
                    (set_completed
                       (touch Examples.at_9
                          (set_started
                             (new_operation Examples.at_9 Examples.tuesday
                                "A" "Procurement") Examples.at_9 1))
                       Examples.at_10 1))
                 eq_refl))
              (mkOperationEnd Examples.tuesday "A" "Procurement")
              Examples.bola) as (r' & Hr' & _ & _ & He & _ & Hc).
  exists r'. split; [exact Hr'|]. split.
  - by apply He.
  - by rewrite (Hc Examples.at_10 eq_refl).
Defined.

(* ===================================================================== *)
(** ** A start followed by an end *)
(* ===================================================================== *)

Lemma check_row_set_completed now op uid t :
  check_row op = None -> start_time op = Some t -> end_time op = None ->
  operation_role op <> "Driver" -> datetime_leb t now = true ->
  check_row (touch now (set_completed op now uid)) = None.
Proof.
  intros Hc Hs He Hrole Hle.
  destruct (check_row_None op Hc) as (H1 & H2 & H3 & H4 & H5 & H6 & H7).
  apply check_row_intro; try assumption.
  - unfold end_after_start. simpl. by rewrite Hs.
  - unfold driver_orders_valid. simpl.
    apply String.eqb_neq in Hrole. by rewrite Hrole.
Qed.

(** X3. A start followed by an end of the same role (not the Driver), the
    clock not running backwards and the date still open: the end
    succeeds and the operation it returns is COMPLETED, with the two
    clock readings as its timestamps and hence their distance as its
    duration; an end with no start before it fails as "not started". *)
Theorem start_then_end users now db d b role user msg rd db1 now' user' :
  reachable db ->
  OperationService.start_operation users now db (mkOperationStart d b role)
    user = ((true, msg, rd), db1) ->
  role <> "Driver" ->
  datetime_leb now now' = true ->
  is_past_date now' d = false ->
  exists operation db2,
    OperationService.end_operation users now' db1 (mkOperationEnd d b role)
      user'
    = ((true, Messages.OPERATION_COMPLETED,
        Some (OperationData operation None)), db2)
    /\ resp_status operation = OperationStatus.COMPLETED
    /\ resp_start_time operation = Some now
    /\ resp_end_time operation = Some now'
    /\ resp_duration_minutes operation
       = Some (int_of_float
                 (PrimFloat.div
                    (Py.int_truediv (dt_micros now' - dt_micros now) 1000000)
                    (Py.float_of_int 60))).
Proof.
  intros Hr Heq Hrole Hle Hp.
  assert (table_inv db1) as [Hnd1 Hok1].
  { replace db1 with
      (OperationService.start_operation users now db
         (mkOperationStart d b role) user).2 by (by rewrite Heq).
    apply start_operation_inv. by apply reachable_inv. }
  destruct (start_operation_table users now db (mkOperationStart d b role)
              user) as [[Hf _]|(db0 & i & op & Hg & Hs & Hc & Hdb & _)];
    [rewrite Heq in Hf; discriminate|].
  rewrite Heq in Hdb. cbn [snd] in Hdb.
  pose proof (get_or_create_lookup _ _ _ _ _ _ _ _ Hg) as [Hi Hk].
  simpl in Hk.
  assert (row_ok op) as Hop.
  { apply reachable_inv in Hr as [_ Hok].
    pose proof (get_or_create_rows _ _ _ _ _ _ _ _ Hok Hg) as Hok0.
    eapply Forall_forall; [exact Hok0 | by eapply list_elem_of_lookup_2]. }
  set (r := touch now (set_started op now (user_id user))) in *.
  assert (db1 !! i = Some r) as Hi1.
  { rewrite Hdb. apply list_lookup_insert_eq. by eapply lookup_lt_Some. }
  assert (end_time op = None) as He.
  { destruct (end_time op) eqn:E; [|done].
    destruct (row_started op Hop) as [x Hx]; [by eexists|]. congruence. }
  unfold OperationService.end_operation. simpl.
  rewrite Hp, (get_operation_lookup db1 d b role i r Hnd1 Hi1 Hk).
  assert (start_time r = Some now) as Hsr by reflexivity.
  assert (end_time r = None) as Her by exact He.
  rewrite Her, Hsr. unfold Db.update.
  rewrite (check_row_set_completed now' r (user_id user') now);
    [|exact Hc|done|done| |done].
  2: { intros Heqr. apply Hrole. unfold key in Hk. injection Hk as _ _ <-.
       exact Heqr. }
  eexists _, _. split; [reflexivity|].
  rewrite refresh_insert by (by eapply lookup_lt_Some).
  by repeat split.
Qed.

Lemma start_then_end_witness :
  exists operation db2,
    OperationService.end_operation Examples.users Examples.at_10
      Examples.procurement_started
      (mkOperationEnd Examples.tuesday "A" "Procurement") Examples.bola
    = ((true, Messages.OPERATION_COMPLETED,
        Some (OperationData operation None)), db2)
    /\ resp_status operation = OperationStatus.COMPLETED
    /\ resp_duration_minutes operation = Some 60.
Proof.
  destruct (start_then_end Examples.users Examples.at_9 []
              Examples.tuesday "A" "Procurement" Examples.ada
              Messages.OPERATION_STARTED
              (OperationService.start_operation Examples.users Examples.at_9
                 [] (Examples.start_of "Procurement") Examples.ada).1.2
              Examples.procurement_started Examples.at_10 Examples.bola)
    as (operation & db2 & Heq & Hst & _ & _ & Hd).
  - apply reach_empty.
  - vm_compute. reflexivity.
  - discriminate.
  - reflexivity.
  - reflexivity.
  - exists operation, db2. split; [exact Heq|]. split; [exact Hst|].
    rewrite Hd. vm_compute. reflexivity.
Defined.

Lemma reachable_one_record_per_triple_witness :
  one_record_per_triple Examples.two_started.
Proof.
  apply reachable_one_record_per_triple.
  unfold Examples.two_started, Examples.procurement_started.
  apply reach_start, reach_start, reach_empty.
Defined.

(* ===================================================================== *)
(** ** The role sequence: index, previous and next *)
(* ===================================================================== *)

Lemma list_index_None x xs :
  Py.list_index x xs = None <-> Py.str_in x xs = false.
Proof.
  unfold Py.str_in. induction xs as [|y ys IH]; simpl; [done|].
  rewrite (String.eqb_sym x y).
  destruct (String.eqb y x); simpl; [split; discriminate|].
  rewrite <- IH. destruct (Py.list_index x ys); simpl; split; congruence.
Qed.

Lemma role_cases role :
  Py.str_in role ROLE_ORDER = true ->
  role = "Procurement" \/ role = "Inventory QC - IN"
  \/ role = "QC - Preppers" \/ role = "Pre-stagers"
  \/ role = "Extra Service Preppers" \/ role = "Pickers and Packers"
  \/ role = "QC-out" \/ role = "Stock handler 1"
  \/ role = "Stock handler 2" \/ role = "Manifester" \/ role = "Driver".
Proof.
  intros H. apply str_in_elem_of in H. unfold ROLE_ORDER in H.
  repeat (apply elem_of_cons in H as [-> | H]; [tauto|]).
  by apply elem_of_nil in H.
Qed.

Lemma get_next_role_invalid role :
  Py.str_in role ROLE_ORDER = false -> get_next_role role = None.
Proof.
  intros H. unfold get_next_role, get_role_index.
  by rewrite (proj2 (list_index_None role ROLE_ORDER) H).
Qed.

Lemma get_previous_role_invalid role :
  Py.str_in role ROLE_ORDER = false -> get_previous_role role = None.
Proof.
  intros H. unfold get_previous_role, get_role_index.
  by rewrite (proj2 (list_index_None role ROLE_ORDER) H).
Qed.

(** X5. The role sequence is a chain: [next] is the next role of [role]
    exactly when [role] is the previous role of [next]; the index of a
    role is -1 exactly for a string that is no role, and otherwise the
    one position of [ROLE_ORDER] that holds the role; only Procurement
    (and a string that is no role) has no previous role, only the Driver
    (and a string that is no role) has no next role. *)
Theorem role_sequence_chain :
  (forall role next,
      get_next_role role = Some next <-> get_previous_role next = Some role)
  /\ (forall role, get_role_index role = -1 <-> is_valid_role role = false)
  /\ (forall role (i : nat),
         get_role_index role = Z.of_nat i <-> ROLE_ORDER !! i = Some role)
  /\ (forall role,
         get_previous_role role = None
         <-> role = "Procurement" \/ is_valid_role role = false)
  /\ (forall role,
         get_next_role role = None
         <-> role = DRIVER_ROLE \/ is_valid_role role = false).
Proof.
  split; [|split; [|split; [|split]]].
  - intros role next. split; intros H.
    + destruct (Py.str_in role ROLE_ORDER) eqn:E;
        [|by rewrite get_next_role_invalid in H].
      apply role_cases in E;
        repeat (destruct E as [-> | E]); [..| subst];
        vm_compute in H; try discriminate;
        injection H as <-; reflexivity.
    + destruct (Py.str_in next ROLE_ORDER) eqn:E;
        [|by rewrite get_previous_role_invalid in H].
      apply role_cases in E;
        repeat (destruct E as [-> | E]); [..| subst];
        vm_compute in H; try discriminate;
        injection H as <-; reflexivity.
  - intros role. unfold get_role_index, is_valid_role, VALID_ROLES.
    rewrite <- list_index_None.
    destruct (Py.list_index role ROLE_ORDER); split; try done; lia.
  - intros role i. unfold get_role_index. split.
    + destruct (Py.list_index role ROLE_ORDER) as [n|] eqn:E; [|lia].
      intros H. apply Nat2Z.inj in H as ->. by apply list_index_Some.
    + intros H.
      do 11 (destruct i as [|i];
             [simpl in H; injection H as <-; reflexivity|]).
      discriminate.
  - intros role. unfold is_valid_role, VALID_ROLES. split.
    + intros H. destruct (Py.str_in role ROLE_ORDER) eqn:E; [|by right].
      left. apply role_cases in E;
        repeat (destruct E as [-> | E]); [..| subst];
        vm_compute in H; done.
    + intros [-> | H]; [reflexivity | by apply get_previous_role_invalid].
  - intros role. unfold is_valid_role, VALID_ROLES, DRIVER_ROLE. split.
    + intros H. destruct (Py.str_in role ROLE_ORDER) eqn:E; [|by right].
      left. apply role_cases in E;
        repeat (destruct E as [-> | E]); [..| subst];
        vm_compute in H; done.
    + intros [-> | H]; [reflexivity | by apply get_next_role_invalid].
Qed.

(* ===================================================================== *)
(** ** Past, today, future *)
(* ===================================================================== *)

(** X6. Against one clock reading a date is exactly one of past, today
    and future. *)
Theorem past_today_future now d :
  (is_past_date now d = true /\ is_today now d = false
   /\ is_future_date now d = false)
  \/ (is_past_date now d = false /\ is_today now d = true
      /\ is_future_date now d = false)
  \/ (is_past_date now d = false /\ is_today now d = false
      /\ is_future_date now d = true).
Proof.
  unfold is_past_date, is_today, is_future_date, get_current_date,
    date_ltb, date_eqb.
  destruct (dt_date now) as [y m d0], d as [y' m' d']. simpl.
  repeat match goal with
    | |- context [?a <? ?b] => destruct (Z.ltb_spec a b)
    | |- context [?a =? ?b] => destruct (Z.eqb_spec a b)
    end; simpl; try lia; auto.
Qed.

(* ===================================================================== *)
(** ** Ordinals and the calendar order *)
(* ===================================================================== *)

Lemma days_before_year_succ y :
  days_before_year (y + 1)
  = days_before_year y + 365 + (if is_leap y then 1 else 0).
Proof.
  unfold days_before_year, is_leap.
  replace (y + 1 - 1) with y by lia.
  destruct (Z.eqb_spec (y mod 4) 0), (Z.eqb_spec (y mod 100) 0),
    (Z.eqb_spec (y mod 400) 0); simpl;
    Z.div_mod_to_equations; lia.
Qed.

Lemma days_before_year_mono y1 y2 :
  y1 <= y2 -> days_before_year y1 <= days_before_year y2.
Proof.
  unfold days_before_year. intros H. Z.div_mod_to_equations. lia.
Qed.

Lemma month_cases m :
  1 <= m <= 12 ->
  m = 1 \/ m = 2 \/ m = 3 \/ m = 4 \/ m = 5 \/ m = 6 \/ m = 7 \/ m = 8
  \/ m = 9 \/ m = 10 \/ m = 11 \/ m = 12.
Proof. lia. Qed.

(** The days of a month lie between the month's first day and the first
    day of the next month. *)
Lemma days_before_month_succ y m :
  1 <= m <= 12 ->
  days_before_month y (m + 1) = days_before_month y m + days_in_month y m.
Proof.
  intros H. apply month_cases in H.
  repeat (destruct H as [-> | H]); [..| subst];
    unfold days_before_month, days_in_month; simpl;
    destruct (is_leap y); reflexivity.
Qed.

Lemma days_in_month_pos y m : 28 <= days_in_month y m.
Proof.
  unfold days_in_month.
  destruct (m =? 2); [destruct (is_leap y); lia|].
  destruct ((m =? 4) || (m =? 6) || (m =? 9) || (m =? 11)); lia.
Qed.

Lemma days_before_month_mono y m1 m2 :
  1 <= m1 -> m1 <= m2 -> m2 <= 13 ->
  days_before_month y m1 <= days_before_month y m2.
Proof.
  intros H1 H2 H3.
  replace m2 with (m1 + Z.of_nat (Z.to_nat (m2 - m1))) in * by lia.
  induction (Z.to_nat (m2 - m1)) as [|n IH].
  - replace (m1 + Z.of_nat 0) with m1 by lia. lia.
  - replace (m1 + Z.of_nat (S n)) with (m1 + Z.of_nat n + 1) in * by lia.
    rewrite days_before_month_succ by lia.
    pose proof (days_in_month_pos y (m1 + Z.of_nat n)).
    assert (days_before_month y m1 <= days_before_month y (m1 + Z.of_nat n))
      by (apply IH; lia).
    lia.
Qed.

Lemma days_before_month_13 y :
  days_before_month y 13 = 365 + (if is_leap y then 1 else 0).
Proof.
  unfold days_before_month, days_in_month; simpl.
  destruct (is_leap y); reflexivity.
Qed.

Lemma valid_date_bounds d :
  valid_date d = true ->
  1 <= d_month d <= 12 /\ 1 <= d_day d <= days_in_month (d_year d) (d_month d).
Proof.
  unfold valid_date. rewrite !andb_true_iff, !Z.leb_le. lia.
Qed.

(** On dates [date(y, m, d)] accepts, [a < b] is the order of the
    ordinals. *)
Lemma date_ltb_toordinal a b :
  valid_date a = true -> valid_date b = true ->
  date_ltb a b = true -> toordinal a < toordinal b.
Proof.
  intros Ha Hb. apply valid_date_bounds in Ha, Hb.
  destruct a as [y m d], b as [y' m' d']. simpl in Ha, Hb.
  unfold date_ltb, toordinal. simpl.
  rewrite orb_true_iff, !andb_true_iff, orb_true_iff, andb_true_iff,
    !Z.ltb_lt, !Z.eqb_eq.
  intros [Hy | [<- [Hm | [<- Hd]]]].
  - pose proof (days_before_year_succ y).
    pose proof (days_before_year_mono (y + 1) y' ltac:(lia)).
    pose proof (days_before_month_succ y m ltac:(lia)).
    pose proof (days_before_month_mono y (m + 1) 13 ltac:(lia) ltac:(lia)
                  ltac:(lia)).
    pose proof (days_before_month_13 y).
    pose proof (days_before_month_mono y' 1 m' ltac:(lia) ltac:(lia)
                  ltac:(lia)).
    assert (days_before_month y' 1 = 0) by reflexivity.
    lia.
  - pose proof (days_before_month_succ y m ltac:(lia)).
    pose proof (days_before_month_mono y (m + 1) m' ltac:(lia) ltac:(lia)
                  ltac:(lia)).
    lia.
  - lia.
Qed.

Lemma date_ltb_total a b :
  date_ltb a b = true \/ a = b \/ date_ltb b a = true.
Proof.
  destruct a as [y m d], b as [y' m' d']. unfold date_ltb. simpl.
  destruct (Z.lt_trichotomy y y') as [H | [-> | H]].
  - left. apply Z.ltb_lt in H. by rewrite H.
  - rewrite Z.ltb_irrefl, Z.eqb_refl. simpl.
    destruct (Z.lt_trichotomy m m') as [H | [-> | H]].
    + left. apply Z.ltb_lt in H. by rewrite H.
    + rewrite Z.ltb_irrefl, Z.eqb_refl. simpl.
      destruct (Z.lt_trichotomy d d') as [H | [-> | H]].
      * left. by apply Z.ltb_lt.
      * right. by left.
      * right. right. by apply Z.ltb_lt.
    + right. right. apply Z.ltb_lt in H. by rewrite H.
  - right. right. apply Z.ltb_lt in H. by rewrite H.
Qed.

(** X7. For dates [date(y, m, d)] accepts, the three classifications of
    a date against the clock agree with the sign of [days_difference]:
    the date is past exactly when it lies a positive number of days
    before the current date, today exactly when the difference is 0, and
    future exactly when the difference is negative; and
    [days_difference] is antisymmetric. *)
Theorem classification_by_days_difference now d :
  valid_date d = true ->
  valid_date (get_current_date now) = true ->
  (is_past_date now d = true <-> 0 < days_difference d (get_current_date now))
  /\ (is_today now d = true <-> days_difference d (get_current_date now) = 0)
  /\ (is_future_date now d = true
      <-> days_difference d (get_current_date now) < 0)
  /\ days_difference (get_current_date now) d
     = - days_difference d (get_current_date now).
Proof.
  intros Hd Hn. unfold is_past_date, is_today, is_future_date,
    days_difference.
  set (t := get_current_date now) in *.
  pose proof (date_ltb_toordinal d t Hd Hn) as H1.
  pose proof (date_ltb_toordinal t d Hn Hd) as H2.
  assert (date_eqb d t = true <-> d = t) as He by apply date_eqb_eq.
  destruct (date_ltb_total d t) as [H | [H | H]].
  - specialize (H1 H).
    destruct (date_ltb t d) eqn:E; [specialize (H2 eq_refl); lia|].
    destruct (date_eqb d t) eqn:E'.
    + assert (d = t) as Hdt by by apply He. rewrite Hdt in H1. lia.
    + repeat split; try done; try lia.
  - subst d. rewrite (proj2 He eq_refl).
    destruct (date_ltb t t) eqn:E; [specialize (H1 eq_refl); lia|].
    repeat split; try done; try lia.
  - specialize (H2 H).
    destruct (date_ltb d t) eqn:E; [specialize (H1 eq_refl); lia|].
    destruct (date_eqb d t) eqn:E'.
    + assert (d = t) as Hdt by by apply He. rewrite Hdt in H2. lia.
    + repeat split; try done; try lia.
Qed.

Lemma classification_by_days_difference_witness :
  (is_past_date Examples.at_9 Examples.monday = true
   <-> 0 < days_difference Examples.monday (get_current_date Examples.at_9))
  /\ (is_today Examples.at_9 Examples.monday = true
      <-> days_difference Examples.monday (get_current_date Examples.at_9) = 0)
  /\ (is_future_date Examples.at_9 Examples.monday = true
      <-> days_difference Examples.monday (get_current_date Examples.at_9) < 0)
  /\ days_difference (get_current_date Examples.at_9) Examples.monday
     = - days_difference Examples.monday (get_current_date Examples.at_9).
Proof.
  apply (classification_by_days_difference Examples.at_9 Examples.monday);
    reflexivity.
Defined.

(* ===================================================================== *)
(** ** The role list of a batch *)
(* ===================================================================== *)

Lemma get_batch_operations_elem db d b r :
  r ∈ get_batch_operations db d b
  <-> r ∈ db /\ operation_date r = d /\ batch r = b.
Proof.
  unfold get_batch_operations. rewrite list_elem_of_filter.
  rewrite andb_true_iff, date_eqb_eq, String.eqb_eq. tauto.
Qed.

Lemma op_map_get_fold role ops acc :
  let f := fun found op =>
             if String.eqb (operation_role op) role then Some op else found in
  match fold_left f ops acc with
  | Some r => (r ∈ ops /\ operation_role r = role) \/ acc = Some r
  | None => acc = None /\ forall r, r ∈ ops -> operation_role r <> role
  end.
Proof.
  intros f. revert acc. induction ops as [|op ops IH]; intros acc; simpl.
  - destruct acc; [by right|]. split; [done|]. intros r Hr.
    by apply elem_of_nil in Hr.
  - specialize (IH (f acc op)).
    destruct (fold_left f ops (f acc op)) as [r|].
    + destruct IH as [[Hr He] | Hacc].
      * left. split; [by apply elem_of_cons; right | done].
      * unfold f in Hacc.
        destruct (String.eqb (operation_role op) role) eqn:E.
        -- injection Hacc as <-. apply String.eqb_eq in E.
           left. split; [by apply elem_of_cons; left | done].
        -- by right.
    + destruct IH as [Hacc Hall]. unfold f in Hacc.
      destruct (String.eqb (operation_role op) role) eqn:E; [discriminate|].
      split; [done|]. intros r Hr.
      apply elem_of_cons in Hr as [-> | Hr]; [|by apply Hall].
      by apply String.eqb_neq.
Qed.

(** With one record per triple, the dictionary of [get_all_roles_status]
    holds for each role the record [get_operation] finds. *)
Lemma op_map_get_get_operation db d b role :
  NoDup (key <$> db) ->
  op_map_get (get_batch_operations db d b) role
  = snd <$> get_operation db d b role.
Proof.
  intros Hnd. unfold op_map_get.
  pose proof (op_map_get_fold role (get_batch_operations db d b) None) as H.
  simpl in H.
  destruct (fold_left _ (get_batch_operations db d b) None) as [r|].
  - destruct H as [[Hr He] | H]; [|discriminate].
    apply get_batch_operations_elem in Hr as (Hr & Hd & Hb).
    destruct (get_operation db d b role) as [[i r0]|] eqn:E; simpl.
    + apply get_operation_Some in E as [Hi Hk]. f_equal.
      apply (NoDup_fmap_inj_on key db); auto.
      * by eapply list_elem_of_lookup_2.
      * rewrite Hk. unfold key. congruence.
    + exfalso. apply (get_operation_None _ _ _ _ E r Hr).
      unfold key. congruence.
  - destruct H as [_ H].
    destruct (get_operation db d b role) as [[i r0]|] eqn:E; simpl; [|done].
    apply get_operation_Some in E as [Hi Hk]. exfalso.
    apply (H r0).
    + apply get_batch_operations_elem. unfold key in Hk.
      injection Hk as ? ? ?. split; [by eapply list_elem_of_lookup_2 | done].
    + unfold key in Hk. congruence.
Qed.

Lemma get_all_roles_status_lookup users db d b (i : nat) :
  get_all_roles_status users db d b !! i
  = role_status users (get_batch_operations db d b) i <$> ROLE_ORDER !! i.
Proof. unfold get_all_roles_status. apply list_lookup_imap. Qed.

(** X8. The role list of a batch has one entry per role, in the order of
    the role sequence and numbered from 1; on a table the application
    can produce, the entry of a role without a record is PENDING with
    every other field empty, and the entry of a role with a record shows
    what the response of that record shows. *)
Theorem roles_status_listing users db d b :
  reachable db ->
  length (get_all_roles_status users db d b) = 11%nat
  /\ forall (i : nat) role,
      ROLE_ORDER !! i = Some role ->
      exists rs,
        get_all_roles_status users db d b !! i = Some rs
        /\ rs_role rs = role
        /\ rs_order rs = Z.of_nat i + 1
        /\ match get_operation db d b role with
           | None =>
               rs_status rs = OperationStatus.PENDING
               /\ rs_start_time rs = None /\ rs_end_time rs = None
               /\ rs_duration_minutes rs = None
               /\ rs_started_by rs = None /\ rs_completed_by rs = None
               /\ rs_total_orders rs = None
               /\ rs_on_time_deliveries rs = None
               /\ rs_on_time_percentage rs = None
           | Some (j, operation) =>
               let shown := _to_response users j operation in
               rs_status rs = resp_status shown
               /\ rs_start_time rs = resp_start_time shown
               /\ rs_end_time rs = resp_end_time shown
               /\ rs_duration_minutes rs = resp_duration_minutes shown
               /\ rs_started_by rs = resp_started_by shown
               /\ rs_completed_by rs = resp_completed_by shown
               /\ rs_total_orders rs = resp_total_orders shown
               /\ rs_on_time_deliveries rs = resp_on_time_deliveries shown
               /\ rs_on_time_percentage rs = resp_on_time_percentage shown
           end.
Proof.
  intros Hr. apply reachable_inv in Hr as [Hnd _]. split.
  - unfold get_all_roles_status. by rewrite length_imap.
  - intros i role Hi.
    rewrite get_all_roles_status_lookup, Hi. simpl.
    eexists. split; [reflexivity|].
    unfold role_status. rewrite (op_map_get_get_operation db d b role Hnd).
    destruct (get_operation db d b role) as [[j op]|]; simpl;
      repeat split; reflexivity.
Qed.

Lemma roles_status_listing_witness :
  length
    (get_all_roles_status Examples.users Examples.two_started
       Examples.tuesday "A") = 11%nat.
Proof.
  refine (proj1 (roles_status_listing Examples.users Examples.two_started
                   Examples.tuesday "A" _)).
  unfold Examples.two_started, Examples.procurement_started.
  apply reach_start, reach_start, reach_empty.
Defined.

(** Counting the records of a batch that satisfy [P] is counting the
    roles whose record satisfies [P]. *)
Lemma count_by_role (db : Table) d b (P : OperationsLog -> bool) :
  table_inv db ->
  length
    (filter
       (fun r =>
          (date_eqb (operation_date r) d && String.eqb (batch r) b && P r)
          = true) db)
  = length
      (filter
         (fun role =>
            match get_operation db d b role with
            | Some (_, r) => P r
            | None => false
            end = true) ROLE_ORDER).
Proof.
  intros [Hnd Hok].
  set (l := filter _ db).
  assert (forall r, r ∈ l <->
            r ∈ db /\ operation_date r = d /\ batch r = b /\ P r = true)
    as Hl.
  { intros r. subst l. rewrite list_elem_of_filter.
    rewrite !andb_true_iff, date_eqb_eq, String.eqb_eq. tauto. }
  rewrite <- (length_fmap operation_role l).
  apply Permutation_length, NoDup_Permutation.
  - apply NoDup_fmap_2_strong.
    + intros x y Hx Hy Hrole.
      apply Hl in Hx as (Hxd & Hx1 & Hx2 & _).
      apply Hl in Hy as (Hyd & Hy1 & Hy2 & _).
      apply (NoDup_fmap_inj_on key db); auto.
      unfold key. congruence.
    + subst l. apply NoDup_filter. by eapply NoDup_fmap_1.
  - apply NoDup_filter, ROLE_ORDER_NoDup.
  - intros role. rewrite list_elem_of_fmap, list_elem_of_filter. split.
    + intros (r & -> & Hr). apply Hl in Hr as (Hrd & Hd & Hb & HP).
      apply list_elem_of_lookup in Hrd as Hi. destruct Hi as [i Hi].
      rewrite (get_operation_lookup db d b (operation_role r) i r Hnd Hi)
        by (unfold key; congruence).
      split; [exact HP|].
      rewrite Forall_forall in Hok. specialize (Hok r Hrd).
      destruct (check_row_None r (row_checked r Hok)) as (_ & _ & Hv & _).
      by apply str_in_elem_of in Hv.
    + intros [HP _].
      destruct (get_operation db d b role) as [[i r]|] eqn:E; [|discriminate].
      apply get_operation_Some in E as [Hi Hk].
      unfold key in Hk. injection Hk as Hd Hb Hrole.
      exists r. split; [done|]. apply Hl.
      split; [by eapply list_elem_of_lookup_2 | done].
Qed.

Lemma filter_imap_length {A B} (f : nat -> A -> B)
      (P : B -> Prop) `{!forall y, Decision (P y)}
      (Q : A -> Prop) `{!forall x, Decision (Q x)} (l : list A) :
  (forall i x, P (f i x) <-> Q x) ->
  length (filter P (imap f l)) = length (filter Q l).
Proof.
  revert f. induction l as [|x l IH]; intros f Hf; [done|].
  simpl. rewrite !filter_cons.
  pose proof (Hf 0%nat x) as Hx.
  destruct (decide (P (f 0%nat x))), (decide (Q x)); simpl;
    try tauto; rewrite (IH (f ∘ S)); try done; intros i y; apply Hf.
Qed.

Lemma filter_length_all {A} (P : A -> Prop) `{!forall x, Decision (P x)}
      (l : list A) :
  length (filter P l) = length l <-> Forall P l.
Proof.
  induction l as [|x l IH]; [by split; [constructor|]|].
  rewrite filter_cons. pose proof (length_filter P l) as Hle.
  destruct (decide (P x)); simpl.
  - rewrite Forall_cons. split.
    + intros Hl. split; [done|]. apply IH. lia.
    + intros [_ Hl]. apply IH in Hl. lia.
  - split; [lia|]. intros Hl. by apply Forall_cons in Hl as [? _].
Qed.

Lemma filter_length_none {A} (P : A -> Prop) `{!forall x, Decision (P x)}
      (l : list A) :
  length (filter P l) = 0%nat <-> Forall (fun x => ~ P x) l.
Proof.
  induction l as [|x l IH]; [by split; [constructor|]|].
  rewrite filter_cons.
  destruct (decide (P x)); simpl.
  - split; [lia|]. intros Hl. by apply Forall_cons in Hl as [? _].
  - rewrite Forall_cons. tauto.
Qed.

Lemma Forall_imap {A B} (f : nat -> A -> B) (P : B -> Prop) (l : list A) :
  Forall P (imap f l) <-> forall i x, l !! i = Some x -> P (f i x).
Proof.
  rewrite Forall_lookup. split.
  - intros H i x Hi. apply (H i). by rewrite list_lookup_imap, Hi.
  - intros H i y Hi. rewrite list_lookup_imap in Hi.
    destruct (l !! i) as [x|] eqn:E; [|discriminate].
    injection Hi as <-. by apply H.
Qed.

(** What an entry of the role list shows of the stamps of its record. *)
Lemma role_status_stamps users db d b (i : nat) role :
  table_inv db ->
  let rs := role_status users (get_batch_operations db d b) i role in
  let found := snd <$> get_operation db d b role in
  (is_Some (rs_start_time rs)
   <-> match found with
       | Some r => match start_time r with Some _ => true | None => false end
       | None => false
       end = true)
  /\ (is_Some (rs_end_time rs)
      <-> match found with
          | Some r => match end_time r with Some _ => true | None => false end
          | None => false
          end = true)
  /\ (rs_status rs = OperationStatus.COMPLETED <-> is_Some (rs_end_time rs))
  /\ (rs_status rs = OperationStatus.PENDING
      <-> ~ is_Some (rs_start_time rs)).
Proof.
  intros [Hnd Hok] rs found. subst rs found. unfold role_status.
  rewrite (op_map_get_get_operation db d b role Hnd).
  destruct (get_operation db d b role) as [[j r]|] eqn:E; simpl.
  - apply get_operation_Some in E as [Hj _].
    rewrite Forall_forall in Hok.
    pose proof (row_started r (Hok r (list_elem_of_lookup_2 _ _ _ Hj))) as Hs.
    unfold status, OperationStatus.COMPLETED, OperationStatus.PENDING.
    destruct (start_time r) as [s|], (end_time r) as [e|];
      try (destruct Hs as [? [=]]; by eexists);
      repeat split; intros; try done; try (by eexists);
      try (match goal with H : is_Some None |- _ => by destruct H end);
      try (match goal with
           | H : ~ is_Some (Some _) |- _ => exfalso; apply H; by eexists
           end);
      try (match goal with |- ~ _ => by intros [? [=]] end).
  - unfold OperationStatus.COMPLETED, OperationStatus.PENDING.
    repeat split; intros; try done;
      try (match goal with H : is_Some None |- _ => by destruct H end);
      try (match goal with |- ~ _ => by intros [? [=]] end).
Qed.

(** X9. On a table the application can produce, the counters of a batch
    count the entries of its role list: [started_count] is the number of
    entries with a start time, [completed_count] the number of entries
    with an end time, which are the entries whose status is COMPLETED;
    the batch is GREEN exactly when every entry of the role list is
    COMPLETED, and RED exactly when every entry is PENDING. *)
Theorem batch_counters_count_role_list users db d b :
  reachable db ->
  let roles := get_all_roles_status users db d b in
  let counters := _calculate_batch_status db d b in
  started_count counters
  = Z.of_nat (length (filter (fun rs => is_Some (rs_start_time rs)) roles))
  /\ completed_count counters
     = Z.of_nat (length (filter (fun rs => is_Some (rs_end_time rs)) roles))
  /\ completed_count counters
     = Z.of_nat
         (length
            (filter
               (fun rs =>
                  String.eqb (rs_status rs) OperationStatus.COMPLETED = true)
               roles))
  /\ (bs_status counters = BatchStatus.GREEN
      <-> Forall (fun rs => rs_status rs = OperationStatus.COMPLETED) roles)
  /\ (bs_status counters = BatchStatus.RED
      <-> Forall (fun rs => rs_status rs = OperationStatus.PENDING) roles).
Proof.
  intros Hr roles counters. apply reachable_inv in Hr as Hinv.
  pose proof (fun i role => role_status_stamps users db d b i role Hinv)
    as Hst. simpl in Hst.
  assert (started_count counters
          = Z.of_nat (length (filter (fun rs => is_Some (rs_start_time rs))
                                roles))) as Hs.
  { subst roles counters. simpl. unfold count_started, get_all_roles_status.
    f_equal.
    rewrite (count_by_role db d b
               (fun r => match start_time r with
                         | Some _ => true | None => false end) Hinv).
    symmetry. apply filter_imap_length. intros i role.
    rewrite (proj1 (Hst i role)).
    by destruct (get_operation db d b role) as [[j r]|]. }
  assert (completed_count counters
          = Z.of_nat (length (filter (fun rs => is_Some (rs_end_time rs))
                                roles))) as Hc.
  { subst roles counters. simpl. unfold count_completed, get_all_roles_status.
    f_equal.
    rewrite (count_by_role db d b
               (fun r => match end_time r with
                         | Some _ => true | None => false end) Hinv).
    symmetry. apply filter_imap_length. intros i role.
    rewrite (proj1 (proj2 (Hst i role))).
    by destruct (get_operation db d b role) as [[j r]|]. }
  assert (length
            (filter
               (fun rs =>
                  String.eqb (rs_status rs) OperationStatus.COMPLETED = true)
               roles)
          = length (filter (fun rs => is_Some (rs_end_time rs)) roles))
    as Hcs.
  { subst roles. unfold get_all_roles_status.
    rewrite (filter_imap_length _ (fun rs => is_Some (rs_end_time rs))
               (fun role =>
                  is_Some (rs_end_time
                             (role_status users (get_batch_operations db d b)
                                0 role)))).
    - apply filter_imap_length. intros i role.
      rewrite String.eqb_eq, (proj1 (proj2 (proj2 (Hst i role)))).
      rewrite (proj1 (proj2 (Hst i role))), (proj1 (proj2 (Hst 0%nat role))).
      done.
    - intros i role.
      by rewrite (proj1 (proj2 (Hst i role))), (proj1 (proj2 (Hst 0%nat role))). }
  assert (length roles = 11%nat) as Hlen.
  { subst roles. unfold get_all_roles_status. by rewrite length_imap. }
  pose proof (counts_bounds db d b Hinv) as (Hb1 & Hb2).
  split; [exact Hs|]. split; [exact Hc|]. split; [by rewrite Hcs|].
  assert (bs_status counters
          = if started_count counters =? 0 then BatchStatus.RED
            else if TOTAL_ROLES <=? completed_count counters
                 then BatchStatus.GREEN else BatchStatus.YELLOW) as Hbs
    by reflexivity.
  change (count_started db d b) with (started_count counters) in *.
  change (count_completed db d b) with (completed_count counters) in *.
  unfold TOTAL_ROLES in *.
  change (Z.of_nat (length ROLE_ORDER)) with 11 in *.
  split.
  - assert (Forall (fun rs => rs_status rs = OperationStatus.COMPLETED) roles
            <-> Forall (fun rs => is_Some (rs_end_time rs)) roles) as ->.
    { subst roles. unfold get_all_roles_status. rewrite !Forall_imap.
      split; intros H i x Hi; apply (Hst i x), H, Hi. }
    pose proof (filter_length_all (fun rs => is_Some (rs_end_time rs)) roles)
      as Hall.
    rewrite <- Hall, Hlen, Hbs.
    destruct (Z.eqb_spec (started_count counters) 0),
      (Z.leb_spec 11 (completed_count counters)); split; try done; lia.
  - assert (Forall (fun rs => rs_status rs = OperationStatus.PENDING) roles
            <-> Forall (fun rs => ~ is_Some (rs_start_time rs)) roles) as ->.
    { subst roles. unfold get_all_roles_status. rewrite !Forall_imap.
      split; intros H i x Hi; apply (Hst i x), H, Hi. }
    pose proof (filter_length_none (fun rs => is_Some (rs_start_time rs))
                  roles) as Hnone.
    rewrite <- Hnone, Hbs.
    destruct (Z.eqb_spec (started_count counters) 0),
      (Z.leb_spec 11 (completed_count counters)); split; try done; lia.
Qed.

Lemma batch_counters_count_role_list_witness :
  started_count
    (_calculate_batch_status Examples.two_started Examples.tuesday "A")
  = Z.of_nat
      (length
         (filter (fun rs => is_Some (rs_start_time rs))
            (get_all_roles_status Examples.users Examples.two_started
               Examples.tuesday "A"))).
Proof.
  refine (proj1 (batch_counters_count_role_list Examples.users
                   Examples.two_started Examples.tuesday "A" _)).
  unfold Examples.two_started, Examples.procurement_started.
  apply reach_start, reach_start, reach_empty.
Defined.

(* ===================================================================== *)
(** ** Completing the Driver and the colour of the batch *)
(* ===================================================================== *)

Lemma get_operation_update_same (db : Table) i op w d b role :
  NoDup (key <$> db) -> db !! i = Some op ->
  key w = key op -> key op = (d, b, role) ->
  get_operation (<[i := w]> db) d b role = Some (i, w).
Proof.
  intros Hnd Hi Hk Hop. apply get_operation_lookup.
  - rewrite list_fmap_insert, Hk, list_insert_id; [done|].
    by rewrite list_lookup_fmap, Hi.
  - apply list_lookup_insert_eq. by eapply lookup_lt_Some.
  - congruence.
Qed.

Lemma get_operation_update_other (db : Table) i op w d b role :
  NoDup (key <$> db) -> db !! i = Some op ->
  key w = key op -> key op <> (d, b, role) ->
  get_operation (<[i := w]> db) d b role = get_operation db d b role.
Proof.
  intros Hnd Hi Hk Hop.
  assert (NoDup (key <$> <[i := w]> db)) as Hnd'.
  { rewrite list_fmap_insert, Hk, list_insert_id; [done|].
    by rewrite list_lookup_fmap, Hi. }
  destruct (get_operation db d b role) as [[j r]|] eqn:E.
  - apply get_operation_Some in E as [Hj Hr].
    apply get_operation_lookup; [done| |done].
    rewrite list_lookup_insert_ne; [done|]. intros ->. congruence.
  - destruct (get_operation (<[i := w]> db) d b role) as [[j r]|] eqn:E';
      [|done].
    apply get_operation_Some in E' as [Hj Hr]. exfalso.
    destruct (decide (i = j)) as [<- | Hne].
    + rewrite list_lookup_insert_eq in Hj by (by eapply lookup_lt_Some).
      injection Hj as <-. congruence.
    + rewrite list_lookup_insert_ne in Hj by done.
      apply (get_operation_None _ _ _ _ E r); [|done].
      by eapply list_elem_of_lookup_2.
Qed.

Lemma end_driver_operation_warning users now db data user msg operation
      warning db' :
  OperationService.end_driver_operation users now db data user
  = ((true, msg, Some (OperationData operation warning)), db') ->
  warning
  = match _get_incomplete_roles db (driver_operation_date data)
            (driver_batch data) DRIVER_ROLE with
    | [] => None
    | incomplete =>
        Some (String.append "Roles not completed: "
                (Py.join_comma incomplete))
    end.
Proof.
  unfold OperationService.end_driver_operation.
  destruct (is_past_date _ _); [discriminate|].
  destruct (get_operation _ _ _ _) as [[i op]|] eqn:Hg; [|discriminate].
  destruct (end_time op); [discriminate|].
  destruct (start_time op); [|discriminate].
  destruct (Db.update _ _ _ _) as [e|db2] eqn:Hu; [discriminate|].
  intros [= <- <- <- <-].
  by destruct (_get_incomplete_roles _ _ _ _).
Qed.

(** The roles a Driver completion reports are, in the order of the
    sequence, the roles other than the Driver without a completed
    record. *)
Lemma incomplete_roles_elem db d b exclude role :
  role ∈ _get_incomplete_roles db d b exclude
  <-> role ∈ ROLE_ORDER /\ role <> exclude
      /\ forall i r, get_operation db d b role = Some (i, r) ->
                     end_time r = None.
Proof.
  unfold _get_incomplete_roles. rewrite list_elem_of_filter.
  rewrite andb_true_iff, negb_true_iff, String.eqb_neq.
  destruct (get_operation db d b role) as [[i r]|].
  - destruct (end_time r) eqn:E.
    + split; [intros [[_ [=]] _]|]. intros (_ & _ & H).
      specialize (H i r eq_refl). congruence.
    + split; [intros [[? _] ?]|intros (? & ? & _)]; repeat split; try done.
      intros ? ? [= <- <-]. done.
  - split; [intros [[? _] ?]|intros (? & ? & _)]; repeat split; done.
Qed.

(** X10. The Driver can be completed whatever the other roles have
    done, and the warning tells whether the batch is finished: on a
    table the application can produce, a successful Driver completion
    carries no warning exactly when each of the ten other roles has a
    completed record, and exactly then the batch is GREEN afterwards;
    with a warning the batch is YELLOW afterwards.  The roles named in
    the warning are, in the order of the sequence, the roles other than
    the Driver without a completed record. *)
Theorem driver_completion_and_batch_colour users now db data user msg
        operation warning db' :
  reachable db ->
  OperationService.end_driver_operation users now db data user
  = ((true, msg, Some (OperationData operation warning)), db') ->
  let d := driver_operation_date data in
  let b := driver_batch data in
  (warning = None
   <-> forall role, role ∈ ROLE_ORDER -> role <> DRIVER_ROLE ->
         exists i r t,
           get_operation db d b role = Some (i, r) /\ end_time r = Some t)
  /\ (warning = None
      <-> bs_status (_calculate_batch_status db' d b) = BatchStatus.GREEN)
  /\ (warning <> None
      <-> bs_status (_calculate_batch_status db' d b) = BatchStatus.YELLOW)
  /\ (forall w, warning = Some w ->
        w = String.append "Roles not completed: "
              (Py.join_comma (_get_incomplete_roles db d b DRIVER_ROLE)))
  /\ (forall role,
        role ∈ _get_incomplete_roles db d b DRIVER_ROLE
        <-> role ∈ ROLE_ORDER /\ role <> DRIVER_ROLE
            /\ forall i r, get_operation db d b role = Some (i, r) ->
                           end_time r = None)
  /\ _get_incomplete_roles db d b DRIVER_ROLE `sublist_of` ROLE_ORDER.
Proof.
  intros Hr Heq d b.
  pose proof (end_driver_operation_warning _ _ _ _ _ _ _ _ _ Heq) as Hw.
  fold d b in Hw.
  assert (warning = None <-> _get_incomplete_roles db d b DRIVER_ROLE = [])
    as Hnil.
  { rewrite Hw. by destruct (_get_incomplete_roles db d b DRIVER_ROLE). }
  assert (_get_incomplete_roles db d b DRIVER_ROLE = []
          <-> forall role, role ∈ ROLE_ORDER -> role <> DRIVER_ROLE ->
                exists i r t,
                  get_operation db d b role = Some (i, r)
                  /\ end_time r = Some t) as Hall.
  { split.
    - intros Hn role Hin Hne.
      destruct (get_operation db d b role) as [[i r]|] eqn:E.
      + destruct (end_time r) as [t|] eqn:Et; [by exists i, r, t|].
        exfalso. apply (elem_of_nil role). rewrite <- Hn.
        apply incomplete_roles_elem. rewrite E.
        repeat split; try done. by intros ? ? [= <- <-].
      + exfalso. apply (elem_of_nil role). rewrite <- Hn.
        apply incomplete_roles_elem. rewrite E. repeat split; done.
    - intros H.
      destruct (_get_incomplete_roles db d b DRIVER_ROLE) as [|role l] eqn:E;
        [done|].
      assert (role ∈ _get_incomplete_roles db d b DRIVER_ROLE) as Hin
        by (rewrite E; apply elem_of_cons; by left).
      apply incomplete_roles_elem in Hin as (Hin & Hne & Hno).
      destruct (H role Hin Hne) as (i & r & t & Hg & Ht).
      specialize (Hno i r Hg). congruence. }
  apply reachable_inv in Hr as Hinv. destruct Hinv as [Hnd Hok].
  assert (table_inv db') as Hinv'.
  { pose proof (end_driver_operation_inv users now db data user
                  (conj Hnd Hok)) as H.
    by rewrite Heq in H. }
  apply end_driver_operation_success in Heq as (i & op & Hg & Hc & -> & ->).
  fold d b in Hg. apply get_operation_Some in Hg as [Hi Hk].
  set (w := driver_written now op data user) in *.
  assert (key w = key op) as Hkw by reflexivity.
  assert (end_time w = Some now) as Hwe by reflexivity.
  set (db' := <[i := w]> db) in *.
  (* the stamps of the roles after the write *)
  assert (forall role, role ∈ ROLE_ORDER ->
            (match get_operation db' d b role with
             | Some (_, r) =>
                 match end_time r with Some _ => true | None => false end
             | None => false
             end = true)
            <-> (role <> DRIVER_ROLE ->
                 exists j r t,
                   get_operation db d b role = Some (j, r)
                   /\ end_time r = Some t)) as Hafter.
  { intros role Hin. destruct (String.eqb_spec role DRIVER_ROLE) as [-> | Hne].
    - subst db'.
      rewrite (get_operation_update_same db i op w d b DRIVER_ROLE)
        by done.
      rewrite Hwe. split; [done | reflexivity].
    - subst db'.
      rewrite (get_operation_update_other db i op w d b role); try done.
      + destruct (get_operation db d b role) as [[j r]|].
        * destruct (end_time r) as [t|] eqn:Et.
          -- split; [by exists j, r, t | reflexivity].
          -- split; [discriminate|]. intros H.
             destruct (H Hne) as (? & ? & ? & [= <- <-] & ?). congruence.
        * split; [discriminate|]. intros H.
          by destruct (H Hne) as (? & ? & ? & [=] & ?).
      + rewrite Hk. congruence. }
  pose proof (counts_bounds db' d b Hinv') as (Hb1 & Hb2).
  assert (count_completed db' d b = 11
          <-> _get_incomplete_roles db d b DRIVER_ROLE = []) as Hgreen.
  { unfold count_completed.
    rewrite (count_by_role db' d b
               (fun r => match end_time r with
                         | Some _ => true | None => false end) Hinv').
    change 11 with (Z.of_nat (length ROLE_ORDER)).
    rewrite Nat2Z.inj_iff.
    pose proof (filter_length_all
                  (fun role =>
                     match get_operation db' d b role with
                     | Some (_, r) =>
                         match end_time r with
                         | Some _ => true | None => false end
                     | None => false
                     end = true) ROLE_ORDER) as Hfl.
    rewrite Hfl, Hall, Forall_forall. split.
    - intros H role Hin Hne.
      exact (proj1 (Hafter role Hin) (H role Hin) Hne).
    - intros H role Hin. apply (proj2 (Hafter role Hin)).
      intros Hne. by apply H. }
  assert (count_completed db' d b <> 0) as Hpos.
  { unfold count_completed.
    rewrite (count_by_role db' d b
               (fun r => match end_time r with
                         | Some _ => true | None => false end) Hinv').
    intros H0. apply (f_equal Z.to_nat) in H0. rewrite Nat2Z.id in H0.
    simpl in H0. apply length_zero_iff_nil in H0.
    apply (elem_of_nil DRIVER_ROLE). rewrite <- H0.
    apply list_elem_of_filter. split.
    - apply (proj2 (Hafter DRIVER_ROLE ltac:(by apply str_in_elem_of))).
      done.
    - by apply str_in_elem_of. }
  assert (bs_status (_calculate_batch_status db' d b)
          = if count_started db' d b =? 0 then BatchStatus.RED
            else if TOTAL_ROLES <=? count_completed db' d b
                 then BatchStatus.GREEN else BatchStatus.YELLOW) as Hbs
    by reflexivity.
  unfold TOTAL_ROLES in *.
  change (Z.of_nat (length ROLE_ORDER)) with 11 in *.
  split; [by rewrite Hnil, Hall|].
  split; [|split; [|split; [|split]]].
  - rewrite Hnil, <- Hgreen, Hbs.
    destruct (Z.eqb_spec (count_started db' d b) 0),
      (Z.leb_spec 11 (count_completed db' d b)); split; try done; lia.
  - assert (warning <> None
            <-> _get_incomplete_roles db d b DRIVER_ROLE <> []) as ->
        by (by rewrite Hnil).
    rewrite <- Hgreen, Hbs.
    destruct (Z.eqb_spec (count_started db' d b) 0),
      (Z.leb_spec 11 (count_completed db' d b)); split; try done; lia.
  - intros w0 Hw0. rewrite Hw in Hw0.
    destruct (_get_incomplete_roles db d b DRIVER_ROLE); [discriminate|].
    by injection Hw0 as <-.
  - intros role. apply incomplete_roles_elem.
  - unfold _get_incomplete_roles. apply sublist_filter.
Qed.

Lemma driver_completion_and_batch_colour_witness :
  bs_status
    (_calculate_batch_status
       (OperationService.end_driver_operation Examples.users Examples.at_10
          Examples.driver_started (mkDriverEnd Examples.tuesday "A" 150 142)
          Examples.ada).2
       Examples.tuesday "A")
  = BatchStatus.YELLOW.
Proof.
  refine (proj1 (proj1 (proj2 (proj2
            (driver_completion_and_batch_colour Examples.users
               Examples.at_10 Examples.driver_started
               (mkDriverEnd Examples.tuesday "A" 150 142) Examples.ada
               _ _ _ _ _ _)))) _).
  - unfold Examples.driver_started. apply reach_start, reach_empty.
  - vm_compute. reflexivity.
  - discriminate.
Defined.

(* ===================================================================== *)
(** ** The views of a day: batch list, batch detail, batch with roles *)
(* ===================================================================== *)

Lemma available_batches_cases d :
  (existsb (Z.eqb (isoweekday d)) RESTRICTED_DAYS = true
   /\ get_available_batches_for_date d = ["A"; "B"; "C"])
  \/ (existsb (Z.eqb (isoweekday d)) RESTRICTED_DAYS = false
      /\ get_available_batches_for_date d = ["A"; "B"; "C"; "D"]).
Proof.
  unfold get_available_batches_for_date.
  destruct (existsb _ _); [left | right]; by split.
Qed.

(** X11. The three views of a day agree.  The batch list has one entry
    per batch offered on the date, in order: three entries, without D,
    exactly when the list is marked as a restricted day, else four.  A
    batch has a detail, and a detail with roles, exactly when it is in
    the list; both then show the status, the counters and the progress
    of the list entry, both are marked read-only exactly for a past
    date, both count eleven roles in all, and the roles are those of
    [get_all_roles_status]. *)
Theorem day_views_agree users now db d :
  let listing := get_batches_for_date db d in
  bs_batch <$> batches listing = get_available_batches_for_date d
  /\ (is_restricted_day listing = true
      <-> bs_batch <$> batches listing = ["A"; "B"; "C"])
  /\ (is_restricted_day listing = false
      <-> bs_batch <$> batches listing = ["A"; "B"; "C"; "D"])
  /\ (forall b,
        get_batch_detail now db d b = None
        <-> b ∉ bs_batch <$> batches listing)
  /\ (forall b,
        get_batch_with_roles users now db d b = None
        <-> get_batch_detail now db d b = None)
  /\ (forall b detail,
        get_batch_detail now db d b = Some detail ->
        exists entry,
          entry ∈ batches listing
          /\ bs_batch entry = b /\ bd_batch detail = b
          /\ bd_status detail = bs_status entry
          /\ bd_started_count detail = started_count entry
          /\ bd_completed_count detail = completed_count entry
          /\ bd_total_roles detail = 11
          /\ bd_progress_percentage detail = progress_percentage entry
          /\ bd_is_readonly detail = is_past_date now d)
  /\ (forall b detail view,
        get_batch_detail now db d b = Some detail ->
        get_batch_with_roles users now db d b = Some view ->
        br_status view = bd_status detail
        /\ br_started_count view = bd_started_count detail
        /\ br_completed_count view = bd_completed_count detail
        /\ br_progress_percentage view = bd_progress_percentage detail
        /\ br_is_readonly view = bd_is_readonly detail
        /\ br_roles view = get_all_roles_status users db d b
        /\ br_total_roles view = 11).
Proof.
  intros listing.
  assert (bs_batch <$> batches listing = get_available_batches_for_date d)
    as Hl.
  { subst listing. unfold get_batches_for_date. cbn [batches].
    induction (get_available_batches_for_date d) as [|b l IH]; [done|].
    simpl. by f_equal. }
  split; [exact Hl|]. rewrite Hl.
  assert (is_restricted_day listing
          = existsb (Z.eqb (isoweekday d)) RESTRICTED_DAYS) as ->
    by reflexivity.
  split; [|split; [|split; [|split; [|split]]]].
  - destruct (available_batches_cases d) as [[-> ->] | [-> ->]];
      split; done.
  - destruct (available_batches_cases d) as [[-> ->] | [-> ->]];
      split; done.
  - intros b. unfold get_batch_detail.
    rewrite <- str_in_elem_of.
    destruct (Py.str_in b (get_available_batches_for_date d)); simpl;
      split; done.
  - intros b. unfold get_batch_with_roles, get_batch_detail.
    by destruct (Py.str_in b (get_available_batches_for_date d)).
  - intros b detail. unfold get_batch_detail.
    destruct (Py.str_in b (get_available_batches_for_date d)) eqn:E;
      [|discriminate].
    simpl. intros [= <-]. exists (_calculate_batch_status db d b).
    split; [|by repeat split].
    subst listing. unfold get_batches_for_date. cbn [batches].
    apply list_elem_of_fmap. exists b. split; [done|].
    by apply str_in_elem_of.
  - intros b detail view. unfold get_batch_detail, get_batch_with_roles.
    destruct (Py.str_in b (get_available_batches_for_date d));
      [|discriminate].
    simpl. intros [= <-] [= <-]. by repeat split.
Qed.

(* ===================================================================== *)
(** ** The counters of the daily summary *)
(* ===================================================================== *)

Lemma fold_summary_counts db d batches acc :
  let res := fold_left (summary_step db d) batches acc in
  let entries := _calculate_batch_status db d <$> batches in
  acc_total_completed_roles res
  = acc_total_completed_roles acc
    + fold_right Z.add 0 (completed_count <$> entries)
  /\ acc_completed_batches res
     = acc_completed_batches acc
       + Z.of_nat
           (length
              (filter
                 (fun st => String.eqb (bs_status st) BatchStatus.GREEN = true)
                 entries)).
Proof.
  revert acc. induction batches as [|b batches IH]; intros acc.
  - simpl. lia.
  - cbn [fold_left]. cbn zeta in IH |- *.
    destruct (IH (summary_step db d acc b)) as [-> ->].
    rewrite !fmap_cons, filter_cons. cbn [fold_right].
    assert (acc_total_completed_roles (summary_step db d acc b)
            = acc_total_completed_roles acc
              + completed_count (_calculate_batch_status db d b)) as ->.
    { unfold summary_step.
      destruct (get_operation db d b "Driver") as [[i r]|]; [|done].
      by destruct (Py.truthy_int (total_orders r)). }
    assert (acc_completed_batches (summary_step db d acc b)
            = if String.eqb (bs_status (_calculate_batch_status db d b))
                   BatchStatus.GREEN
              then acc_completed_batches acc + 1
              else acc_completed_batches acc) as ->.
    { unfold summary_step.
      destruct (get_operation db d b "Driver") as [[i r]|]; [|done].
      by destruct (Py.truthy_int (total_orders r)). }
    destruct (decide _) as [-> | Hne];
      [|apply not_true_is_false in Hne; rewrite Hne]; simpl length; lia.
Qed.

(** Each entry counts at most eleven completed roles, and is GREEN
    exactly at eleven. *)
Lemma entry_green db d b :
  table_inv db ->
  let st := _calculate_batch_status db d b in
  0 <= completed_count st <= 11
  /\ (String.eqb (bs_status st) BatchStatus.GREEN = true
      <-> completed_count st = 11).
Proof.
  intros Hinv st. pose proof (counts_bounds db d b Hinv) as (Hb1 & Hb2).
  unfold TOTAL_ROLES in Hb2.
  change (Z.of_nat (length ROLE_ORDER)) with 11 in Hb2.
  subst st. unfold _calculate_batch_status, TOTAL_ROLES.
  cbn [completed_count bs_status].
  change (Z.of_nat (length ROLE_ORDER)) with 11.
  split; [lia|].
  destruct (Z.eqb_spec (count_started db d b) 0),
    (Z.leb_spec 11 (count_completed db d b)); split; try done; lia.
Qed.

Lemma entries_totals (entries : list BatchStatusResponse) :
  Forall (fun st =>
            0 <= completed_count st <= 11
            /\ (String.eqb (bs_status st) BatchStatus.GREEN = true
                <-> completed_count st = 11)) entries ->
  let green :=
    Z.of_nat
      (length
         (filter (fun st => String.eqb (bs_status st) BatchStatus.GREEN = true)
            entries)) in
  let done_roles := fold_right Z.add 0 (completed_count <$> entries) in
  0 <= green <= Z.of_nat (length entries)
  /\ 0 <= done_roles <= 11 * Z.of_nat (length entries)
  /\ 11 * green <= done_roles
  /\ (green = Z.of_nat (length entries)
      <-> done_roles = 11 * Z.of_nat (length entries)).
Proof.
  induction 1 as [|st entries [Hb Hg] Hall IH]; [simpl; lia|].
  cbn zeta in IH |- *. rewrite fmap_cons, filter_cons. cbn [fold_right].
  simpl length.
  destruct (decide _) as [Hgreen | Hne]; simpl length.
  - apply Hg in Hgreen. lia.
  - assert (completed_count st <> 11) by (intros H11; by apply Hne, Hg).
    lia.
Qed.

Lemma progress_by_enumeration (n : nat) (c : Z) :
  (forall k : nat,
      (k <= n)%nat ->
      Py.round2
        (PrimFloat.mul (Py.int_truediv (Z.of_nat k) (Z.of_nat n))
           (Py.float_of_int 100))
      = round_percentage_exact (Z.of_nat k) (Z.of_nat n)) ->
  0 <= c <= Z.of_nat n ->
  Py.round2
    (PrimFloat.mul (Py.int_truediv c (Z.of_nat n)) (Py.float_of_int 100))
  = round_percentage_exact c (Z.of_nat n).
Proof.
  intros H Hc. rewrite <- (Z2Nat.id c) by lia. apply H. lia.
Qed.

(** The overall progress over 33 and over 44 role slots is the exactly
    rounded percentage. *)
Lemma overall_progress_values (n c : Z) :
  n = 33 \/ n = 44 -> 0 <= c <= n ->
  Py.round2 (PrimFloat.mul (Py.int_truediv c n) (Py.float_of_int 100))
  = round_percentage_exact c n.
Proof.
  intros [-> | ->] Hc.
  - apply (progress_by_enumeration 33 c); [|exact Hc].
    intros k Hk.
    do 34 (destruct k as [|k]; [vm_compute; reflexivity|]). lia.
  - apply (progress_by_enumeration 44 c); [|exact Hc].
    intros k Hk.
    do 45 (destruct k as [|k]; [vm_compute; reflexivity|]). lia.
Qed.

(** X12. The counters of the daily summary, on a table the application
    can produce: the summary covers the batches of the batch list, 3 or
    4 of them, with eleven role slots each; its completed roles are the
    sum of the completed counts of the list entries and its completed
    batches are the GREEN entries; neither exceeds its total; every
    batch is completed exactly when every role slot is; and the overall
    progress is the exactly rounded percentage of completed role
    slots. *)
Theorem daily_summary_counters db d :
  reachable db ->
  let summary := get_daily_summary db d in
  let entries := batches (get_batches_for_date db d) in
  sum_total_batches summary = Z.of_nat (length entries)
  /\ (sum_total_batches summary = 3 \/ sum_total_batches summary = 4)
  /\ sum_total_roles summary = 11 * sum_total_batches summary
  /\ sum_completed_roles summary
     = fold_right Z.add 0 (completed_count <$> entries)
  /\ sum_completed_batches summary
     = Z.of_nat
         (length
            (filter
               (fun st => String.eqb (bs_status st) BatchStatus.GREEN = true)
               entries))
  /\ 0 <= sum_completed_batches summary <= sum_total_batches summary
  /\ 0 <= sum_completed_roles summary <= sum_total_roles summary
  /\ 11 * sum_completed_batches summary <= sum_completed_roles summary
  /\ (sum_completed_batches summary = sum_total_batches summary
      <-> sum_completed_roles summary = sum_total_roles summary)
  /\ overall_progress summary
     = round_percentage_exact (sum_completed_roles summary)
         (sum_total_roles summary).
Proof.
  intros Hr summary entries. apply reachable_inv in Hr as Hinv.
  assert (entries
          = _calculate_batch_status db d <$> get_available_batches_for_date d)
    as He by reflexivity.
  pose proof (fold_summary_counts db d (get_available_batches_for_date d)
                (mkSummaryAcc 0 0 0 0)) as [Hroles Hgreen].
  cbn [acc_total_completed_roles acc_completed_batches] in Hroles, Hgreen.
  rewrite <- He, Z.add_0_l in Hroles, Hgreen.
  assert (sum_completed_roles summary
          = fold_right Z.add 0 (completed_count <$> entries)) as Hcr
    by exact Hroles.
  assert (sum_completed_batches summary
          = Z.of_nat
              (length
                 (filter
                    (fun st =>
                       String.eqb (bs_status st) BatchStatus.GREEN = true)
                    entries))) as Hcb
    by exact Hgreen.
  assert (sum_total_batches summary = Z.of_nat (length entries)) as Htb.
  { rewrite He, length_fmap. reflexivity. }
  assert (sum_total_roles summary = 11 * sum_total_batches summary) as Htr.
  { unfold summary, get_daily_summary, TOTAL_ROLES.
    cbn [sum_total_roles sum_total_batches].
    change (Z.of_nat (length ROLE_ORDER)) with 11. lia. }
  assert (sum_total_batches summary = 3 \/ sum_total_batches summary = 4)
    as Hn.
  { unfold summary, get_daily_summary. cbn [sum_total_batches].
    destruct (available_batches_cases d) as [[_ ->] | [_ ->]];
      [by left | by right]. }
  assert (Forall (fun st =>
            0 <= completed_count st <= 11
            /\ (String.eqb (bs_status st) BatchStatus.GREEN = true
                <-> completed_count st = 11)) entries) as Hall.
  { rewrite He. apply Forall_fmap, Forall_forall. intros b _.
    apply (entry_green db d b Hinv). }
  pose proof (entries_totals entries Hall) as (H1 & H2 & H3 & H4).
  cbn zeta in H1, H2, H3, H4.
  rewrite <- Hcb, <- Htb in H1. rewrite <- Hcr, <- Htb in H2.
  rewrite <- Hcb, <- Hcr in H3. rewrite <- Hcb, <- Hcr, <- Htb in H4.
  split; [exact Htb|]. split; [exact Hn|]. split; [exact Htr|].
  split; [exact Hcr|]. split; [exact Hcb|]. split; [exact H1|].
  split; [lia|]. split; [exact H3|].
  split; [rewrite Htr; exact H4|].
  assert (overall_progress summary
          = if 0 <? sum_total_roles summary then
              Py.round2
                (PrimFloat.mul
                   (Py.int_truediv (sum_completed_roles summary)
                      (sum_total_roles summary))
                   (Py.float_of_int 100))
            else Py.float_of_int 0) as -> by reflexivity.
  assert ((0 <? sum_total_roles summary) = true) as ->
      by (apply Z.ltb_lt; lia).
  apply overall_progress_values; lia.
Qed.

Lemma daily_summary_counters_witness :
  sum_total_batches
    (get_daily_summary Examples.two_started Examples.tuesday)
  = Z.of_nat
      (length (batches (get_batches_for_date Examples.two_started
                          Examples.tuesday))).
Proof.
  refine (proj1 (daily_summary_counters Examples.two_started
                   Examples.tuesday _)).
  unfold Examples.two_started, Examples.procurement_started.
  apply reach_start, reach_start, reach_empty.
Defined.

(* ===================================================================== *)
(** ** The delivery totals of the daily summary, summed *)
(* ===================================================================== *)

Lemma summary_step_orders db d acc b :
  acc_total_orders (summary_step db d acc b)
  = acc_total_orders acc
    + match get_operation db d b DRIVER_ROLE with
      | Some (_, r) => default 0 (total_orders r)
      | None => 0
      end.
Proof.
  unfold summary_step, DRIVER_ROLE.
  destruct (get_operation db d b "Driver") as [[i r]|]; [|simpl; lia].
  destruct (total_orders r) as [t|]; simpl; [|lia].
  destruct (Z.eqb_spec t 0); simpl; lia.
Qed.

Lemma summary_step_on_time db d acc b :
  reachable db ->
  acc_total_on_time acc <= acc_total_orders acc ->
  acc_total_on_time (summary_step db d acc b)
  <= acc_total_orders (summary_step db d acc b).
Proof.
  intros Hr Hle. unfold summary_step.
  destruct (get_operation db d b "Driver") as [[i r]|] eqn:Hg; [|done].
  apply get_operation_Some in Hg as [Hi Hk].
  assert (r ∈ db) as Hin by (by eapply list_elem_of_lookup_2).
  unfold key in Hk. injection Hk as _ _ Hrole.
  destruct (total_orders r) as [t|] eqn:Ht; simpl; [|done].
  pose proof (driver_total_orders_nonneg db r t Hr Hin Hrole Ht) as Hpos.
  destruct (Z.eqb_spec t 0); simpl; [done|].
  pose proof (reachable_row_ok db r Hr Hin) as Hok.
  destruct (check_row_None r (row_checked r Hok))
    as (_ & _ & _ & _ & _ & _ & Hc).
  unfold on_time_not_exceed_total in Hc. rewrite Ht in Hc.
  destruct (on_time_deliveries r) as [o|]; simpl; [|lia].
  apply Z.leb_le in Hc. destruct (Z.eqb_spec o 0); simpl; lia.
Qed.

(** X13. The delivery totals of the daily summary: the total of orders
    is the sum, over the batches offered on the date, of the
    total_orders of the batch's Driver record, reported when positive;
    the overall on-time percentage is present exactly when the total of
    orders is; and on a table the application can produce the summary
    never reports more on-time deliveries than orders: an on-time total
    is reported only beside a total of orders at least as large. *)
Theorem daily_summary_delivery_sums db d :
  reachable db ->
  let summary := get_daily_summary db d in
  let delivered :=
    fold_right Z.add 0
      (map (fun b =>
              match get_operation db d b DRIVER_ROLE with
              | Some (_, r) => default 0 (total_orders r)
              | None => 0
              end) (get_available_batches_for_date d)) in
  total_orders_delivered summary
  = (if 0 <? delivered then Some delivered else None)
  /\ (is_Some (overall_on_time_percentage summary)
      <-> is_Some (total_orders_delivered summary))
  /\ (forall on_time,
        total_on_time_deliveries summary = Some on_time ->
        exists total,
          total_orders_delivered summary = Some total
          /\ 0 < on_time <= total).
Proof.
  intros Hr summary delivered.
  set (acc := fold_left (summary_step db d)
                (get_available_batches_for_date d) (mkSummaryAcc 0 0 0 0)).
  assert (forall batches acc0,
            acc_total_orders (fold_left (summary_step db d) batches acc0)
            = acc_total_orders acc0
              + fold_right Z.add 0
                  (map (fun b =>
                          match get_operation db d b DRIVER_ROLE with
                          | Some (_, r) => default 0 (total_orders r)
                          | None => 0
                          end) batches)) as Hsum.
  { intros batches. induction batches as [|b batches IH]; intros acc0;
      [simpl; lia|].
    cbn [fold_left map fold_right].
    rewrite IH, summary_step_orders. lia. }
  assert (forall batches acc0,
            acc_total_on_time acc0 <= acc_total_orders acc0 ->
            acc_total_on_time (fold_left (summary_step db d) batches acc0)
            <= acc_total_orders (fold_left (summary_step db d) batches acc0))
    as Hle.
  { intros batches. induction batches as [|b batches IH]; intros acc0 H0;
      [done|].
    cbn [fold_left]. apply IH. by apply summary_step_on_time. }
  assert (acc_total_orders acc = delivered) as Ht.
  { subst acc. rewrite Hsum. simpl. reflexivity. }
  assert (acc_total_on_time acc <= acc_total_orders acc) as Ho.
  { apply Hle. simpl. lia. }
  assert (total_orders_delivered summary
          = if 0 <? acc_total_orders acc then Some (acc_total_orders acc)
            else None) as Hd by reflexivity.
  assert (total_on_time_deliveries summary
          = if 0 <? acc_total_on_time acc then Some (acc_total_on_time acc)
            else None) as Hot by reflexivity.
  assert (is_Some (overall_on_time_percentage summary)
          <-> (0 <? acc_total_orders acc) = true) as Hp.
  { unfold summary, get_daily_summary. cbn [overall_on_time_percentage].
    fold acc.
    destruct (0 <? acc_total_orders acc); split;
      first [done | by eexists | by intros [? [=]]]. }
  split; [by rewrite Hd, Ht|]. split.
  - rewrite Hp, Hd.
    destruct (0 <? acc_total_orders acc); split;
      first [done | by eexists | by intros [? [=]]].
  - intros on_time. rewrite Hot, Hd.
    destruct (Z.ltb_spec 0 (acc_total_on_time acc)); [|discriminate].
    intros [= <-]. exists (acc_total_orders acc).
    destruct (Z.ltb_spec 0 (acc_total_orders acc)); [|lia].
    split; [done | lia].
Qed.

Lemma daily_summary_delivery_sums_witness :
  is_Some (overall_on_time_percentage
             (get_daily_summary Examples.driver_started Examples.tuesday))
  <-> is_Some (total_orders_delivered
                 (get_daily_summary Examples.driver_started
                    Examples.tuesday)).
Proof.
  refine (proj1 (proj2 (daily_summary_delivery_sums Examples.driver_started
                          Examples.tuesday _))).
  unfold Examples.driver_started. apply reach_start, reach_empty.
Defined.

(* ===================================================================== *)
(** ** The request models *)
(* ===================================================================== *)

(** The characters of a string put together are the string. *)
Lemma chars_concat s : String.concat "" (Py.chars s) = s.
Proof.
  induction s as [|c s IH]; [reflexivity|].
  cbn [Py.chars].
  destruct (Py.chars s) as [|[|c' g] gs] eqn:E.
  - simpl in IH. by subst.
  - simpl in *. destruct gs; simpl in *; by subst.
  - destruct (Py.is_continuation c').
    + destruct gs; simpl in *; by subst.
    + simpl in *. destruct gs; simpl in *; by subst.
Qed.

Lemma chars_single s : Py.len s = 1%nat -> Py.chars s = [s].
Proof.
  unfold Py.len. intros H. pose proof (chars_concat s) as Hc.
  destruct (Py.chars s) as [|g [|g' gs]]; try discriminate.
  simpl in Hc. by subst.
Qed.

Lemma is_continuation_upper c :
  Py.is_continuation (upper_ascii c) = Py.is_continuation c.
Proof. destruct c as [[] [] [] [] [] [] [] []]; reflexivity. Qed.

(** Upper-casing keeps the characters apart. *)
Lemma chars_upper s : Py.chars (upper s) = map upper (Py.chars s).
Proof.
  induction s as [|c s IH]; [reflexivity|].
  cbn [upper Py.chars]. rewrite IH.
  destruct (Py.chars s) as [|[|c' g] gs]; [reflexivity..|].
  cbn [map upper]. rewrite is_continuation_upper.
  by destruct (Py.is_continuation c').
Qed.

(** A string of one character is stripped to itself or to nothing. *)
Lemma strip_single s :
  Py.len s = 1%nat ->
  strip (upper s) = if Py.isspace (upper s) then "" else upper s.
Proof.
  intros H. unfold strip. rewrite chars_upper, (chars_single s H).
  cbn [map lstrip_chars].
  destruct (Py.isspace (upper s)) eqn:E; cbn [rev app lstrip_chars];
    rewrite ?E; reflexivity.
Qed.

Lemma upper_letter v l :
  l ∈ ["A"; "B"; "C"; "D"] -> upper v = l ->
  v ∈ ["A"; "B"; "C"; "D"; "a"; "b"; "c"; "d"].
Proof.
  intros Hl Hv. destruct v as [|c [|c' v]].
  - subst l. repeat (apply elem_of_cons in Hl as [Hl | Hl]; [discriminate|]).
    by apply elem_of_nil in Hl.
  - apply str_in_elem_of.
    repeat (apply elem_of_cons in Hl as [-> | Hl];
            [destruct c as [[] [] [] [] [] [] [] []]; vm_compute in Hv;
             first [discriminate | reflexivity]|]).
    by apply elem_of_nil in Hl.
  - subst l. repeat (apply elem_of_cons in Hl as [Hl | Hl]; [discriminate|]).
    by apply elem_of_nil in Hl.
Qed.

(** The batch field accepts the four letters in either case, and nothing
    else. *)
Lemma validate_batch_spec v b' :
  validate_batch v = Some b'
  <-> v ∈ ["A"; "B"; "C"; "D"; "a"; "b"; "c"; "d"] /\ b' = upper v.
Proof.
  split.
  - intros H. unfold validate_batch in H.
    destruct (Nat.eqb (Py.len v) 1) eqn:El; [|discriminate].
    apply Nat.eqb_eq in El. cbn [negb] in H.
    rewrite (strip_single v El) in H.
    destruct (Py.isspace (upper v)); [discriminate|].
    destruct (Py.str_in (upper v) VALID_BATCHES) eqn:Ev; [|discriminate].
    injection H as <-. split; [|reflexivity].
    apply str_in_elem_of in Ev. by apply (upper_letter v (upper v)).
  - intros [Hin ->].
    repeat (apply elem_of_cons in Hin as [-> | Hin]; [reflexivity|]).
    by apply elem_of_nil in Hin.
Qed.

Lemma validate_batch_valid v b' :
  validate_batch v = Some b' ->
  Py.str_in b' VALID_BATCHES = true /\ validate_batch b' = Some b'.
Proof.
  intros H. apply validate_batch_spec in H as [Hin ->].
  repeat (apply elem_of_cons in Hin as [-> | Hin]; [by split|]).
  by apply elem_of_nil in Hin.
Qed.

(** The roles of the sequence carry no whitespace at either end. *)
Lemma strip_role role : Py.str_in role ROLE_ORDER = true -> strip role = role.
Proof.
  intros H. apply str_in_elem_of in H. unfold ROLE_ORDER in H.
  repeat (apply elem_of_cons in H as [-> | H]; [reflexivity|]).
  by apply elem_of_nil in H.
Qed.

Lemma validate_role_spec v r' :
  validate_role v = Some r'
  <-> r' = strip v /\ Py.str_in r' VALID_ROLES = true.
Proof.
  unfold validate_role. split.
  - destruct (Py.str_in (strip v) VALID_ROLES) eqn:E; [|discriminate].
    by intros [= <-].
  - intros [-> ->]. reflexivity.
Qed.

Lemma validate_role_end_spec v r' :
  validate_role_end v = Some r'
  <-> r' = strip v /\ Py.str_in r' VALID_ROLES = true /\ r' <> DRIVER_ROLE.
Proof.
  unfold validate_role_end. split.
  - destruct (Py.str_in (strip v) VALID_ROLES) eqn:E; [|discriminate].
    simpl. destruct (String.eqb_spec (strip v) DRIVER_ROLE); [discriminate|].
    by intros [= <-].
  - intros (-> & -> & Hne). simpl.
    by destruct (String.eqb_spec (strip v) DRIVER_ROLE).
Qed.

Lemma request_driver d b total on_time data :
  DriverEnd_validate d b total on_time = Some data
  <-> b ∈ ["A"; "B"; "C"; "D"; "a"; "b"; "c"; "d"]
      /\ 0 <= on_time <= total
      /\ data = mkDriverEnd d (upper b) total on_time.
Proof.
  unfold DriverEnd_validate, validate_ge0, validate_order_counts. split.
  - destruct (validate_batch b) as [b'|] eqn:Eb; [|discriminate].
    apply validate_batch_spec in Eb as [Hb ->].
    destruct (Z.leb_spec 0 total); [|discriminate].
    destruct (Z.leb_spec 0 on_time); [|discriminate].
    cbn [driver_total_orders driver_on_time_deliveries].
    destruct (Z.ltb_spec total on_time); [discriminate|].
    intros [= <-]. split; [done|]. split; [lia | done].
  - intros (Hb & Ho & ->).
    rewrite (proj2 (validate_batch_spec b (upper b)) (conj Hb eq_refl)).
    destruct (Z.leb_spec 0 total); [|lia].
    destruct (Z.leb_spec 0 on_time); [|lia].
    cbn [driver_total_orders driver_on_time_deliveries].
    destruct (Z.ltb_spec total on_time); [lia | done].
Qed.

(** X14. What the request models let through.  A start request is
    accepted exactly when its batch is one of the letters A to D in
    either case and its role, once stripped of the whitespace
    [str.strip()] removes at either end (that of Unicode, not of ASCII
    only), is a role of the sequence; the model then holds the
    upper-case batch and the stripped role.  An end request is accepted
    under the same conditions unless the stripped role is the Driver.  A
    Driver completion is accepted exactly when the batch is accepted and
    0 <= on_time_deliveries <= total_orders.  An accepted model passes
    validation again unchanged.  So the role Procurement between an
    ideographic space (U+3000) and a no-break space (U+00A0) is
    accepted as Procurement, and a batch that is a no-break space is
    refused. *)
Theorem request_models_accept :
  (forall d b r data,
      OperationStart_validate d b r = Some data
      <-> b ∈ ["A"; "B"; "C"; "D"; "a"; "b"; "c"; "d"]
          /\ strip r ∈ ROLE_ORDER
          /\ data = mkOperationStart d (upper b) (strip r))
  /\ (forall d b r data,
         OperationEnd_validate d b r = Some data
         <-> b ∈ ["A"; "B"; "C"; "D"; "a"; "b"; "c"; "d"]
             /\ strip r ∈ ROLE_ORDER /\ strip r <> DRIVER_ROLE
             /\ data = mkOperationEnd d (upper b) (strip r))
  /\ (forall d b total on_time data,
         DriverEnd_validate d b total on_time = Some data
         <-> b ∈ ["A"; "B"; "C"; "D"; "a"; "b"; "c"; "d"]
             /\ 0 <= on_time <= total
             /\ data = mkDriverEnd d (upper b) total on_time)
  /\ (forall d b r data,
         OperationStart_validate d b r = Some data ->
         start_batch data ∈ VALID_BATCHES
         /\ OperationStart_validate (start_operation_date data)
              (start_batch data) (start_role data) = Some data)
  /\ (forall d b r data,
         OperationEnd_validate d b r = Some data ->
         end_batch data ∈ VALID_BATCHES
         /\ OperationEnd_validate (end_operation_date data)
              (end_batch data) (end_role data) = Some data)
  /\ (forall d b total on_time data,
         DriverEnd_validate d b total on_time = Some data ->
         driver_batch data ∈ VALID_BATCHES
         /\ DriverEnd_validate (driver_operation_date data)
              (driver_batch data) (driver_total_orders data)
              (driver_on_time_deliveries data) = Some data)
  /\ (forall d,
         OperationStart_validate d "a"
           (String.append (Py.utf8 0x3000)
              (String.append "Procurement" (Py.utf8 0xA0)))
         = Some (mkOperationStart d "A" "Procurement")
         /\ OperationStart_validate d (Py.utf8 0xA0) "Procurement" = None).
Proof.
  assert (forall d b r data,
      OperationStart_validate d b r = Some data
      <-> b ∈ ["A"; "B"; "C"; "D"; "a"; "b"; "c"; "d"]
          /\ strip r ∈ ROLE_ORDER
          /\ data = mkOperationStart d (upper b) (strip r)) as Hstart.
  { intros d b r data. unfold OperationStart_validate. split.
    - destruct (validate_batch b) as [b'|] eqn:Eb; [|discriminate].
      destruct (validate_role r) as [r'|] eqn:Er; [|discriminate].
      apply validate_batch_spec in Eb as [Hb ->].
      apply validate_role_spec in Er as [-> Hr].
      intros [= <-]. split; [done|]. split; [|done].
      by apply str_in_elem_of.
    - intros (Hb & Hr & ->).
      rewrite (proj2 (validate_batch_spec b (upper b)) (conj Hb eq_refl)).
      apply str_in_elem_of in Hr.
      by rewrite (proj2 (validate_role_spec r (strip r)) (conj eq_refl Hr)). }
  assert (forall d b r data,
         OperationEnd_validate d b r = Some data
         <-> b ∈ ["A"; "B"; "C"; "D"; "a"; "b"; "c"; "d"]
             /\ strip r ∈ ROLE_ORDER /\ strip r <> DRIVER_ROLE
             /\ data = mkOperationEnd d (upper b) (strip r)) as Hend.
  { intros d b r data. unfold OperationEnd_validate. split.
    - destruct (validate_batch b) as [b'|] eqn:Eb; [|discriminate].
      destruct (validate_role_end r) as [r'|] eqn:Er; [|discriminate].
      apply validate_batch_spec in Eb as [Hb ->].
      apply validate_role_end_spec in Er as (-> & Hr & Hne).
      intros [= <-]. split; [done|]. split; [|done].
      by apply str_in_elem_of.
    - intros (Hb & Hr & Hne & ->).
      rewrite (proj2 (validate_batch_spec b (upper b)) (conj Hb eq_refl)).
      apply str_in_elem_of in Hr.
      by rewrite (proj2 (validate_role_end_spec r (strip r))
                    (conj eq_refl (conj Hr Hne))). }
  pose proof request_driver as Hdriver.
  assert (forall b, b ∈ ["A"; "B"; "C"; "D"; "a"; "b"; "c"; "d"] ->
            upper b ∈ VALID_BATCHES
            /\ upper b ∈ ["A"; "B"; "C"; "D"; "a"; "b"; "c"; "d"]
            /\ upper (upper b) = upper b) as Hup.
  { intros b Hb.
    repeat (apply elem_of_cons in Hb as [-> | Hb];
            [split; [by apply str_in_elem_of|];
             split; [by apply str_in_elem_of | reflexivity]|]).
    by apply elem_of_nil in Hb. }
  split; [exact Hstart|]. split; [exact Hend|]. split; [exact Hdriver|].
  split; [|split; [|split; [|intros d; split; by vm_compute]]].
  - intros d b r data H. apply Hstart in H as (Hb & Hr & ->).
    destruct (Hup b Hb) as (H1 & H2 & H3). split; [exact H1|].
    apply Hstart. cbn [start_operation_date start_batch start_role].
    apply str_in_elem_of in Hr as Hr'.
    rewrite (strip_role _ Hr'), H3. done.
  - intros d b r data H. apply Hend in H as (Hb & Hr & Hne & ->).
    destruct (Hup b Hb) as (H1 & H2 & H3). split; [exact H1|].
    apply Hend. cbn [end_operation_date end_batch end_role].
    apply str_in_elem_of in Hr as Hr'.
    rewrite (strip_role _ Hr'), H3. done.
  - intros d b total on_time data H. apply Hdriver in H as (Hb & Ho & ->).
    destruct (Hup b Hb) as (H1 & H2 & H3). split; [exact H1|].
    apply Hdriver.
    cbn [driver_operation_date driver_batch driver_total_orders
         driver_on_time_deliveries].
    rewrite H3. done.
Qed.

(* ===================================================================== *)
(** ** The endpoints: answers and writes *)
(* ===================================================================== *)

(** A service call fails and leaves the table, or succeeds, writes one
    row and returns the response of that row. *)
Lemma start_operation_outcome users now db data user :
  let res := OperationService.start_operation users now db data user in
  (res.1.1.1 = false /\ res.2 = db)
  \/ exists i w warning,
      res.1 = (true, Messages.OPERATION_STARTED,
               Some (OperationData (_to_response users i w) warning))
      /\ res.2 !! i = Some w
      /\ key w = (start_operation_date data, start_batch data,
                  start_role data).
Proof.
  unfold OperationService.start_operation.
  destruct (negb _); [by left|].
  destruct (is_past_date _ _); [by left|].
  destruct (_get_or_create_operation _ _ _ _ _) as [e|[[db1 i] op]] eqn:Hg;
    [by left; destruct e|].
  destruct (start_time op) eqn:Hs; [by left|].
  destruct (Db.update _ _ _ _) as [e|db2] eqn:Hu; [by left; destruct e|].
  apply update_inr in Hu as [-> Hc].
  apply get_or_create_lookup in Hg as [Hi Hk].
  assert (i < length db1)%nat as Hlt by (by eapply lookup_lt_Some).
  right. eexists i, _, _. cbn [fst snd].
  rewrite refresh_insert by done.
  split; [reflexivity|]. split; [by apply list_lookup_insert_eq | done].
Qed.

Lemma end_operation_outcome users now db data user :
  let res := OperationService.end_operation users now db data user in
  (res.1.1.1 = false /\ res.2 = db)
  \/ exists i w warning,
      res.1 = (true, Messages.OPERATION_COMPLETED,
               Some (OperationData (_to_response users i w) warning))
      /\ res.2 !! i = Some w
      /\ key w = (end_operation_date data, end_batch data, end_role data).
Proof.
  unfold OperationService.end_operation.
  destruct (is_past_date _ _); [by left|].
  destruct (get_operation _ _ _ _) as [[i op]|] eqn:Hg; [|by left].
  destruct (end_time op) eqn:He; [by left|].
  destruct (start_time op) as [t|] eqn:Hs; [|by left].
  destruct (Db.update _ _ _ _) as [e|db2] eqn:Hu; [by left|].
  apply update_inr in Hu as [-> Hc].
  apply get_operation_Some in Hg as [Hi Hk].
  assert (i < length db)%nat as Hlt by (by eapply lookup_lt_Some).
  right. eexists i, _, _. cbn [fst snd].
  rewrite refresh_insert by done.
  split; [reflexivity|]. split; [by apply list_lookup_insert_eq | done].
Qed.

Lemma end_driver_operation_outcome users now db data user :
  let res := OperationService.end_driver_operation users now db data user in
  (res.1.1.1 = false /\ res.2 = db)
  \/ exists i w warning,
      res.1 = (true, Messages.OPERATION_COMPLETED,
               Some (OperationData (_to_response users i w) warning))
      /\ res.2 !! i = Some w
      /\ key w = (driver_operation_date data, driver_batch data, DRIVER_ROLE).
Proof.
  unfold OperationService.end_driver_operation.
  destruct (is_past_date _ _); [by left|].
  destruct (get_operation _ _ _ _) as [[i op]|] eqn:Hg; [|by left].
  destruct (end_time op) eqn:He; [by left|].
  destruct (start_time op) as [t|] eqn:Hs; [|by left].
  destruct (Db.update _ _ _ _) as [e|db2] eqn:Hu; [by left|].
  apply update_inr in Hu as [-> Hc].
  apply get_operation_Some in Hg as [Hi Hk].
  assert (i < length db)%nat as Hlt by (by eapply lookup_lt_Some).
  right. eexists i, _, _. cbn [fst snd].
  rewrite refresh_insert by done.
  split; [reflexivity|]. split; [by apply list_lookup_insert_eq | done].
Qed.

Lemma respond_failure conflict_aware (r : ServiceResult) :
  r.1.1 = false ->
  exists code detail,
    Routers.respond conflict_aware r = Routers.HTTPException code detail
    /\ (code = 400 \/ (conflict_aware = true /\ code = 409)).
Proof.
  destruct r as [[success message] [[operation warning|error by_ at_]|]];
    simpl; intros ->.
  - eexists _, _. split; [reflexivity | by left].
  - destruct conflict_aware; simpl.
    + destruct (String.eqb error "ALREADY_STARTED");
        eexists _, _; (split; [reflexivity|]); [by right | by left].
    + eexists _, _. split; [reflexivity | by left].
  - eexists _, _. split; [reflexivity | by left].
Qed.

(** X15. An endpoint that answers with an error has written nothing.
    For each of the three operation endpoints, whatever the request: the
    answer is the success body, or else the table is the one the request
    found and the answer is 422 (the request model refused the body) or
    an HTTP error, which is 400, or 409 for the start endpoint only.
    Likewise the initialize endpoint leaves the table whenever it
    answers with an error. *)
Theorem error_answers_write_nothing users now db d b role total on_time user :
  let answered (res : Routers.HttpResponse * Table) (conflict_aware : bool) :=
    match res.1 with
    | Routers.Success _ _ _ => True
    | Routers.RequestValidationError => res.2 = db
    | Routers.HTTPException code _ =>
        res.2 = db /\ (code = 400 \/ (conflict_aware = true /\ code = 409))
    end in
  answered (Routers.start_operation users now db d b role user) true
  /\ answered (Routers.end_operation users now db d b role user) false
  /\ answered
       (Routers.end_driver_operation users now db d b total on_time user)
       false
  /\ match Routers.initialize_batch users now db b d with
     | (Routers.Ok _, _) => True
     | (Routers.HttpError code, db') =>
         db' = db /\ (code = 422 \/ code = 400 \/ code = 500)
     end.
Proof.
  intros answered. subst answered. cbv beta.
  split; [|split; [|split]].
  - unfold Routers.start_operation.
    destruct (OperationStart_validate d b role) as [data|]; [|done].
    destruct (start_operation_outcome users now db data user)
      as [[Hf Hdb]|(i & w & warning & H1 & _)];
      destruct (OperationService.start_operation users now db data user)
        as [r db'] eqn:E; cbn [fst snd] in *.
    + destruct (respond_failure true r Hf) as (code & detail & -> & Hc).
      by split.
    + by rewrite H1.
  - unfold Routers.end_operation.
    destruct (OperationEnd_validate d b role) as [data|]; [|done].
    destruct (end_operation_outcome users now db data user)
      as [[Hf Hdb]|(i & w & warning & H1 & _)];
      destruct (OperationService.end_operation users now db data user)
        as [r db'] eqn:E; cbn [fst snd] in *.
    + destruct (respond_failure false r Hf) as (code & detail & -> & Hc).
      by split.
    + by rewrite H1.
  - unfold Routers.end_driver_operation.
    destruct (DriverEnd_validate d b total on_time) as [data|]; [|done].
    destruct (end_driver_operation_outcome users now db data user)
      as [[Hf Hdb]|(i & w & warning & H1 & _)];
      destruct (OperationService.end_driver_operation users now db data user)
        as [r db'] eqn:E; cbn [fst snd] in *.
    + destruct (respond_failure false r Hf) as (code & detail & -> & Hc).
      by split.
    + by rewrite H1.
  - unfold Routers.initialize_batch.
    destruct (Routers.normalize_batch b) as [b'|]; [|split; auto].
    destruct (is_batch_available d b') eqn:Ea; cbn [negb]; [|split; auto].
    destruct (initialize_batch_table now db d b') as [[Hf Hdb]|[Ht _]];
      destruct (BatchService.initialize_batch now db d b')
        as [success db'] eqn:E; cbn [fst snd] in *; subst success;
      cbn [negb]; [split; auto | done].
Qed.

(* ===================================================================== *)
(** ** Reading back what was written *)
(* ===================================================================== *)

Lemma respond_success conflict_aware (r : ServiceResult) msg data warning :
  Routers.respond conflict_aware r = Routers.Success msg data warning ->
  r = (true, msg, Some (OperationData data warning)).
Proof.
  destruct r as [[[] message] [[operation w|error by_ at_]|]]; simpl;
    try discriminate.
  - by intros [= <- <- <-].
  - destruct (_ && _); discriminate.
Qed.

Lemma routers_get_operation_found users db d b b' role i w :
  NoDup (key <$> db) ->
  validate_batch b = Some b' ->
  db !! i = Some w -> key w = (d, b', role) ->
  check_row w = None ->
  Routers.get_operation users db d b role = Routers.Ok (_to_response users i w).
Proof.
  intros Hnd Hb Hi Hk Hc. unfold Routers.get_operation, Routers.normalize_batch.
  rewrite Hb.
  destruct (check_row_None w Hc) as (_ & _ & Hv & _).
  unfold valid_role in Hv.
  assert (operation_role w = role) as Hrole by (unfold key in Hk; congruence).
  rewrite Hrole in Hv. rewrite Hv. cbn [negb].
  by rewrite (get_operation_lookup db d b' role i w Hnd Hi Hk).
Qed.

(** X16. Reading back.  On a table the application can produce, the
    operation a successful start, end or Driver completion answers with
    is the operation GET /operations/{date}/{batch}/{role} answers with
    right after, for the same date and batch parameter and the role as
    stored, which is the requested role stripped of the whitespace
    [str.strip()] removes at either end, that of Unicode included (the
    Driver for a Driver completion).  The reading endpoint does not
    strip: a role parameter with such a character at either end is 422
    there, though the start request was accepted with it. *)
Theorem read_back_after_write users now db d b role total on_time user msg
        data warning db' :
  reachable db ->
  (Routers.start_operation users now db d b role user
   = (Routers.Success msg data warning, db')
   \/ Routers.end_operation users now db d b role user
      = (Routers.Success msg data warning, db')) ->
  resp_operation_role data = strip role
  /\ Routers.get_operation users db' d b (strip role) = Routers.Ok data
  /\ (strip role <> role ->
      Routers.get_operation users db' d b role = Routers.HttpError 422)
  /\ (forall msg2 data2 warning2 db2,
        Routers.end_driver_operation users now db d b total on_time user
        = (Routers.Success msg2 data2 warning2, db2) ->
        resp_operation_role data2 = DRIVER_ROLE
        /\ Routers.get_operation users db2 d b DRIVER_ROLE = Routers.Ok data2).
Proof.
  intros Hr Hw. apply reachable_inv in Hr as Hinv.
  assert (exists b' i w,
            validate_batch b = Some b'
            /\ Py.str_in (strip role) VALID_ROLES = true
            /\ data = _to_response users i w
            /\ db' !! i = Some w /\ key w = (d, b', strip role)
            /\ table_inv db') as (b' & i & w & Hb & Hv & -> & Hi & Hk & Hinv').
  { destruct Hw as [Hw | Hw].
    - unfold Routers.start_operation, OperationStart_validate in Hw.
      destruct (validate_batch b) as [b'|] eqn:Eb; [|discriminate].
      destruct (validate_role role) as [r'|] eqn:Er; [|discriminate].
      apply validate_role_spec in Er as [-> Hv].
      set (req := mkOperationStart d b' (strip role)) in *.
      pose proof (start_operation_inv users now db req user Hinv) as Hinv'.
      destruct (start_operation_outcome users now db req user)
        as [[Hf Hdb]|(i & w & w' & H1 & H2 & H3)];
        destruct (OperationService.start_operation users now db req user)
          as [r db1] eqn:E; cbn [fst snd] in *;
        injection Hw as Hresp <-;
        apply respond_success in Hresp; subst r.
      + discriminate.
      + injection H1 as -> ->. by exists b', i, w.
    - unfold Routers.end_operation, OperationEnd_validate in Hw.
      destruct (validate_batch b) as [b'|] eqn:Eb; [|discriminate].
      destruct (validate_role_end role) as [r'|] eqn:Er; [|discriminate].
      apply validate_role_end_spec in Er as (-> & Hv & _).
      set (req := mkOperationEnd d b' (strip role)) in *.
      pose proof (end_operation_inv users now db req user Hinv) as Hinv'.
      destruct (end_operation_outcome users now db req user)
        as [[Hf Hdb]|(i & w & w' & H1 & H2 & H3)];
        destruct (OperationService.end_operation users now db req user)
          as [r db1] eqn:E; cbn [fst snd] in *;
        injection Hw as Hresp <-;
        apply respond_success in Hresp; subst r.
      + discriminate.
      + injection H1 as -> ->. by exists b', i, w. }
  destruct Hinv' as [Hnd' Hok'].
  assert (check_row w = None) as Hc.
  { rewrite Forall_forall in Hok'.
    apply (row_checked w), Hok'. by eapply list_elem_of_lookup_2. }
  split; [|split; [|split]].
  - cbn [_to_response resp_operation_role]. unfold key in Hk. congruence.
  - by apply (routers_get_operation_found users db' d b b' (strip role) i w).
  - intros Hne. unfold Routers.get_operation, Routers.normalize_batch.
    rewrite Hb.
    destruct (Py.str_in role VALID_ROLES) eqn:E; [|reflexivity].
    exfalso. apply Hne. by apply strip_role.
  - intros msg2 data2 warning2 db2 Hw2.
    unfold Routers.end_driver_operation in Hw2.
    destruct (DriverEnd_validate d b total on_time) as [req|] eqn:Ev;
      [|discriminate].
    apply request_driver in Ev as (Hb2 & _ & ->).
    set (req := mkDriverEnd d (upper b) total on_time) in *.
    pose proof (end_driver_operation_inv users now db req user Hinv)
      as Hinv2.
    destruct (end_driver_operation_outcome users now db req user)
      as [[Hf Hdb]|(i2 & w2 & w' & H1 & H2 & H3)];
      destruct (OperationService.end_driver_operation users now db req user)
        as [r db1] eqn:E; cbn [fst snd] in *;
      injection Hw2 as Hresp <-;
      apply respond_success in Hresp; subst r; [discriminate|].
    injection H1 as -> ->. destruct Hinv2 as [Hnd2 Hok2].
    assert (check_row w2 = None) as Hc2.
    { rewrite Forall_forall in Hok2.
      apply (row_checked w2), Hok2. by eapply list_elem_of_lookup_2. }
    split.
    + cbn [_to_response resp_operation_role]. unfold key in H3. congruence.
    + apply (routers_get_operation_found users db1 d b (upper b) DRIVER_ROLE
               i2 w2); try done.
      by apply validate_batch_spec.
Qed.

Lemma read_back_after_write_witness :
  exists data,
    strip (String.append " Procurement" (Py.utf8 0xA0)) = "Procurement"
    /\ Routers.get_operation Examples.users
         (Routers.start_operation Examples.users Examples.at_9 []
            Examples.tuesday "a"
            (String.append " Procurement" (Py.utf8 0xA0)) Examples.ada).2
         Examples.tuesday "a"
         (strip (String.append " Procurement" (Py.utf8 0xA0)))
       = Routers.Ok data.
Proof.
  eexists. split; [reflexivity|].
  refine (proj1 (proj2
            (read_back_after_write Examples.users Examples.at_9 []
               Examples.tuesday "a"
               (String.append " Procurement" (Py.utf8 0xA0)) 0 0
               Examples.ada _ _ _ _ reach_empty (or_introl _)))).
  vm_compute. reflexivity.
Defined.

(* ===================================================================== *)
(** ** The tables of the API *)
(* ===================================================================== *)

Lemma delivery_counts_ok_fresh r :
  total_orders r = None -> on_time_deliveries r = None ->
  delivery_counts_ok r.
Proof.
  intros Ht Ho. unfold delivery_counts_ok. rewrite Ht, Ho.
  split; [by intros [? [=]]|]. split; [by intros [? [=]] | by intros ? [=]].
Qed.

Lemma delivery_counts_ok_same r r' :
  total_orders r' = total_orders r ->
  on_time_deliveries r' = on_time_deliveries r ->
  operation_role r' = operation_role r ->
  delivery_counts_ok r -> delivery_counts_ok r'.
Proof.
  unfold delivery_counts_ok. by intros -> -> ->.
Qed.

Lemma start_operation_counts users now db data user :
  Forall delivery_counts_ok db ->
  Forall delivery_counts_ok
    (OperationService.start_operation users now db data user).2.
Proof.
  intros Hok.
  destruct (start_operation_table users now db data user)
    as [[_ ->]|(db1 & i & op & Hg & Hs & Hc & -> & _)]; [exact Hok|].
  assert (Forall delivery_counts_ok db1) as Hok1.
  { apply get_or_create_inr in Hg as [[_ ->]|(_ & -> & _ & Hi)]; [exact Hok|].
    apply insert_inr in Hi as (-> & _ & _).
    apply Forall_app. split; [exact Hok|].
    apply Forall_singleton. by apply delivery_counts_ok_fresh. }
  apply get_or_create_lookup in Hg as [Hi _].
  apply Forall_insert; [exact Hok1|].
  apply (delivery_counts_ok_same op); try reflexivity.
  eapply Forall_forall; [exact Hok1 | by eapply list_elem_of_lookup_2].
Qed.

Lemma end_operation_counts users now db data user :
  Forall delivery_counts_ok db ->
  Forall delivery_counts_ok
    (OperationService.end_operation users now db data user).2.
Proof.
  intros Hok.
  destruct (end_operation_table users now db data user)
    as [[_ ->]|(i & op & t & Hg & Hs & He & Hc & -> & _)]; [exact Hok|].
  apply get_operation_Some in Hg as [Hi _].
  apply Forall_insert; [exact Hok|].
  apply (delivery_counts_ok_same op); try reflexivity.
  eapply Forall_forall; [exact Hok | by eapply list_elem_of_lookup_2].
Qed.

Lemma end_driver_operation_counts users now db data user :
  0 <= driver_on_time_deliveries data <= driver_total_orders data ->
  Forall delivery_counts_ok db ->
  Forall delivery_counts_ok
    (OperationService.end_driver_operation users now db data user).2.
Proof.
  intros Hb Hok.
  destruct (end_driver_operation_table users now db data user)
    as [[_ ->]|(i & op & t & Hg & Hs & He & Hc & -> & _)]; [exact Hok|].
  apply get_operation_Some in Hg as [Hi Hk].
  apply Forall_insert; [exact Hok|].
  unfold delivery_counts_ok. cbn.
  split; [intros _; unfold key in Hk; congruence|].
  split; [intros _; by eexists|].
  intros t' [= <-]. by eexists.
Qed.

Lemma initialize_batch_counts now db d b :
  table_inv db ->
  Forall delivery_counts_ok db ->
  Forall delivery_counts_ok (BatchService.initialize_batch now db d b).2.
Proof.
  intros Hinv Hok.
  destruct (initialize_batch_table now db d b) as [[_ ->]|(_ & _ & Hi)];
    [exact Hok|].
  eapply insert_all_inv in Hi as [_ ->];
    [|exact Hinv|apply add_missing_fresh; constructor].
  apply Forall_app. split; [exact Hok|].
  apply Forall_forall. intros r Hr.
  apply add_missing_elem in Hr as (role & _ & _ & ->).
  by apply delivery_counts_ok_fresh.
Qed.

Lemma api_reachable_reachable db :
  api_reachable db -> reachable db /\ Forall delivery_counts_ok db.
Proof.
  induction 1 as [|users now db d b role user _ [IH1 IH2]
                  |users now db d b role user _ [IH1 IH2]
                  |users now db d b total on_time user _ [IH1 IH2]
                  |users now db b d _ [IH1 IH2]].
  - split; constructor.
  - unfold Routers.start_operation.
    destruct (OperationStart_validate d b role) as [data|]; [|by split].
    pose proof (reach_start users now db data user IH1) as Hr.
    pose proof (start_operation_counts users now db data user IH2) as Hc.
    by destruct (OperationService.start_operation users now db data user).
  - unfold Routers.end_operation.
    destruct (OperationEnd_validate d b role) as [data|]; [|by split].
    pose proof (reach_end users now db data user IH1) as Hr.
    pose proof (end_operation_counts users now db data user IH2) as Hc.
    by destruct (OperationService.end_operation users now db data user).
  - unfold Routers.end_driver_operation.
    destruct (DriverEnd_validate d b total on_time) as [data|] eqn:Ev;
      [|by split].
    apply request_driver in Ev as (_ & Hb & ->).
    set (data := mkDriverEnd d (upper b) total on_time).
    pose proof (reach_end_driver users now db data user IH1) as Hr.
    pose proof (end_driver_operation_counts users now db data user Hb IH2)
      as Hc.
    by destruct (OperationService.end_driver_operation users now db data
                   user).
  - unfold Routers.initialize_batch.
    destruct (Routers.normalize_batch b) as [b'|]; [|by split].
    destruct (is_batch_available d b'); cbn [negb]; [|by split].
    pose proof (reach_initialize now db d b' IH1) as Hr.
    pose proof (initialize_batch_counts now db d b'
                  (reachable_inv db IH1) IH2) as Hc.
    destruct (BatchService.initialize_batch now db d b') as [[] db'];
      by split.
Qed.

(** X17. The tables of the API.  Every table the endpoints can produce
    is one the services can produce, and on it delivery counts are found
    exactly on the completed Driver records: a record has a total_orders
    exactly when it is a Driver record with an end time, it then has an
    on_time_deliveries too, with 0 <= on_time_deliveries <=
    total_orders, and no other record has either count.  (Below the
    request models the lower bound is lost: the service itself writes a
    negative on-time count.) *)
Theorem api_tables_delivery_counts db r :
  api_reachable db -> r ∈ db ->
  reachable db
  /\ (is_Some (total_orders r)
      <-> operation_role r = DRIVER_ROLE /\ is_Some (end_time r))
  /\ (is_Some (on_time_deliveries r) <-> is_Some (total_orders r))
  /\ (forall t o,
        total_orders r = Some t -> on_time_deliveries r = Some o ->
        0 <= o <= t).
Proof.
  intros Ha Hin. apply api_reachable_reachable in Ha as [Hr Hc].
  rewrite Forall_forall in Hc. destruct (Hc r Hin) as (H1 & H2 & H3).
  pose proof (reachable_row_ok db r Hr Hin) as Hok.
  split; [exact Hr|]. split; [|split].
  - split.
    + intros Ht. split; [by apply H1 | by apply (row_delivery r Hok)].
    + intros [Hrole [e He]].
      destruct (check_row_None r (row_checked r Hok))
        as (_ & _ & _ & _ & _ & Hd & _).
      unfold driver_orders_valid in Hd. unfold DRIVER_ROLE in Hrole.
      rewrite Hrole, He in Hd. simpl in Hd.
      destruct (total_orders r); [by eexists | discriminate].
  - split; [exact H2|]. intros [t Ht].
    destruct (H3 t Ht) as (o & Ho & _). by eexists.
  - intros t o Ht Ho. destruct (H3 t Ht) as (o' & Ho' & Hb). congruence.
Qed.

Lemma api_tables_delivery_counts_witness :
  exists r,
    r ∈ (Routers.end_driver_operation Examples.users Examples.at_10
           (Routers.start_operation Examples.users Examples.at_9 []
              Examples.tuesday "A" "Driver" Examples.ada).2
           Examples.tuesday "A" 150 142 Examples.ada).2
    /\ (is_Some (on_time_deliveries r) <-> is_Some (total_orders r)).
Proof.
  eexists. split.
  - vm_compute. apply list_elem_of_here.
  - refine (proj1 (proj2 (proj2
              (api_tables_delivery_counts
                 (Routers.end_driver_operation Examples.users Examples.at_10
                    (Routers.start_operation Examples.users Examples.at_9 []
                       Examples.tuesday "A" "Driver" Examples.ada).2
                    Examples.tuesday "A" 150 142 Examples.ada).2 _ _ _)))).
    + apply api_end_driver, api_start, api_empty.
    + vm_compute. apply list_elem_of_here.
Defined.

(* ===================================================================== *)
(** ** The rows [initialize_batch] adds *)
(* ===================================================================== *)

Lemma initialize_batch_rows now db d b db1 :
  table_inv db ->
  BatchService.initialize_batch now db d b = (true, db1) ->
  table_inv db1
  /\ db1 = db ++ add_missing now db d b ROLE_ORDER []
  /\ is_batch_available d b = true.
Proof.
  intros Hinv Heq.
  destruct (initialize_batch_table now db d b)
    as [[Hf _]|(_ & Ha & Hi)]; [rewrite Heq in Hf; discriminate|].
  rewrite Heq in Hi. cbn [snd] in Hi.
  eapply insert_all_inv in Hi as [Hinv1 Hdb1];
    [|exact Hinv|apply add_missing_fresh; constructor].
  done.
Qed.

(** After [initialize_batch] a role has the record it had, or a new
    one. *)
Lemma initialize_batch_lookup now db d b db1 role :
  table_inv db ->
  BatchService.initialize_batch now db d b = (true, db1) ->
  role ∈ ROLE_ORDER ->
  match get_operation db d b role with
  | Some found => get_operation db1 d b role = Some found
  | None =>
      exists j, get_operation db1 d b role
                = Some (j, new_operation now d b role)
  end.
Proof.
  intros Hinv Heq Hrole.
  destruct (initialize_batch_rows now db d b db1 Hinv Heq)
    as ([Hnd1 _] & Hdb1 & _).
  destruct (get_operation db d b role) as [[i r]|] eqn:Hg.
  - apply get_operation_Some in Hg as [Hi Hk].
    apply get_operation_lookup; [done| |done].
    rewrite Hdb1. by apply lookup_app_l_Some.
  - assert (new_operation now d b role ∈ db1) as Hin.
    { rewrite Hdb1. apply elem_of_app. right.
      apply add_missing_elem. by exists role. }
    apply list_elem_of_lookup in Hin as [j Hj].
    exists j. by apply get_operation_lookup.
Qed.

(** Records without a start time count for nothing in the status of a
    batch. *)
Lemma calculate_batch_status_app db added d b :
  Forall (fun r => start_time r = None /\ end_time r = None
                   /\ total_orders r = None) added ->
  _calculate_batch_status (db ++ added) d b = _calculate_batch_status db d b.
Proof.
  intros Hfresh.
  assert (count_started (db ++ added) d b = count_started db d b) as Hs.
  { unfold count_started. rewrite filter_app, length_app.
    rewrite (proj2 (filter_length_none _ added)); [lia|].
    eapply Forall_impl; [exact Hfresh|]. intros r (-> & _ & _).
    by rewrite andb_false_r. }
  assert (count_completed (db ++ added) d b = count_completed db d b) as Hc.
  { unfold count_completed. rewrite filter_app, length_app.
    rewrite (proj2 (filter_length_none _ added)); [lia|].
    eapply Forall_impl; [exact Hfresh|]. intros r (_ & -> & _).
    by rewrite andb_false_r. }
  unfold _calculate_batch_status. by rewrite Hs, Hc.
Qed.

(* ===================================================================== *)
(** ** Progress never goes backwards *)
(* ===================================================================== *)

Lemma keeps_stamps_trans r1 r2 r3 :
  keeps_stamps r1 r2 -> keeps_stamps r2 r3 -> keeps_stamps r1 r3.
Proof.
  intros (Hk & Hs & He & Hsb & Heb) (Hk' & Hs' & He' & Hsb' & Heb').
  split; [congruence|]. split; [|split; [|split]].
  - intros t Ht. by apply Hs', Hs.
  - intros t Ht. by apply He', He.
  - intros t Ht. rewrite (Hsb' t (Hs t Ht)). by apply (Hsb t).
  - intros t Ht. rewrite (Heb' t (He t Ht)). by apply (Heb t).
Qed.

Lemma extends_refl db : extends db db.
Proof. intros i r Hi. exists r. split; [done | apply keeps_stamps_refl]. Qed.

Lemma extends_trans db1 db2 db3 :
  extends db1 db2 -> extends db2 db3 -> extends db1 db3.
Proof.
  intros H12 H23 i r Hi.
  destruct (H12 i r Hi) as (r2 & Hi2 & Hk2).
  destruct (H23 i r2 Hi2) as (r3 & Hi3 & Hk3).
  exists r3. split; [done | by eapply keeps_stamps_trans].
Qed.

Lemma start_operation_extends users now db data user :
  extends db (OperationService.start_operation users now db data user).2.
Proof.
  intros i r Hi.
  destruct (start_operation_table users now db data user)
    as [[_ ->]|(db1 & j & op & Hg & Hs & _ & -> & _)];
    [exists r; split; [done | apply keeps_stamps_refl]|].
  pose proof (get_or_create_lookup _ _ _ _ _ _ _ _ Hg) as [Hj _].
  assert (db1 !! i = Some r) as Hi1.
  { apply get_or_create_inr in Hg as [[_ ->]|(_ & _ & _ & Hins)]; [done|].
    apply insert_inr in Hins as (-> & _ & _). by apply lookup_app_l_Some. }
  eapply insert_keeps_stamps; eauto.
  repeat split; simpl; intros x Hx; congruence.
Qed.

Lemma end_operation_extends users now db data user :
  extends db (OperationService.end_operation users now db data user).2.
Proof.
  intros i r Hi.
  destruct (end_operation_table users now db data user)
    as [[_ ->]|(j & op & t & Hg & Hs & He & _ & -> & _)];
    [exists r; split; [done | apply keeps_stamps_refl]|].
  apply get_operation_Some in Hg as [Hj _].
  eapply insert_keeps_stamps; eauto.
  repeat split; simpl; intros x Hx; congruence.
Qed.

Lemma end_driver_operation_extends users now db data user :
  extends db (OperationService.end_driver_operation users now db data user).2.
Proof.
  intros i r Hi.
  destruct (end_driver_operation_table users now db data user)
    as [[_ ->]|(j & op & t & Hg & Hs & He & _ & -> & _)];
    [exists r; split; [done | apply keeps_stamps_refl]|].
  apply get_operation_Some in Hg as [Hj _].
  eapply insert_keeps_stamps; eauto.
  repeat split; simpl; intros x Hx; congruence.
Qed.

Lemma insert_all_lookup (db : Table) rs db' i r :
  Db.insert_all db rs = inr db' -> db !! i = Some r -> db' !! i = Some r.
Proof.
  revert db. induction rs as [|x rs IH]; intros db; simpl.
  - by intros [= <-].
  - destruct (Db.insert db x) as [e|db1] eqn:Hx; [discriminate|].
    apply insert_inr in Hx as (-> & _ & _).
    intros Hall Hi. apply (IH _ Hall). by apply lookup_app_l_Some.
Qed.

Lemma initialize_batch_extends now db d b :
  extends db (BatchService.initialize_batch now db d b).2.
Proof.
  intros i r Hi.
  destruct (initialize_batch_table now db d b) as [[_ ->]|(_ & _ & Hins)];
    [exists r; split; [done | apply keeps_stamps_refl]|].
  exists r. split; [|apply keeps_stamps_refl].
  by eapply insert_all_lookup.
Qed.

Lemma evolves_extends db db' : evolves db db' -> extends db db'.
Proof.
  induction 1.
  - apply extends_refl.
  - eapply extends_trans; [eassumption | apply start_operation_extends].
  - eapply extends_trans; [eassumption | apply end_operation_extends].
  - eapply extends_trans; [eassumption | apply end_driver_operation_extends].
  - eapply extends_trans; [eassumption | apply initialize_batch_extends].
Qed.

Lemma evolves_reachable db db' :
  reachable db -> evolves db db' -> reachable db'.
Proof.
  intros Hr. induction 1; [done|..]; by constructor.
Qed.

(** A stamp counted in [db] is counted in a table that extends it. *)
Lemma count_extends (db db' : Table) d b (P : OperationsLog -> bool) :
  table_inv db -> table_inv db' -> extends db db' ->
  (forall r r', keeps_stamps r r' -> P r = true -> P r' = true) ->
  (length
     (filter
        (fun r =>
           (date_eqb (operation_date r) d && String.eqb (batch r) b && P r)
           = true) db)
   <= length
        (filter
           (fun r =>
              (date_eqb (operation_date r) d && String.eqb (batch r) b
               && P r) = true) db'))%nat.
Proof.
  intros Hinv Hinv' Hext HP.
  rewrite (count_by_role db d b P Hinv), (count_by_role db' d b P Hinv').
  apply filter_length_le, Forall_forall. intros role _.
  destruct (get_operation db d b role) as [[i r]|] eqn:Hg; [|discriminate].
  intros Hp. apply get_operation_Some in Hg as [Hi Hk].
  destruct (Hext i r Hi) as (r' & Hi' & Hkeep).
  rewrite (get_operation_lookup db' d b role i r' (proj1 Hinv') Hi').
  - by apply (HP r r').
  - destruct Hkeep as [Hk' _]. congruence.
Qed.

(** X19. Progress never goes backwards.  From a table the application
    can produce, whatever calls of the four mutating services follow:
    no record disappears or moves, the started and completed counts of
    every batch of every date can only grow, a GREEN batch stays GREEN,
    and no batch returns to RED. *)
Theorem progress_never_goes_back db db' d b :
  reachable db -> evolves db db' ->
  let before := _calculate_batch_status db d b in
  let after := _calculate_batch_status db' d b in
  (length db <= length db')%nat
  /\ started_count before <= started_count after
  /\ completed_count before <= completed_count after
  /\ (bs_status before = BatchStatus.GREEN ->
      bs_status after = BatchStatus.GREEN)
  /\ (bs_status after = BatchStatus.RED ->
      bs_status before = BatchStatus.RED)
  /\ (bs_status before = BatchStatus.YELLOW ->
      bs_status after <> BatchStatus.RED).
Proof.
  intros Hr Hev before after.
  pose proof (evolves_extends db db' Hev) as Hext.
  pose proof (reachable_inv db Hr) as Hinv.
  pose proof (reachable_inv db' (evolves_reachable db db' Hr Hev)) as Hinv'.
  assert (length db <= length db')%nat as Hlen.
  { destruct (decide (length db <= length db')%nat) as [|Hgt]; [done|].
    destruct (lookup_lt_is_Some_2 db (length db')) as [r Hi]; [lia|].
    destruct (Hext _ r Hi) as (r' & Hi' & _).
    apply lookup_lt_Some in Hi'. lia. }
  assert (started_count before <= started_count after) as Hs.
  { subst before after. cbn [_calculate_batch_status started_count].
    unfold count_started. apply inj_le.
    apply (count_extends db db' d b
             (fun r => match start_time r with
                       | Some _ => true | None => false end));
      [done..|].
    intros r r' (_ & Hst & _) Hp.
    destruct (start_time r) as [t|]; [|discriminate].
    by rewrite (Hst t eq_refl). }
  assert (completed_count before <= completed_count after) as Hc.
  { subst before after. cbn [_calculate_batch_status completed_count].
    unfold count_completed. apply inj_le.
    apply (count_extends db db' d b
             (fun r => match end_time r with
                       | Some _ => true | None => false end));
      [done..|].
    intros r r' (_ & _ & Het & _) Hp.
    destruct (end_time r) as [t|]; [|discriminate].
    by rewrite (Het t eq_refl). }
  pose proof (counts_bounds db d b Hinv) as (Hb1 & Hb2).
  pose proof (counts_bounds db' d b Hinv') as (Hb1' & Hb2').
  assert (forall t, bs_status (_calculate_batch_status t d b)
          = if count_started t d b =? 0 then BatchStatus.RED
            else if TOTAL_ROLES <=? count_completed t d b
                 then BatchStatus.GREEN else BatchStatus.YELLOW) as Hbs
    by reflexivity.
  subst before after. rewrite !Hbs.
  cbn [_calculate_batch_status started_count completed_count] in Hs, Hc.
  split; [exact Hlen|]. split; [exact Hs|]. split; [exact Hc|].
  unfold BatchStatus.GREEN, BatchStatus.RED, BatchStatus.YELLOW.
  destruct (Z.eqb_spec (count_started db d b) 0),
    (Z.eqb_spec (count_started db' d b) 0),
    (Z.leb_spec TOTAL_ROLES (count_completed db d b)),
    (Z.leb_spec TOTAL_ROLES (count_completed db' d b));
    repeat split; try done; try lia.
Qed.

Lemma progress_never_goes_back_witness :
  started_count
    (_calculate_batch_status Examples.procurement_started Examples.tuesday
       "A")
  <= started_count
       (_calculate_batch_status Examples.two_started Examples.tuesday "A").
Proof.
  refine (proj1 (proj2 (progress_never_goes_back
                          Examples.procurement_started Examples.two_started
                          Examples.tuesday "A" _ _))).
  - unfold Examples.procurement_started. apply reach_start, reach_empty.
  - unfold Examples.two_started. apply evolves_start, evolves_refl.
Defined.

(* ===================================================================== *)
(** ** The columns of a record *)
(* ===================================================================== *)

Lemma columns_consistent_new now d b role :
  Py.str_in b (get_available_batches_for_date d) = true ->
  columns_consistent (new_operation now d b role).
Proof.
  intros Ha. split; try done; simpl; split; by intros [? [=]].
Qed.

Lemma columns_consistent_started now r t uid :
  columns_consistent r ->
  columns_consistent (touch now (set_started r t uid)).
Proof.
  intros [H1 H2 H3 H4 H5 H6].
  split; try done; simpl; split; intros _; by eexists.
Qed.

Lemma columns_consistent_completed now r t uid :
  columns_consistent r ->
  columns_consistent (touch now (set_completed r t uid)).
Proof.
  intros [H1 H2 H3 H4 H5 H6].
  split; try done; simpl; split; intros _; by eexists.
Qed.

Lemma columns_consistent_delivery now r t uid total on_time :
  columns_consistent r ->
  columns_consistent
    (touch now (set_delivery (set_completed r t uid) total on_time)).
Proof.
  intros [H1 H2 H3 H4 H5 H6].
  split; try done; simpl; split; intros _; by eexists.
Qed.

Lemma start_operation_available users now db data user :
  (OperationService.start_operation users now db data user).1.1.1 = true ->
  Py.str_in (start_batch data)
    (get_available_batches_for_date (start_operation_date data)) = true.
Proof.
  unfold OperationService.start_operation.
  by destruct (Py.str_in _ _).
Qed.

Lemma start_operation_columns users now db data user :
  Forall columns_consistent db ->
  Forall columns_consistent
    (OperationService.start_operation users now db data user).2.
Proof.
  intros Hok.
  destruct (start_operation_table users now db data user)
    as [[_ ->]|(db1 & i & op & Hg & Hs & Hc & -> & Ht)]; [exact Hok|].
  apply start_operation_available in Ht.
  assert (Forall columns_consistent db1) as Hok1.
  { apply get_or_create_inr in Hg as [[_ ->]|(_ & -> & _ & Hi)]; [exact Hok|].
    apply insert_inr in Hi as (-> & _ & _).
    apply Forall_app. split; [exact Hok|].
    apply Forall_singleton. by apply columns_consistent_new. }
  apply get_or_create_lookup in Hg as [Hi _].
  apply Forall_insert; [exact Hok1|].
  apply columns_consistent_started.
  eapply Forall_forall; [exact Hok1 | by eapply list_elem_of_lookup_2].
Qed.

Lemma end_operation_columns users now db data user :
  Forall columns_consistent db ->
  Forall columns_consistent
    (OperationService.end_operation users now db data user).2.
Proof.
  intros Hok.
  destruct (end_operation_table users now db data user)
    as [[_ ->]|(i & op & t & Hg & Hs & He & Hc & -> & _)]; [exact Hok|].
  apply get_operation_Some in Hg as [Hi _].
  apply Forall_insert; [exact Hok|].
  apply columns_consistent_completed.
  eapply Forall_forall; [exact Hok | by eapply list_elem_of_lookup_2].
Qed.

Lemma end_driver_operation_columns users now db data user :
  Forall columns_consistent db ->
  Forall columns_consistent
    (OperationService.end_driver_operation users now db data user).2.
Proof.
  intros Hok.
  destruct (end_driver_operation_table users now db data user)
    as [[_ ->]|(i & op & t & Hg & Hs & He & Hc & -> & _)]; [exact Hok|].
  apply get_operation_Some in Hg as [Hi _].
  apply Forall_insert; [exact Hok|].
  apply columns_consistent_delivery.
  eapply Forall_forall; [exact Hok | by eapply list_elem_of_lookup_2].
Qed.

Lemma initialize_batch_columns now db d b :
  table_inv db ->
  Forall columns_consistent db ->
  Forall columns_consistent (BatchService.initialize_batch now db d b).2.
Proof.
  intros Hinv Hok.
  destruct (initialize_batch_table now db d b) as [[_ ->]|(_ & Ha & Hi)];
    [exact Hok|].
  eapply insert_all_inv in Hi as [_ ->];
    [|exact Hinv|apply add_missing_fresh; constructor].
  apply Forall_app. split; [exact Hok|].
  apply Forall_forall. intros r Hr.
  apply add_missing_elem in Hr as (role & _ & _ & ->).
  by apply columns_consistent_new.
Qed.

Lemma reachable_columns db : reachable db -> Forall columns_consistent db.
Proof.
  induction 1 as [|users now db data user Hr IH|users now db data user Hr IH
                  |users now db data user Hr IH|now db d b Hr IH].
  - constructor.
  - by apply start_operation_columns.
  - by apply end_operation_columns.
  - by apply end_driver_operation_columns.
  - apply initialize_batch_columns; [by apply reachable_inv | done].
Qed.

(** X20. The columns of a record, on every table the application can
    produce: the batch of a record is one offered on its date, so no
    record of batch D exists for a Monday or a Thursday; the
    day_of_week, month and year columns repeat the date, whose year lies
    between 2024 and 2100; the role is a role of the sequence; and
    started_by is filled exactly when start_time is, completed_by
    exactly when end_time is. *)
Theorem record_columns db r :
  reachable db -> r ∈ db ->
  batch r ∈ get_available_batches_for_date (operation_date r)
  /\ (isoweekday (operation_date r) = 1 \/ isoweekday (operation_date r) = 4 ->
      batch r <> "D")
  /\ day_of_week r = get_day_name (operation_date r)
  /\ month r = get_month_name (operation_date r)
  /\ year r = d_year (operation_date r)
  /\ 2024 <= d_year (operation_date r) <= 2100
  /\ operation_role r ∈ ROLE_ORDER
  /\ (is_Some (started_by_user_id r) <-> is_Some (start_time r))
  /\ (is_Some (completed_by_user_id r) <-> is_Some (end_time r)).
Proof.
  intros Hr Hin.
  pose proof (reachable_columns db Hr) as Hcols.
  rewrite Forall_forall in Hcols.
  destruct (Hcols r Hin) as [H1 H2 H3 H4 H5 H6].
  pose proof (reachable_row_ok db r Hr Hin) as Hok.
  destruct (check_row_None r (row_checked r Hok))
    as (_ & _ & Hv & _ & Hy & _ & _).
  split; [by apply str_in_elem_of|]. split.
  - intros Hday Hd. rewrite Hd in H1.
    unfold get_available_batches_for_date in H1.
    destruct Hday as [Hday | Hday]; rewrite Hday in H1;
      vm_compute in H1; discriminate.
  - repeat (split; [done|]). split; [|split; [|done]].
    + unfold valid_year in Hy. rewrite H4 in Hy.
      apply andb_true_iff in Hy as [Hy1 Hy2].
      apply Z.leb_le in Hy1, Hy2. lia.
    + by apply str_in_elem_of in Hv.
Qed.

Lemma record_columns_witness :
  exists r,
    r ∈ Examples.two_started
    /\ day_of_week r = get_day_name (operation_date r).
Proof.
  eexists. split.
  - vm_compute. apply list_elem_of_here.
  - refine (proj1 (proj2 (proj2
              (record_columns Examples.two_started _ _ _)))).
    + unfold Examples.two_started, Examples.procurement_started.
      apply reach_start, reach_start, reach_empty.
    + vm_compute. apply list_elem_of_here.
Defined.

(* ===================================================================== *)
(** ** initialize_batch, twice *)
(* ===================================================================== *)

(** No record has a date whose year the table refuses. *)
Lemma reachable_year db r :
  reachable db -> r ∈ db -> 2024 <= d_year (operation_date r) <= 2100.
Proof.
  intros Hr Hin.
  pose proof (reachable_columns db Hr) as Hcols.
  rewrite Forall_forall in Hcols.
  destruct (Hcols r Hin) as [_ _ _ Hyear _ _].
  pose proof (reachable_row_ok db r Hr Hin) as Hok.
  destruct (check_row_None r (row_checked r Hok))
    as (_ & _ & _ & _ & Hy & _ & _).
  unfold valid_year in Hy. rewrite Hyear in Hy.
  apply andb_true_iff in Hy as [Hy1 Hy2].
  apply Z.leb_le in Hy1, Hy2. lia.
Qed.

(** [initialize_batch] returns False, and leaves the table, for a batch
    that is not offered on the date and for a date whose year the table
    refuses. *)
Lemma initialize_batch_fails now db d b :
  reachable db ->
  is_batch_available d b = false \/ ~ 2024 <= d_year d <= 2100 ->
  BatchService.initialize_batch now db d b = (false, db).
Proof.
  intros Hr Hc. unfold BatchService.initialize_batch.
  destruct (is_batch_available d b) eqn:Ha; [|reflexivity].
  destruct Hc as [Hc | Hy]; [discriminate|]. cbn [negb].
  assert (get_operation db d b "Procurement" = None) as Hg.
  { destruct (get_operation db d b "Procurement") as [[i r]|] eqn:Hg;
      [|reflexivity].
    apply get_operation_Some in Hg as [Hi Hk].
    apply list_elem_of_lookup_2 in Hi.
    pose proof (reachable_year db r Hr Hi) as Hyr.
    unfold key in Hk. assert (operation_date r = d) as Hd by congruence.
    rewrite Hd in Hyr. contradiction. }
  destruct (Db.insert_all _ _) as [e|db1] eqn:Hi; [reflexivity|].
  exfalso.
  eapply insert_all_inv in Hi as [[_ Hok] ->];
    [|by apply reachable_inv|apply add_missing_fresh; constructor].
  rewrite Forall_forall in Hok.
  assert (new_operation now d b "Procurement"
          ∈ db ++ add_missing now db d b ROLE_ORDER []) as Hin.
  { apply elem_of_app. right. apply add_missing_elem.
    exists "Procurement". split; [apply list_elem_of_here | done]. }
  pose proof (row_checked _ (Hok _ Hin)) as Hcheck.
  apply check_row_None in Hcheck as (_ & _ & _ & _ & Hv & _ & _).
  unfold valid_year in Hv. cbn [year new_operation] in Hv.
  apply andb_true_iff in Hv as [Hy1 Hy2].
  apply Z.leb_le in Hy1, Hy2. lia.
Qed.

(** The claim C9 as stated fails: a call of [initialize_batch] need not
    succeed.  Sunday 31 December 2023 offers batch A, and the table
    refuses its year: the call returns False and no role has a record.
    Monday 15 January 2024 does not offer batch D: the same. *)
Lemma initialize_batch_refused :
  valid_date (mkdate 2023 12 31) = true
  /\ is_batch_available (mkdate 2023 12 31) "A" = true
  /\ BatchService.initialize_batch Examples.at_9 [] (mkdate 2023 12 31) "A"
     = (false, [])
  /\ BatchService.initialize_batch Examples.at_9 [] Examples.monday "D"
     = (false, []).
Proof. vm_compute. by repeat split. Qed.

(** C9. On a table the application can produce, [initialize_batch] for a
    batch offered on the date, in a year from 2024 to 2100, succeeds;
    after it each of the eleven roles has exactly one record for the
    date and batch, which is PENDING when the call created it; every
    record that existed is where and as it was; and a second call with
    the same arguments (at any later clock reading) succeeds too and
    returns the very same table: no duplicate, no change.  For a batch
    not offered on the date, or a year outside 2024 to 2100, every call
    returns False and leaves the table as it is, the second as the
    first. *)
Theorem initialize_batch_idempotent now db d b :
  reachable db ->
  length ROLE_ORDER = 11%nat
  /\ (is_batch_available d b = true -> 2024 <= d_year d <= 2100 ->
      exists db1,
        BatchService.initialize_batch now db d b = (true, db1)
        /\ (forall role,
               role ∈ ROLE_ORDER ->
               exists i r,
                 db1 !! i = Some r /\ key r = (d, b, role)
                 /\ (forall j r', db1 !! j = Some r' ->
                                  key r' = (d, b, role) -> j = i)
                 /\ ((forall r0, r0 ∈ db -> key r0 <> (d, b, role)) ->
                     status r = OperationStatus.PENDING))
        /\ (forall i r, db !! i = Some r -> db1 !! i = Some r)
        /\ (forall now',
               BatchService.initialize_batch now' db1 d b = (true, db1)))
  /\ (is_batch_available d b = false \/ ~ 2024 <= d_year d <= 2100 ->
      forall now', BatchService.initialize_batch now' db d b = (false, db)).
Proof.
  intros Hr. split; [reflexivity|]. split;
    [|intros Hc now'; by apply initialize_batch_fails].
  intros Ha Hy. apply reachable_inv in Hr as Hinv.
  destruct (initialize_batch_succeeds now db d b Ha Hy) as [db1 Heq].
  exists db1. split; [exact Heq|].
  destruct (initialize_batch_rows now db d b db1 Hinv Heq)
    as ([Hnd1 _] & Hdb1 & _).
  assert (forall role, role ∈ ROLE_ORDER ->
            exists i r, get_operation db1 d b role = Some (i, r)
                        /\ ((forall r0, r0 ∈ db -> key r0 <> (d, b, role)) ->
                            r = new_operation now d b role)) as Hall.
  { intros role Hrole.
    pose proof (initialize_batch_lookup now db d b db1 role Hinv Heq Hrole)
      as Hl.
    destruct (get_operation db d b role) as [[i r]|] eqn:Hg.
    - exists i, r. split; [exact Hl|].
      apply get_operation_Some in Hg as [Hi Hk].
      intros Hmiss. exfalso. apply (Hmiss r); [|done].
      by eapply list_elem_of_lookup_2.
    - destruct Hl as [j Hj]. by exists j, (new_operation now d b role). }
  split; [|split].
  - intros role Hrole. destruct (Hall role Hrole) as (i & r & Hg & Hnew).
    exists i, r. pose proof (get_operation_Some _ _ _ _ _ _ Hg) as [Hi Hk].
    split; [done|]. split; [done|]. split.
    + intros j r' Hj Hk'.
      pose proof (get_operation_lookup db1 d b role j r' Hnd1 Hj Hk') as Hg'.
      congruence.
    + intros Hmiss. by rewrite (Hnew Hmiss).
  - intros i r Hi. rewrite Hdb1. by apply lookup_app_l_Some.
  - intros now'. unfold BatchService.initialize_batch. rewrite Ha.
    cbn [negb].
    rewrite add_missing_none; [reflexivity|].
    intros role Hrole. destruct (Hall role Hrole) as (i & r & Hg & _).
    by eexists.
Qed.

Lemma initialize_batch_idempotent_witness :
  exists db1,
    BatchService.initialize_batch Examples.at_10
      Examples.procurement_started Examples.tuesday "A" = (true, db1)
    /\ BatchService.initialize_batch Examples.at_11 db1 Examples.tuesday "A"
       = (true, db1).
Proof.
  assert (reachable Examples.procurement_started) as Hr.
  { unfold Examples.procurement_started. apply reach_start, reach_empty. }
  assert (2024 <= d_year Examples.tuesday <= 2100) as Hy.
  { vm_compute. split; discriminate. }
  destruct (proj1 (proj2
              (initialize_batch_idempotent Examples.at_10
                 Examples.procurement_started Examples.tuesday "A" Hr))
              eq_refl Hy)
    as (db1 & Heq & _ & _ & Hagain).
  exists db1. split; [exact Heq | exact (Hagain Examples.at_11)].
Defined.

(* ===================================================================== *)
(** ** The answers of the initialize endpoint *)
(* ===================================================================== *)

(** X18. The initialize endpoint.  On a table the application can
    produce, for a batch letter offered on the date and a year the table
    allows (2024 to 2100), the endpoint answers with the batch and its
    eleven roles whether or not the date is past: the read-only rule is
    not applied, the answer only reports it.  Afterwards every role has
    a record; a role that had none is shown PENDING, a role that had one
    is shown with the status of that record, so the answer is all
    PENDING only for a batch without started records; and the status
    and counters of the batch are those from before.  When the endpoint
    answers with an error the table is untouched: 422 exactly for a
    parameter that is no batch letter, 400 exactly for a batch letter
    not offered on the date, and 500 exactly for an offered batch letter
    and a year outside 2024 to 2100. *)
Theorem initialize_endpoint users now db b d :
  reachable db ->
  (forall b',
      validate_batch b = Some b' ->
      is_batch_available d b' = true ->
      2024 <= d_year d <= 2100 ->
      exists view db',
        Routers.initialize_batch users now db b d
        = (Routers.Ok (Some view), db')
        /\ br_batch view = b'
        /\ br_is_readonly view = is_past_date now d
        /\ rs_role <$> br_roles view = ROLE_ORDER
        /\ (forall role, role ∈ ROLE_ORDER ->
              is_Some (get_operation db' d b' role))
        /\ (forall rs, rs ∈ br_roles view ->
              match get_operation db d b' (rs_role rs) with
              | None => rs_status rs = OperationStatus.PENDING
              | Some (_, r) => rs_status rs = status r
              end)
        /\ br_status view = bs_status (_calculate_batch_status db d b')
        /\ br_started_count view
           = started_count (_calculate_batch_status db d b')
        /\ br_completed_count view
           = completed_count (_calculate_batch_status db d b'))
  /\ (forall code db',
        Routers.initialize_batch users now db b d
        = (Routers.HttpError code, db') ->
        db' = db
        /\ ((code = 422 /\ validate_batch b = None)
            \/ (code = 400
                /\ exists b', validate_batch b = Some b'
                              /\ is_batch_available d b' = false)
            \/ (code = 500 /\ ~ 2024 <= d_year d <= 2100)))
  /\ (validate_batch b = None ->
      Routers.initialize_batch users now db b d
      = (Routers.HttpError 422, db))
  /\ (forall b',
        validate_batch b = Some b' ->
        is_batch_available d b' = false ->
        Routers.initialize_batch users now db b d
        = (Routers.HttpError 400, db))
  /\ (forall b',
        validate_batch b = Some b' ->
        is_batch_available d b' = true ->
        ~ 2024 <= d_year d <= 2100 ->
        Routers.initialize_batch users now db b d
        = (Routers.HttpError 500, db)).
Proof.
  intros Hr. apply reachable_inv in Hr as Hinv.
  split; [|split; [|split; [|split]]];
    [| |intros Hb; unfold Routers.initialize_batch, Routers.normalize_batch;
        by rewrite Hb
     |intros b' Hb Ha;
        unfold Routers.initialize_batch, Routers.normalize_batch;
        by rewrite Hb, Ha
     |intros b' Hb Ha Hy;
        unfold Routers.initialize_batch, Routers.normalize_batch;
        rewrite Hb, Ha; cbn [negb];
        by rewrite (initialize_batch_fails now db d b' Hr (or_intror Hy))].
  - intros b' Hb Ha Hy.
    destruct (initialize_batch_succeeds now db d b' Ha Hy) as [db1 Heq].
    destruct (initialize_batch_rows now db d b' db1 Hinv Heq)
      as (Hinv1 & Hdb1 & _).
    assert (BatchService.get_batch_with_roles users now db1 d b'
            = Some {| br_batch := b';
                      br_operation_date := d;
                      br_day_of_week := get_day_name d;
                      br_month := get_month_name d;
                      br_year := d_year d;
                      br_status := bs_status (_calculate_batch_status db1 d b');
                      br_is_readonly := is_past_date now d;
                      br_started_count :=
                        started_count (_calculate_batch_status db1 d b');
                      br_completed_count :=
                        completed_count (_calculate_batch_status db1 d b');
                      br_total_roles :=
                        total_roles (_calculate_batch_status db1 d b');
                      br_progress_percentage :=
                        progress_percentage (_calculate_batch_status db1 d b');
                      br_roles := get_all_roles_status users db1 d b' |})
      as Hview.
    { unfold BatchService.get_batch_with_roles.
      unfold is_batch_available in Ha. by rewrite Ha. }
    eexists _, db1. split.
    { unfold Routers.initialize_batch, Routers.normalize_batch.
      rewrite Hb, Ha, Heq. cbn [negb]. rewrite Hview. reflexivity. }
    cbn [br_batch br_is_readonly br_roles br_status br_started_count
         br_completed_count].
    assert (_calculate_batch_status db1 d b' = _calculate_batch_status db d b')
      as ->.
    { rewrite Hdb1. apply calculate_batch_status_app.
      apply add_missing_fresh. constructor. }
    split; [done|]. split; [done|]. split; [|split; [|split; [|done]]].
    + apply list_eq. intros i.
      rewrite list_lookup_fmap, get_all_roles_status_lookup.
      destruct (ROLE_ORDER !! i) as [role|]; [|done].
      simpl. unfold role_status. by destruct (op_map_get _ _).
    + intros role Hrole.
      pose proof (initialize_batch_lookup now db d b' db1 role Hinv Heq Hrole)
        as Hl.
      destruct (get_operation db d b' role) as [found|];
        [by eexists | destruct Hl as [j ->]; by eexists].
    + intros rs Hrs. apply list_elem_of_lookup in Hrs as [i Hi].
      rewrite get_all_roles_status_lookup in Hi.
      destruct (ROLE_ORDER !! i) as [role|] eqn:Ei; [|discriminate].
      injection Hi as <-.
      assert (role ∈ ROLE_ORDER) as Hrole
          by (by eapply list_elem_of_lookup_2).
      pose proof (initialize_batch_lookup now db d b' db1 role Hinv Heq Hrole)
        as Hl.
      assert (rs_role (role_status users (get_batch_operations db1 d b') i
                         role) = role) as ->
          by (unfold role_status; by destruct (op_map_get _ _)).
      unfold role_status.
      rewrite (op_map_get_get_operation db1 d b' role (proj1 Hinv1)).
      destruct (get_operation db d b' role) as [[j r]|].
      * by rewrite Hl.
      * destruct Hl as [j ->]. reflexivity.
  - intros code db'. unfold Routers.initialize_batch, Routers.normalize_batch.
    destruct (validate_batch b) as [b'|] eqn:Hb;
      [|intros [= <- <-]; split; [done | by left]].
    destruct (is_batch_available d b') eqn:Ha; cbn [negb];
      [|intros [= <- <-]; split; [done|]; right; left; split; [done|];
        by exists b'].
    destruct (initialize_batch_table now db d b') as [[Hf Hdb]|[Ht _]];
      destruct (BatchService.initialize_batch now db d b')
        as [success db1] eqn:E; cbn [fst snd] in *; subst success;
      cbn [negb]; [|discriminate].
    intros [= <- <-]. split; [done|]. right. right. split; [done|].
    intros Hy.
    destruct (initialize_batch_succeeds now db d b' Ha Hy) as [db2 Heq].
    congruence.
Qed.

Lemma initialize_endpoint_witness :
  exists view db',
    Routers.initialize_batch Examples.users Examples.next_day
      Examples.two_started "a" Examples.tuesday
    = (Routers.Ok (Some view), db')
    /\ br_is_readonly view = is_past_date Examples.next_day Examples.tuesday.
Proof.
  destruct (proj1 (initialize_endpoint Examples.users Examples.next_day
                     Examples.two_started "a" Examples.tuesday
                     ltac:(unfold Examples.two_started,
                             Examples.procurement_started;
                           apply reach_start, reach_start, reach_empty))
              "A" eq_refl eq_refl ltac:(simpl; lia))
    as (view & db' & H1 & _ & H2 & _).
  exists view, db'. split; [exact H1 | exact H2].
Defined.

(* ===================================================================== *)
(** ** The answers of the reading endpoints *)
(* ===================================================================== *)

Lemma validate_batch_None v :
  validate_batch v = None
  <-> v ∉ ["A"; "B"; "C"; "D"; "a"; "b"; "c"; "d"].
Proof.
  split.
  - intros Hn Hin.
    rewrite (proj2 (validate_batch_spec v (upper v)) (conj Hin eq_refl)) in Hn.
    discriminate.
  - intros Hn. destruct (validate_batch v) as [b'|] eqn:E; [|done].
    apply validate_batch_spec in E as [Hin _]. by destruct Hn.
Qed.

Lemma not_offered d b :
  b ∈ VALID_BATCHES ->
  Py.str_in b (get_available_batches_for_date d) = false
  <-> b = "D" /\ existsb (Z.eqb (isoweekday d)) RESTRICTED_DAYS = true.
Proof.
  intros Hb. unfold VALID_BATCHES, ALL_BATCHES in Hb.
  destruct (available_batches_cases d) as [[-> ->] | [-> ->]];
    repeat (apply elem_of_cons in Hb as [-> | Hb];
            [split; [try done | by intros [? ?]]|]);
    by apply elem_of_nil in Hb.
Qed.

(** X21. The answers of the reading endpoints.  A batch parameter that
    is none of the letters A to D in either case is 422 everywhere, and
    so is, for the operation and the check-previous endpoints, a role
    that is not exactly a role of the sequence.  The batch detail and
    the batch roles are 404 exactly for batch D on a restricted day, and
    otherwise carry what the service returns for the upper-case letter.
    The operation endpoint is 404 exactly when the triple has no record,
    which on a table the application can produce is always the case for
    batch D on a restricted day.  The check-previous endpoint never
    answers 404: it does not look at the offered batches; it answers
    422 exactly for such a batch parameter or such a role. *)
Theorem reading_endpoints_answers users now db b d role :
  let letters := ["A"; "B"; "C"; "D"; "a"; "b"; "c"; "d"] in
  let restricted := is_restricted_day (get_batches_for_date db d) in
  (Routers.get_batch_detail now db b d = Routers.HttpError 422
   <-> b ∉ letters)
  /\ (Routers.get_batch_detail now db b d = Routers.HttpError 404
      <-> (b = "D" \/ b = "d") /\ restricted = true)
  /\ (forall detail,
        Routers.get_batch_detail now db b d = Routers.Ok detail
        <-> b ∈ letters
            /\ BatchService.get_batch_detail now db d (upper b) = Some detail)
  /\ (forall code,
        Routers.get_batch_roles users now db b d = Routers.HttpError code
        <-> Routers.get_batch_detail now db b d = Routers.HttpError code)
  /\ (forall view,
        Routers.get_batch_roles users now db b d = Routers.Ok view
        <-> b ∈ letters
            /\ BatchService.get_batch_with_roles users now db d (upper b)
               = Some view)
  /\ (Routers.get_operation users db d b role = Routers.HttpError 422
      <-> b ∉ letters \/ role ∉ ROLE_ORDER)
  /\ (Routers.get_operation users db d b role = Routers.HttpError 404
      <-> b ∈ letters /\ role ∈ ROLE_ORDER
          /\ OperationService.get_operation db d (upper b) role = None)
  /\ (reachable db -> (b = "D" \/ b = "d") -> restricted = true ->
      role ∈ ROLE_ORDER ->
      Routers.get_operation users db d b role = Routers.HttpError 404)
  /\ (forall body,
        Routers.check_previous_role db d b role = Routers.Ok body
        <-> b ∈ letters /\ role ∈ ROLE_ORDER
            /\ body = OperationService.check_previous_role db d (upper b)
                        role)
  /\ Routers.check_previous_role db d b role <> Routers.HttpError 404
  /\ (Routers.check_previous_role db d b role = Routers.HttpError 422
      <-> b ∉ letters \/ role ∉ ROLE_ORDER).
Proof.
  intros letters restricted.
  assert (restricted = existsb (Z.eqb (isoweekday d)) RESTRICTED_DAYS)
    as Hres by reflexivity.
  rewrite Hres. clear Hres restricted.
  unfold Routers.get_batch_detail, Routers.get_batch_roles,
    Routers.get_operation, Routers.check_previous_role,
    Routers.normalize_batch.
  destruct (validate_batch b) as [b'|] eqn:Eb.
  - pose proof (validate_batch_valid b b' Eb) as [Hvalid _].
    apply validate_batch_spec in Eb as [Hin ->]. fold letters in Hin.
    assert ((b = "D" \/ b = "d") <-> upper b = "D") as HD.
    { subst letters.
      repeat (apply elem_of_cons in Hin as [-> | Hin];
              [split; [intros [? | ?]; done | intros ?; auto; done]|]).
      by apply elem_of_nil in Hin. }
    apply str_in_elem_of in Hvalid as Hvalid'.
    pose proof (not_offered d (upper b) Hvalid') as Hoff.
    assert (BatchService.get_batch_with_roles users now db d (upper b) = None
            <-> BatchService.get_batch_detail now db d (upper b) = None)
      as Hsame.
    { unfold BatchService.get_batch_with_roles, BatchService.get_batch_detail.
      by destruct (Py.str_in (upper b) (get_available_batches_for_date d)). }
    assert (BatchService.get_batch_detail now db d (upper b) = None
            <-> Py.str_in (upper b) (get_available_batches_for_date d)
                = false) as Hnone.
    { unfold BatchService.get_batch_detail.
      by destruct (Py.str_in (upper b) (get_available_batches_for_date d)). }
    unfold VALID_ROLES.
    split; [split; [|done]|].
    { destruct (BatchService.get_batch_detail now db d (upper b));
        discriminate. }
    split.
    { rewrite HD, <- Hoff, <- Hnone.
      destruct (BatchService.get_batch_detail now db d (upper b));
        split; done. }
    split.
    { intros detail.
      destruct (BatchService.get_batch_detail now db d (upper b)).
      - split; [by intros [= ->] | by intros [_ [= ->]]].
      - split; [discriminate | by intros [_ [=]]]. }
    split.
    { intros code.
      destruct (BatchService.get_batch_with_roles users now db d (upper b))
        eqn:E1,
        (BatchService.get_batch_detail now db d (upper b)) eqn:E2;
        first [by split
              | by split; intros [= <-]
              | by pose proof (proj2 Hsame eq_refl)
              | by pose proof (proj1 Hsame eq_refl)]. }
    split.
    { intros view.
      destruct (BatchService.get_batch_with_roles users now db d (upper b)).
      - split; [by intros [= ->] | by intros [_ [= ->]]].
      - split; [discriminate | by intros [_ [=]]]. }
    split.
    { destruct (Py.str_in role ROLE_ORDER) eqn:Er; cbn [negb].
      - split.
        + destruct (OperationService.get_operation db d (upper b) role)
            as [[i r]|]; discriminate.
        + intros [Hn | Hn]; [done|]. destruct Hn. by apply str_in_elem_of.
      - split; [|done]. intros _. right. intros Hr.
        apply str_in_elem_of in Hr. congruence. }
    split.
    { destruct (Py.str_in role ROLE_ORDER) eqn:Er; cbn [negb].
      - apply str_in_elem_of in Er.
        destruct (OperationService.get_operation db d (upper b) role)
          as [[i r]|]; split; try done. by intros (_ & _ & [=]).
      - split; [discriminate|]. intros (_ & Hr & _).
        apply str_in_elem_of in Hr. congruence. }
    split.
    { intros Hr HDb Hrest Hin'. apply HD in HDb.
      apply str_in_elem_of in Hin' as ->. cbn [negb]. rewrite HDb.
      destruct (OperationService.get_operation db d "D" role) as [[i r]|] eqn:Eg;
        [|done].
      exfalso. apply get_operation_Some in Eg as [Hi Hk].
      pose proof (reachable_columns db Hr) as Hcols.
      rewrite Forall_forall in Hcols.
      destruct (Hcols r (list_elem_of_lookup_2 _ _ _ Hi)) as [H1 _ _ _ _ _].
      unfold key in Hk. injection Hk as Hkd Hkb _. rewrite Hkd, Hkb in H1.
      assert (Py.str_in "D" (get_available_batches_for_date d) = false)
        as H2; [|congruence].
      rewrite <- HDb. apply Hoff. by rewrite HDb. }
    split.
    { intros body. destruct (Py.str_in role ROLE_ORDER) eqn:Er; cbn [negb].
      - apply str_in_elem_of in Er.
        split; [by intros [= <-] | by intros (_ & _ & ->)].
      - split; [discriminate|]. intros (_ & Hr & _).
        apply str_in_elem_of in Hr. congruence. }
    split; [destruct (Py.str_in role ROLE_ORDER); discriminate|].
    destruct (Py.str_in role ROLE_ORDER) eqn:Er; cbn [negb].
    + split; [discriminate|].
      intros [Hn | Hn]; [done|]. destruct Hn. by apply str_in_elem_of.
    + split; [|done]. intros _. right. intros Hr.
      apply str_in_elem_of in Hr. congruence.
  - apply validate_batch_None in Eb. fold letters in Eb.
    split; [by split|].
    split; [split; [discriminate|]|].
    { intros [[-> | ->] _]; destruct Eb; subst letters;
        by apply str_in_elem_of. }
    split; [intros detail; split; [discriminate | by intros [? _]]|].
    split; [intros code; split; by intros [= <-]|].
    split; [intros view; split; [discriminate | by intros [? _]]|].
    split; [split; [by left | done]|].
    split; [split; [discriminate | by intros [? _]]|].
    split.
    { intros _ [-> | ->]; destruct Eb; subst letters;
        by apply str_in_elem_of. }
    split; [intros body; split; [discriminate | by intros [? _]]|].
    split; [discriminate|]. split; [by left | done].
Qed.

(* ===================================================================== *)
(** ** The Driver record is completed by the Driver completion only *)
(* ===================================================================== *)

(** A record without an end time has no delivery counts yet. *)
Lemma open_record_no_total r :
  row_ok r -> end_time r = None -> total_orders r = None.
Proof.
  intros Hok He. destruct (total_orders r) as [t|] eqn:Ht; [|done].
  destruct (row_delivery r Hok) as [e He']; [by eexists | congruence].
Qed.

(** X22. The Driver record is completed by the Driver completion only,
    and its counts are written once.  On a table the application can
    produce, the generic end service called for the Driver role always
    fails and writes nothing (the table refuses a completed Driver
    record without a total_orders), and the end endpoint refuses such a
    request as 422 before the service runs.  Whatever calls of the four
    mutating services follow, a record that has delivery counts keeps
    them, at its place. *)
Theorem driver_completed_once users now db :
  reachable db ->
  (forall data user,
      end_role data = DRIVER_ROLE ->
      (OperationService.end_operation users now db data user).1.1.1 = false
      /\ (OperationService.end_operation users now db data user).2 = db)
  /\ (forall d b role user,
        strip role = DRIVER_ROLE ->
        Routers.end_operation users now db d b role user
        = (Routers.RequestValidationError, db))
  /\ (forall db' i r t,
        evolves db db' -> db !! i = Some r -> total_orders r = Some t ->
        exists r',
          db' !! i = Some r'
          /\ total_orders r' = Some t
          /\ on_time_deliveries r' = on_time_deliveries r
          /\ end_time r' = end_time r).
Proof.
  intros Hr. split; [|split].
  - intros data user Hrole.
    destruct (end_operation_table users now db data user)
      as [H|(i & op & t & Hg & Hs & He & Hc & _ & _)]; [exact H|].
    exfalso. apply get_operation_Some in Hg as [Hi Hk].
    pose proof (reachable_row_ok db op Hr (list_elem_of_lookup_2 _ _ _ Hi))
      as Hok.
    pose proof (open_record_no_total op Hok He) as Ht.
    destruct (check_row_None _ Hc) as (_ & _ & _ & _ & _ & Hd & _).
    unfold driver_orders_valid in Hd. cbn in Hd.
    assert (operation_role op = "Driver") as Hop
        by (unfold key in Hk; unfold DRIVER_ROLE in Hrole; congruence).
    rewrite Hop, Ht in Hd. discriminate.
  - intros d b role user Hrole.
    unfold Routers.end_operation, OperationEnd_validate.
    destruct (validate_batch b); [|reflexivity].
    unfold validate_role_end. rewrite Hrole. reflexivity.
  - intros db' i r t Hev. revert i r t.
    induction Hev as [|users' now' db' data user Hev IH
                      |users' now' db' data user Hev IH
                      |users' now' db' data user Hev IH
                      |now' db' d b Hev IH]; intros i r t Hi Ht.
    + by exists r.
    + destruct (IH i r t Hi Ht) as (r1 & Hi1 & Ht1 & Ho1 & He1).
      destruct (start_operation_table users' now' db' data user)
        as [[_ ->]|(db1 & j & op & Hg & Hs & _ & -> & _)];
        [by exists r1|].
      pose proof (get_or_create_lookup _ _ _ _ _ _ _ _ Hg) as [Hj _].
      assert (db1 !! i = Some r1) as Hi1'.
      { apply get_or_create_inr in Hg as [[_ ->]|(_ & _ & _ & Hins)]; [done|].
        apply insert_inr in Hins as (-> & _ & _). by apply lookup_app_l_Some. }
      destruct (decide (i = j)) as [-> | Hne].
      * eexists. rewrite list_lookup_insert_eq by (by eapply lookup_lt_Some).
        split; [reflexivity|]. cbn.
        assert (op = r1) as -> by congruence. done.
      * exists r1. by rewrite list_lookup_insert_ne.
    + destruct (IH i r t Hi Ht) as (r1 & Hi1 & Ht1 & Ho1 & He1).
      destruct (end_operation_table users' now' db' data user)
        as [[_ ->]|(j & op & t' & Hg & Hs & He & _ & -> & _)];
        [by exists r1|].
      apply get_operation_Some in Hg as [Hj _].
      destruct (decide (i = j)) as [-> | Hne].
      * exfalso. assert (op = r1) as -> by congruence.
        pose proof (evolves_reachable db db' Hr Hev) as Hr'.
        pose proof (reachable_row_ok db' r1 Hr'
                      (list_elem_of_lookup_2 _ _ _ Hi1)) as Hok.
        pose proof (open_record_no_total r1 Hok He). congruence.
      * exists r1. by rewrite list_lookup_insert_ne.
    + destruct (IH i r t Hi Ht) as (r1 & Hi1 & Ht1 & Ho1 & He1).
      destruct (end_driver_operation_table users' now' db' data user)
        as [[_ ->]|(j & op & t' & Hg & Hs & He & _ & -> & _)];
        [by exists r1|].
      apply get_operation_Some in Hg as [Hj _].
      destruct (decide (i = j)) as [-> | Hne].
      * exfalso. assert (op = r1) as -> by congruence.
        pose proof (evolves_reachable db db' Hr Hev) as Hr'.
        pose proof (reachable_row_ok db' r1 Hr'
                      (list_elem_of_lookup_2 _ _ _ Hi1)) as Hok.
        pose proof (open_record_no_total r1 Hok He). congruence.
      * exists r1. by rewrite list_lookup_insert_ne.
    + destruct (IH i r t Hi Ht) as (r1 & Hi1 & Ht1 & Ho1 & He1).
      destruct (initialize_batch_table now' db' d b)
        as [[_ Heq]|(_ & _ & Hins)].
      * exists r1. by rewrite Heq.
      * exists r1. split; [|done]. by eapply insert_all_lookup.
Qed.

Lemma driver_completed_once_witness :
  (OperationService.end_operation Examples.users Examples.at_10
     Examples.driver_started (mkOperationEnd Examples.tuesday "A" "Driver")
     Examples.ada).2
  = Examples.driver_started.
Proof.
  refine (proj2 (proj1 (driver_completed_once Examples.users Examples.at_10
                          Examples.driver_started _)
                   (mkOperationEnd Examples.tuesday "A" "Driver")
                   Examples.ada eq_refl)).
  unfold Examples.driver_started. apply reach_start, reach_empty.
Defined.

(* ===================================================================== *)
(** ** Exactly when a service succeeds *)
(* ===================================================================== *)

Lemma start_operation_open users now db data user :
  (OperationService.start_operation users now db data user).1.1.1 = true ->
  is_past_date now (start_operation_date data) = false.
Proof.
  unfold OperationService.start_operation.
  destruct (negb _); [discriminate|].
  by destruct (is_past_date _ _).
Qed.

Lemma end_operation_open users now db data user :
  (OperationService.end_operation users now db data user).1.1.1 = true ->
  is_past_date now (end_operation_date data) = false.
Proof.
  unfold OperationService.end_operation. by destruct (is_past_date _ _).
Qed.

Lemma end_driver_operation_open users now db data user :
  (OperationService.end_driver_operation users now db data user).1.1.1
  = true ->
  is_past_date now (driver_operation_date data) = false.
Proof.
  unfold OperationService.end_driver_operation.
  by destruct (is_past_date _ _).
Qed.

(** X23. Exactly when a service succeeds, on a table the application
    can produce.  A start succeeds exactly when the batch is offered on
    the date, the date is not past, and the record of the triple either
    exists without a start time or is absent with a role of the sequence
    and a year from 2024 to 2100.  An end succeeds exactly when the date
    is not past, the role is not the Driver, and the record exists,
    started, not completed, with a start time not after the clock.  A
    Driver completion succeeds exactly when the date is not past, the
    Driver record exists, started, not completed, with a start time not
    after the clock, and the counts fit the integer columns with
    0 <= total_orders and on_time_deliveries <= total_orders.  No
    condition bears on the record of any other role: the role order
    never refuses a call. *)
Theorem success_conditions users now db :
  reachable db ->
  (forall data user,
      let d := start_operation_date data in
      let b := start_batch data in
      let role := start_role data in
      (OperationService.start_operation users now db data user).1.1.1 = true
      <-> Py.str_in b (get_available_batches_for_date d) = true
          /\ is_past_date now d = false
          /\ ((exists i r, get_operation db d b role = Some (i, r)
                           /\ start_time r = None)
              \/ (get_operation db d b role = None
                  /\ role ∈ ROLE_ORDER /\ 2024 <= d_year d <= 2100)))
  /\ (forall data user,
        let d := end_operation_date data in
        let b := end_batch data in
        let role := end_role data in
        (OperationService.end_operation users now db data user).1.1.1 = true
        <-> is_past_date now d = false
            /\ role <> DRIVER_ROLE
            /\ exists i r s,
                get_operation db d b role = Some (i, r)
                /\ start_time r = Some s /\ end_time r = None
                /\ datetime_leb s now = true)
  /\ (forall data user,
        let d := driver_operation_date data in
        let b := driver_batch data in
        let total := driver_total_orders data in
        let on_time := driver_on_time_deliveries data in
        (OperationService.end_driver_operation users now db data user).1.1.1
        = true
        <-> is_past_date now d = false
            /\ (exists i r s,
                  get_operation db d b DRIVER_ROLE = Some (i, r)
                  /\ start_time r = Some s /\ end_time r = None
                  /\ datetime_leb s now = true)
            /\ 0 <= total /\ on_time <= total
            /\ int4 total = true /\ int4 on_time = true).
Proof.
  intros Hr. pose proof (reachable_inv db Hr) as Hinv.
  split; [|split].
  - intros data user d b role. split.
    + intros Hs.
      pose proof (start_operation_available _ _ _ _ _ Hs) as Ha.
      pose proof (start_operation_open _ _ _ _ _ Hs) as Hp.
      split; [exact Ha|]. split; [exact Hp|].
      destruct (start_operation_table users now db data user)
        as [[Hf _]|(db1 & i & op & Hg & Hst & _ & _ & _)]; [congruence|].
      apply get_or_create_inr in Hg as [[Hg _]|(Hg & -> & _ & Hi)].
      * left. by exists i, op.
      * right. split; [exact Hg|].
        apply insert_inr in Hi as (_ & Hc & _).
        destruct (check_row_None _ Hc) as (_ & _ & Hv & _ & Hy & _ & _).
        unfold valid_role in Hv. unfold valid_year in Hy. cbn in Hv, Hy.
        apply andb_true_iff in Hy as [Hy1 Hy2].
        apply Z.leb_le in Hy1, Hy2.
        split; [by apply str_in_elem_of | done].
    + intros (Ha & Hp & Hrec).
      assert (exists op db',
                OperationService.start_operation users now db data user
                = ((true, Messages.OPERATION_STARTED,
                    Some (OperationData op (start_warning db d b role))),
                   db')) as (op & db' & ->); [|done].
      destruct Hrec as [(i & r & Hg & Hst) | (Hg & Hrole & Hy)].
      * apply get_operation_Some in Hg as Hg'. destruct Hg' as [Hi Hk].
        pose proof (reachable_row_ok db r Hr (list_elem_of_lookup_2 _ _ _ Hi))
          as Hok.
        destruct (check_row_None r (row_checked r Hok))
          as (_ & _ & Hv & _ & Hy & _ & _).
        unfold key in Hk. injection Hk as Hkd Hkb Hkr.
        apply (start_operation_succeeds users now db data user Hinv Ha Hp).
        -- unfold valid_role in Hv. fold role. rewrite <- Hkr.
           by apply str_in_elem_of.
        -- unfold valid_year in Hy.
           pose proof (reachable_columns db Hr) as Hcols.
           rewrite Forall_forall in Hcols.
           destruct (Hcols r (list_elem_of_lookup_2 _ _ _ Hi))
             as [_ _ _ Hyear _ _].
           rewrite Hyear, Hkd in Hy.
           apply andb_true_iff in Hy as [Hy1 Hy2].
           apply Z.leb_le in Hy1, Hy2. done.
        -- intros r' Hin' Hk'.
           assert (r' = r) as ->; [|done].
           apply (NoDup_fmap_inj_on key db); [apply Hinv|done| |].
           ++ by eapply list_elem_of_lookup_2.
           ++ rewrite Hk'. unfold key. by rewrite Hkd, Hkb, Hkr.
      * apply (start_operation_succeeds users now db data user Hinv Ha Hp
                 Hrole Hy).
        intros r' Hin' Hk'. exfalso.
        by apply (get_operation_None db d b role Hg r' Hin').
  - intros data user d b role. split.
    + intros Hs. pose proof (end_operation_open _ _ _ _ _ Hs) as Hp.
      split; [exact Hp|].
      destruct (end_operation_table users now db data user)
        as [[Hf _]|(i & op & s & Hg & Hst & He & Hc & _ & _)]; [congruence|].
      apply get_operation_Some in Hg as Hg'. destruct Hg' as [Hi Hk].
      pose proof (reachable_row_ok db op Hr (list_elem_of_lookup_2 _ _ _ Hi))
        as Hok.
      destruct (check_row_None _ Hc) as (_ & _ & _ & Hes & _ & Hd & _).
      split.
      * intros Hrole.
        pose proof (open_record_no_total op Hok He) as Ht.
        unfold driver_orders_valid in Hd. cbn in Hd.
        assert (operation_role op = "Driver") as Hop
            by (unfold key in Hk; injection Hk as _ _ Hkr;
                rewrite Hkr; exact Hrole).
        rewrite Hop, Ht in Hd. discriminate.
      * exists i, op, s. split; [exact Hg|]. split; [done|]. split; [done|].
        unfold end_after_start in Hes. cbn in Hes. by rewrite Hst in Hes.
    + intros (Hp & Hrole & i & r & s & Hg & Hst & He & Hle).
      apply get_operation_Some in Hg as Hg'. destruct Hg' as [Hi Hk].
      pose proof (reachable_row_ok db r Hr (list_elem_of_lookup_2 _ _ _ Hi))
        as Hok.
      unfold OperationService.end_operation. fold d b role.
      rewrite Hp, Hg, He, Hst. unfold Db.update.
      rewrite (check_row_set_completed now r (user_id user) s
                 (row_checked r Hok) Hst He); [done| |done].
      unfold key in Hk. injection Hk as _ _ Hkr. by rewrite Hkr.
  - intros data user d b total on_time. split.
    + intros Hs. pose proof (end_driver_operation_open _ _ _ _ _ Hs) as Hp.
      split; [exact Hp|].
      destruct (end_driver_operation_table users now db data user)
        as [[Hf _]|(i & op & s & Hg & Hst & He & Hc & _ & _)]; [congruence|].
      destruct (check_row_None _ Hc) as (Hcol & _ & _ & Hes & _ & Hd & Hot).
      apply get_operation_Some in Hg as Hg'. destruct Hg' as [Hi Hk].
      assert (operation_role op = "Driver") as Hop
          by (unfold key in Hk; by injection Hk as _ _ Hkr).
      split.
      * exists i, op, s. split; [exact Hg|]. split; [done|]. split; [done|].
        unfold end_after_start in Hes. cbn in Hes. by rewrite Hst in Hes.
      * unfold driver_orders_valid in Hd. cbn in Hd. rewrite Hop in Hd.
        cbn in Hd. apply Z.leb_le in Hd.
        unfold on_time_not_exceed_total in Hot. cbn in Hot.
        apply Z.leb_le in Hot.
        apply columns_ok_spec in Hcol as (_ & _ & _ & _ & _ & Hc1 & Hc2).
        done.
    + intros (Hp & (i & r & s & Hg & Hst & He & Hle) & H0 & Hot & Ht4 & Ho4).
      apply get_operation_Some in Hg as Hg'. destruct Hg' as [Hi Hk].
      pose proof (reachable_row_ok db r Hr (list_elem_of_lookup_2 _ _ _ Hi))
        as Hok.
      destruct (check_row_None r (row_checked r Hok))
        as (Hcol & Hvb & Hvr & _ & Hy & _ & _).
      unfold OperationService.end_driver_operation. fold d b total on_time.
      rewrite Hp, Hg, He, Hst. unfold Db.update.
      assert (check_row
                (touch now
                   (set_delivery (set_completed r now (user_id user)) total
                      on_time)) = None) as ->; [|done].
      apply check_row_intro; try assumption.
      * apply columns_ok_spec in Hcol as (C1 & C2 & C3 & C4 & C5 & _ & _).
        apply columns_ok_spec.
        split; [exact C1|]. split; [exact C2|]. split; [exact C3|].
        split; [exact C4|]. split; [exact C5|].
        split; [exact Ht4 | exact Ho4].
      * unfold end_after_start. cbn. by rewrite Hst.
      * unfold driver_orders_valid. cbn.
        apply Z.leb_le in H0. rewrite H0. by rewrite orb_true_r.
      * unfold on_time_not_exceed_total. cbn. by apply Z.leb_le.
Qed.

Lemma success_conditions_witness :
  (OperationService.start_operation Examples.users Examples.at_10
     Examples.procurement_started (Examples.start_of "Driver")
     Examples.bola).1.1.1 = true.
Proof.
  refine (proj2 (proj1 (success_conditions Examples.users Examples.at_10
                          Examples.procurement_started _)
                   (Examples.start_of "Driver") Examples.bola) _).
  - unfold Examples.procurement_started. apply reach_start, reach_empty.
  - split; [reflexivity|]. split; [reflexivity|]. right.
    split; [reflexivity|]. split; [by apply str_in_elem_of | simpl; lia].
Defined.

(* ===================================================================== *)
(** ** A start for a role that is none of the sequence *)
(* ===================================================================== *)

(** A value within the limit of its column is stored. *)
Lemma varchar_within n s : (Py.len s <= n)%nat -> varchar n s = true.
Proof.
  intros H. unfold varchar, Py.len in *. by rewrite drop_ge.
Qed.

(** X24. A start for a role that is none of the sequence, sent to the
    service itself (the request model lets no such role through), for a
    batch offered on a date that is not past, in a year from 2024 to
    2100, on a table the application can produce.  No record is found,
    the flush of the new one fails and nothing is written.  A role of
    at most 50 characters, or whose characters after the fiftieth are
    all spaces, breaks the constraint valid_role: the answer is
    'Operation already started', without the details of a conflict,
    though nothing was started.  Any other role does not fit its
    column, which is checked first: the answer is the generic failure
    with the text of the error. *)
Theorem start_with_unknown_role users now db data user :
  reachable db ->
  Py.str_in (start_batch data)
    (get_available_batches_for_date (start_operation_date data)) = true ->
  is_past_date now (start_operation_date data) = false ->
  2024 <= d_year (start_operation_date data) <= 2100 ->
  start_role data ∉ ROLE_ORDER ->
  OperationService.start_operation users now db data user
  = ((false,
      (if varchar 50 (start_role data)
       then Messages.OPERATION_ALREADY_STARTED
       else String.append "Failed to start operation: "
              (Db.str
                 (DataError
                    "value too long for type character varying(50)"))),
      None), db)
  /\ ((Py.len (start_role data) <= 50)%nat ->
      varchar 50 (start_role data) = true)
  /\ Messages.OPERATION_ALREADY_STARTED = "Operation already started".
Proof.
  intros Hr Ha Hp Hy Hrole.
  split; [|split; [apply varchar_within | reflexivity]].
  set (d := start_operation_date data) in *.
  set (b := start_batch data) in *.
  set (role := start_role data) in *.
  assert (get_operation db d b role = None) as Hg.
  { destruct (get_operation db d b role) as [[i r]|] eqn:Hg; [|reflexivity].
    exfalso. apply Hrole.
    apply get_operation_Some in Hg as [Hi Hk].
    pose proof (reachable_row_ok db r Hr (list_elem_of_lookup_2 _ _ _ Hi))
      as Hok.
    destruct (check_row_None r (row_checked r Hok))
      as (_ & _ & Hvr & _ & _ & _ & _).
    unfold valid_role, VALID_ROLES in Hvr. apply str_in_elem_of in Hvr.
    unfold key in Hk. injection Hk as _ _ Hkr. by rewrite <- Hkr. }
  assert (Py.str_in role VALID_ROLES = false) as Hnot.
  { destruct (Py.str_in role VALID_ROLES) eqn:E; [|reflexivity].
    exfalso. apply Hrole. by apply str_in_elem_of in E. }
  destruct (varchar_names d) as [Hday Hmonth].
  assert (int4 (d_year d) = true) as Hint.
  { unfold int4. apply andb_true_iff. split; apply Z.leb_le; lia. }
  pose proof (varchar_batch b (available_valid d b Ha)) as Hb.
  assert (check_row (new_operation now d b role)
          = if varchar 50 role
            then Some (IntegrityError "valid_role")
            else Some (DataError
                         "value too long for type character varying(50)"))
    as Hcheck.
  { unfold check_row, mistyped, column_types.
    cbn [find snd fst new_operation day_of_week month year batch
         operation_role total_orders on_time_deliveries opt_int4].
    rewrite Hday, Hmonth, Hint, Hb. cbn [negb].
    destruct (varchar 50 role); cbn [negb option_map fst]; [|reflexivity].
    unfold violated, check_constraints.
    cbn [find snd fst]. unfold valid_batch, valid_role.
    cbn [new_operation batch operation_role].
    rewrite (available_valid d b Ha), Hnot. reflexivity. }
  unfold OperationService.start_operation. fold d b role.
  rewrite Ha, Hp. cbn [negb].
  unfold _get_or_create_operation. rewrite Hg. unfold Db.insert.
  rewrite Hcheck. by destruct (varchar 50 role).
Qed.

Lemma start_with_unknown_role_witness :
  OperationService.start_operation Examples.users Examples.at_9
    Examples.procurement_started
    (Examples.start_of
       "A role of fifty-one characters, none of them blank.")
    Examples.bola
  = ((false,
      String.append "Failed to start operation: "
        (Db.str (DataError "value too long for type character varying(50)")),
      None), Examples.procurement_started).
Proof.
  refine (proj1 (start_with_unknown_role Examples.users Examples.at_9
                   Examples.procurement_started
                   (Examples.start_of
                      "A role of fifty-one characters, none of them blank.")
                   Examples.bola _ _ _ _ _)).
  - unfold Examples.procurement_started. apply reach_start, reach_empty.
  - reflexivity.
  - reflexivity.
  - vm_compute. split; discriminate.
  - intros H. unfold ROLE_ORDER in H.
    repeat (apply elem_of_cons in H as [H | H]; [discriminate|]).
    by apply elem_of_nil in H.
Defined.
